(** * EnvMon4: civil time, the five-minute sampling gate, the EEPROM
      signature and the log record of the environment monitor sketch

    The development embeds [src/EnvMon4.ino] (the 16x2 LCD sketch; the
    second sketch shares [validSignature], [writeSignature] and [setClock]
    verbatim).  Functions of the sketch keep their names.  The Arduino
    libraries the sketch links against (Time, Timezone, DS3232RTC, EEPROM,
    Stream, SD) are not part of the repository sources; what the sketch
    needs from them is modelled in the modules [TimeLib], [Timezone] and
    [Arduino] below, each definition saying where it comes from. *)

From stdpp Require Import gmap list.
From Stdlib Require Import ZArith List String Ascii Bool Lia.
From Stdlib Require Import Floats.SpecFloat.
Import ListNotations.

Local Open Scope Z_scope.

(* ================================================================== *)
(** * The Time library: seconds since 1970 and the civil calendar      *)
(* ================================================================== *)

Module TimeLib.

(** Modelled from the spec: the Time library ([second], [minute], [hour],
    [day], [month], [year], [weekday], [makeTime]) is missing from src/.
    An Instant is "an integer count of seconds since a fixed epoch"
    (section 3); the epoch is 1970-01-01T00:00:00Z and the calendar is the
    Gregorian one, as the scenarios of section 8 require.  Instants are
    integers; the library's [time_t] holds the values [0 .. 2^32 - 1]. *)

Definition SECS_PER_MIN : Z := 60.
Definition SECS_PER_HOUR : Z := 3600.
Definition SECS_PER_DAY : Z := 86400.

Definition time_t_max : Z := 2 ^ 32.

Definition LEAP_YEAR (y : Z) : bool :=
  (y mod 4 =? 0) && (negb (y mod 100 =? 0) || (y mod 400 =? 0)).

Definition year_days (y : Z) : Z := if LEAP_YEAR y then 366 else 365.

Definition monthDays (leap : bool) (m : Z) : Z :=
  if m =? 2 then (if leap then 29 else 28)
  else if (m =? 4) || (m =? 6) || (m =? 9) || (m =? 11) then 30
  else if (1 <=? m) && (m <=? 12) then 31
  else 0.

(** The year loop counts whole years off the day number; the year field of
    the library is a byte offset from 1970, hence the bound of 256 turns. *)
Fixpoint year_loop (fuel : nat) (y days : Z) : Z * Z :=
  match fuel with
  | O => (y, days)
  | S k =>
      if days <? year_days y then (y, days)
      else year_loop k (y + 1) (days - year_days y)
  end.

Fixpoint month_loop (fuel : nat) (leap : bool) (m days : Z) : Z * Z :=
  match fuel with
  | O => (m, days)
  | S k =>
      if days <? monthDays leap m then (m, days)
      else month_loop k leap (m + 1) (days - monthDays leap m)
  end.

Definition elapsedDays (t : Z) : Z := t / SECS_PER_DAY.

Definition second (t : Z) : Z := t mod 60.
Definition minute (t : Z) : Z := (t / 60) mod 60.
Definition hour (t : Z) : Z := (t / 3600) mod 24.

(** Sunday is day 1; 1970-01-01 was a Thursday (day 5). *)
Definition weekday (t : Z) : Z := (elapsedDays t + 4) mod 7 + 1.

Definition year (t : Z) : Z := fst (year_loop 256 1970 (elapsedDays t)).

Definition month (t : Z) : Z :=
  let '(y, d) := year_loop 256 1970 (elapsedDays t) in
  fst (month_loop 11 (LEAP_YEAR y) 1 d).

Definition day (t : Z) : Z :=
  let '(y, d) := year_loop 256 1970 (elapsedDays t) in
  snd (month_loop 11 (LEAP_YEAR y) 1 d) + 1.

(** Broken-down time; [Year] is the offset from 1970. *)
Record tmElements_t : Type := mk_tm {
  Second : Z; Minute : Z; Hour : Z; Day : Z; Month : Z; Year : Z
}.

Definition CalendarYrToTm (y : Z) : Z := y - 1970.
Definition tmYearToCalendar (y : Z) : Z := y + 1970.
Definition y2kYearToTm (y : Z) : Z := y + 30.

(** Days from 1970-01-01 to January 1st of year [1970 + n]. *)
Fixpoint days_to_year (n : nat) : Z :=
  match n with
  | O => 0
  | S k => days_to_year k + year_days (1970 + Z.of_nat k)
  end.

(** Days from January 1st to the first of month [1 + n] of a year. *)
Fixpoint days_to_month (leap : bool) (n : nat) : Z :=
  match n with
  | O => 0
  | S k => days_to_month leap k + monthDays leap (1 + Z.of_nat k)
  end.

Definition makeTime (tm : tmElements_t) : Z :=
  (days_to_year (Z.to_nat (Year tm))
   + days_to_month (LEAP_YEAR (tmYearToCalendar (Year tm)))
                   (Z.to_nat (Month tm - 1))
   + (Day tm - 1)) * SECS_PER_DAY
  + Hour tm * SECS_PER_HOUR + Minute tm * SECS_PER_MIN + Second tm.

Definition yearStart (y : Z) : Z :=
  days_to_year (Z.to_nat (y - 1970)) * SECS_PER_DAY.

(** Days in the [n] years that start with year [y0]. *)
Fixpoint span (y0 : Z) (n : nat) : Z :=
  match n with
  | O => 0
  | S k => year_days y0 + span (y0 + 1) k
  end.

End TimeLib.

Import TimeLib.

(* ================================================================== *)
(** * The Timezone library: the rule pair and the two conversions       *)
(* ================================================================== *)

Module Timezone.

(** Modelled from the spec: the Timezone library (the [TimeChangeRule]
    record, [toLocal], [toUTC], [writeRules] and the constructor that reads
    the rules back) is missing from src/.  Section 3 gives the record,
    section 4.1 the two conversions, section 6 the layout in the
    non-volatile store. *)

(** The ordinals, days and months are small integers: [week], [dow],
    [month] and [hour] are bytes of the rule, [offset] is an [int]. *)
Definition Last : Z := 0.
Definition First : Z := 1.
Definition Second : Z := 2.
Definition Third : Z := 3.
Definition Fourth : Z := 4.

Definition Sun : Z := 1.
Definition Mon : Z := 2.
Definition Tue : Z := 3.
Definition Wed : Z := 4.
Definition Thu : Z := 5.
Definition Fri : Z := 6.
Definition Sat : Z := 7.

Definition Jan : Z := 1.
Definition Feb : Z := 2.
Definition Mar : Z := 3.
Definition Apr : Z := 4.
Definition May : Z := 5.
Definition Jun : Z := 6.
Definition Jul : Z := 7.
Definition Aug : Z := 8.
Definition Sep : Z := 9.
Definition Oct : Z := 10.
Definition Nov : Z := 11.
Definition Dec : Z := 12.

(** "{name/abbreviation, week-of-month ordinal, day-of-week, month,
    hour-of-day, UTC offset in minutes}" *)
Record TimeChangeRule : Type := mk_rule {
  abbrev : string;
  week : Z;
  dow : Z;
  month : Z;
  hour : Z;
  offset : Z
}.

(** "Two such rules form a RulePair {daylightRule, standardRule}" *)
Record RulePair : Type := mk_tz {
  dst : TimeChangeRule;
  std : TimeChangeRule
}.

(** "resolving each rule's ordinal-weekday-of-month to a concrete date and
    combining with its hour": the instant, read on the local clock, at
    which rule [r] takes effect in year [yr].  A [Last] rule is the first
    such weekday of the following month, one week earlier. *)
Definition toTime_t (r : TimeChangeRule) (yr : Z) : Z :=
  let '(m, y) :=
    if week r =? Last
    then (if 12 <? month r + 1 then (1, yr + 1) else (month r + 1, yr))
    else (month r, yr) in
  let w := if week r =? Last then 1 else week r in
  let t := makeTime (mk_tm 0 0 (hour r) 1 m (CalendarYrToTm y)) in
  let t' := t + ((dow r - weekday t + 7) mod 7 + (w - 1) * 7) * SECS_PER_DAY in
  if week r =? Last then t' - 7 * SECS_PER_DAY else t'.

(** "combining with its hour and the other rule's offset ... daylight-start
    is computed using standard offset, standard-start using daylight
    offset": the two transition instants of a year, reduced to UTC. *)
Definition dstUTC (tz : RulePair) (yr : Z) : Z :=
  toTime_t (dst tz) yr - offset (std tz) * SECS_PER_MIN.

Definition stdUTC (tz : RulePair) (yr : Z) : Z :=
  toTime_t (std tz) yr - offset (dst tz) * SECS_PER_MIN.

(** "selects whichever of the two rules is currently in force by comparing
    the UTC instant against the two transition instants reduced to UTC";
    the year is the calendar year of the instant. *)
Definition utcIsDST (tz : RulePair) (utc : Z) : bool :=
  let yr := year utc in
  let d := dstUTC tz yr in
  let s := stdUTC tz yr in
  if d <? s then (d <=? utc) && (utc <? s)
  else negb ((s <=? utc) && (utc <? d)).

Definition activeRule (tz : RulePair) (utc : Z) : TimeChangeRule :=
  if utcIsDST tz utc then dst tz else std tz.

(** "then applies that rule's offset.  Returns the active rule so callers
    can display its abbreviation." *)
Definition toLocal (tz : RulePair) (utc : Z) : Z * TimeChangeRule :=
  let r := activeRule tz utc in (utc + offset r * SECS_PER_MIN, r).

(** "compute both candidate UTC instants (assuming daylight, assuming
    standard), and pick the one whose own rule is in force for that UTC
    instant ... resolve toward standard time": the standard candidate is
    taken when standard time is in force at it, else the daylight candidate
    when daylight time is in force at it, else (a local time that does not
    exist) the standard candidate. *)
Definition toUTC (tz : RulePair) (local : Z) : Z :=
  let cand_std := local - offset (std tz) * SECS_PER_MIN in
  let cand_dst := local - offset (dst tz) * SECS_PER_MIN in
  if negb (utcIsDST tz cand_std) then cand_std
  else if utcIsDST tz cand_dst then cand_dst
  else cand_std.

(** The two windows of local time at the transitions of the local year:
    the hour that occurs twice when standard time starts, and the hour
    that is skipped when daylight time starts. *)
Definition shift (tz : RulePair) : Z :=
  (offset (dst tz) - offset (std tz)) * SECS_PER_MIN.

Definition ambiguous (tz : RulePair) (local : Z) : bool :=
  let s := toTime_t (std tz) (year local) in
  (s - shift tz <=? local) && (local <? s).

Definition skipped (tz : RulePair) (local : Z) : bool :=
  let d := toTime_t (dst tz) (year local) in
  (d <=? local) && (local <? d + shift tz).

(** The layout of a year that the conversions rely on: daylight time
    starts and ends inside the calendar year, with more than the largest
    offset to spare on either side and more than an hour in between. *)
Definition year_ok (tz : RulePair) (y : Z) : bool :=
  (yearStart y + 18000 <=? dstUTC tz y - 3600)
  && (dstUTC tz y + 3600 <=? stdUTC tz y - 3600)
  && (stdUTC tz y + 3600 <=? yearStart (y + 1)).

End Timezone.

(* ================================================================== *)
(** * The Arduino core: EEPROM, formatted printing, the serial stream,   *)
(** * single-precision numbers                                          *)
(* ================================================================== *)

Module Arduino.

(** ** EEPROM *)

(** Modelled from the spec: the EEPROM library is missing from src/; it is
    the "byte-addressable" non-volatile store of section 6.  A cell that
    was never written reads as the erased byte 0xFF. *)
Definition EEPROM_read (ee : gmap Z Z) (a : Z) : Z := default 255 (ee !! a).

Definition EEPROM_write (ee : gmap Z Z) (a v : Z) : gmap Z Z :=
  <[a := v mod 256]> ee.

Fixpoint EEPROM_put (ee : gmap Z Z) (a : Z) (bytes : list Z) : gmap Z Z :=
  match bytes with
  | [] => ee
  | b :: bs => EEPROM_put (EEPROM_write ee a b) (a + 1) bs
  end.

Fixpoint EEPROM_get (ee : gmap Z Z) (a : Z) (n : nat) : list Z :=
  match n with
  | O => []
  | S k => EEPROM_read ee a :: EEPROM_get ee (a + 1) k
  end.

(** ** Decimal conversions of [sprintf] and of the print functions *)

Definition digit (d : Z) : ascii := ascii_of_nat (48 + Z.to_nat d).

Fixpoint digits_loop (fuel : nat) (n : Z) (acc : string) : string :=
  match fuel with
  | O => acc
  | S k =>
      let acc' := String (digit (n mod 10)) acc in
      if n / 10 =? 0 then acc' else digits_loop k (n / 10) acc'
  end.

(** The decimal digits of a natural number, without leading zeros. *)
Definition utoa (n : Z) : string := digits_loop 20 n EmptyString.

Fixpoint zeros (n : nat) : string :=
  match n with
  | O => EmptyString
  | S k => String "0" (zeros k)
  end.

(** [%d]: the sign, then the digits. *)
Definition fmt_d (n : Z) : string :=
  if n <? 0 then String "-" (utoa (- n)) else utoa n.

(** [%0wd]: as [%d], filled with zeros after the sign up to [w] characters. *)
Definition fmt_0d (w : nat) (n : Z) : string :=
  if n <? 0
  then String "-" (zeros (w - 1 - String.length (utoa (- n))) ++ utoa (- n))
  else (zeros (w - String.length (utoa n)) ++ utoa n)%string.

(** Modelled from the spec: the line end that [println] and [endl] send
    is decided in the Arduino core, not in src/; records are
    "newline-terminated", written [\n] in section 6. *)
Definition endl : string := String "010" EmptyString.

(** ** The serial input stream *)

Definition is_digit (c : ascii) : bool :=
  let n := Z.of_nat (nat_of_ascii c) in (48 <=? n) && (n <=? 57).

Definition digit_val (c : ascii) : Z := Z.of_nat (nat_of_ascii c) - 48.

Definition is_minus (c : ascii) : bool := Ascii.eqb c "-".

(** Modelled from the spec: [Stream::parseInt] is in the Arduino core, not
    in src/.  It reads the next integer of the "line of comma-separated
    integers": characters that cannot start a number are dropped, then
    the sign and the digits are consumed; the first character after the
    number stays in the buffer.  The buffer holds all the input that
    arrives during the call; at its end the call times out with what it
    has read, 0 if that is nothing. *)
Fixpoint skip_to_number (buf : string) : string :=
  match buf with
  | EmptyString => EmptyString
  | String c rest =>
      if is_digit c || is_minus c then buf else skip_to_number rest
  end.

Fixpoint read_digits (buf : string) (value : Z) : Z * string :=
  match buf with
  | EmptyString => (value, EmptyString)
  | String c rest =>
      if is_digit c then read_digits rest (value * 10 + digit_val c)
      else (value, buf)
  end.

Definition parseInt (buf : string) : Z * string :=
  match skip_to_number buf with
  | EmptyString => (0, EmptyString)
  | String c rest =>
      if is_minus c
      then let '(v, rest') := read_digits rest 0 in (- v, rest')
      else read_digits (String c rest) 0
  end.

(** Conversions to the integer types of the AVR: [int] has 16 bits. *)
Definition to_uint8 (v : Z) : Z := v mod 256.
Definition to_int16 (v : Z) : Z := (v + 32768) mod 65536 - 32768.

(** ** Single precision *)

(** [float] and [double] are both IEEE binary32 on the AVR; the
    operations are those of the Standard Library's [SpecFloat] at 24 bits
    of precision, rounding to nearest even. *)
Definition prec : Z := 24.
Definition emax : Z := 128.

Definition float_of_int (z : Z) : spec_float := binary_normalize prec emax z 0 false.

(** [(int)x]: the integer part, towards zero. *)
Definition int_of_float (x : spec_float) : Z :=
  match x with
  | S754_finite s m e =>
      let v := if 0 <=? e then Zpos m * 2 ^ e else Zpos m / 2 ^ (- e) in
      if s then - v else v
  | _ => 0
  end.

Definition isnan (x : spec_float) : bool :=
  match x with S754_nan => true | _ => false end.

Definition fsub : spec_float -> spec_float -> spec_float := SFsub prec emax.
Definition fmul : spec_float -> spec_float -> spec_float := SFmul prec emax.
Definition fdiv : spec_float -> spec_float -> spec_float := SFdiv prec emax.

End Arduino.

(** Reading and writing the rules, with the Timezone library's layout. *)
Module TimezoneEE.

Import Arduino Timezone.

(** Modelled from the spec: "offset 2.. = serialized RulePair
    (implementation-defined fixed-width encoding of the two
    TimeChangeRules)".  A rule takes twelve bytes: the abbreviation in six
    (the characters, then zeros), [week], [dow], [month] and [hour] in one
    each, the offset in two, low byte first; the daylight rule comes
    first. *)
Fixpoint chars_of (s : string) : list Z :=
  match s with
  | EmptyString => []
  | String c r => Z.of_nat (nat_of_ascii c) :: chars_of r
  end.

Fixpoint pad_to (n : nat) (l : list Z) : list Z :=
  match n with
  | O => []
  | S k => match l with
           | [] => 0 :: pad_to k []
           | x :: r => x :: pad_to k r
           end
  end.

(** A C string: the characters up to the first zero byte. *)
Fixpoint cstring (l : list Z) : string :=
  match l with
  | [] => EmptyString
  | x :: r => if x =? 0 then EmptyString
              else String (ascii_of_nat (Z.to_nat x)) (cstring r)
  end.

Definition rule_bytes (r : TimeChangeRule) : list Z :=
  pad_to 6 (chars_of (abbrev r))
  ++ [week r; dow r; month r; hour r; offset r mod 256; (offset r / 256) mod 256].

Definition rule_of_bytes (l : list Z) : TimeChangeRule :=
  mk_rule (cstring (firstn 6 l))
          (nth 6 l 0) (nth 7 l 0) (nth 8 l 0) (nth 9 l 0)
          (to_int16 (nth 10 l 0 + 256 * nth 11 l 0)).

Definition writeRules (tz : RulePair) (ee : gmap Z Z) (address : Z) : gmap Z Z :=
  EEPROM_put (EEPROM_put ee address (rule_bytes (dst tz)))
             (address + 12) (rule_bytes (std tz)).

Definition readRules (ee : gmap Z Z) (address : Z) : RulePair :=
  mk_tz (rule_of_bytes (EEPROM_get ee address 12))
        (rule_of_bytes (EEPROM_get ee (address + 12) 12)).

(** A rule that its twelve bytes can hold. *)
Definition storable (r : TimeChangeRule) : bool :=
  (String.length (abbrev r) <=? 5)%nat
  && forallb (fun x => negb (x =? 0)) (chars_of (abbrev r))
  && forallb (fun x => (0 <=? x) && (x <? 256)) [week r; dow r; month r; hour r]
  && (-32768 <=? offset r) && (offset r <? 32768).

End TimezoneEE.

(* ================================================================== *)
(** * The sketch                                                        *)
(* ================================================================== *)

(** src/EnvMon4.ino, lines 58-82: the constants of the sketch. *)
Definition FILENAME : string := "ENVLOG.TXT".
Definition EEBASE : Z := 100.
Definition SIG1 : Z := 85.    (* 0x55 *)
Definition SIG2 : Z := 170.   (* 0xAA *)
Definition TZBASE : Z := EEBASE + 2.
Definition USEDHTTEMP : Z := 128.
Definition USEDS32TEMP : Z := 64.
Definition USEDHTHUM : Z := 32.
Definition SHOWLOC : Z := 0.
Definition SHOWUTC : Z := 1.

(** src/EnvMon4.ino, lines 134-137: the compiled-in rules.  No statement
    of the sketch assigns to the global [myTZ] (the object that [setup]
    builds from the EEPROM is a local of its own block), so the rules in
    force are these throughout. *)
Definition myDST : Timezone.TimeChangeRule :=
  Timezone.mk_rule "EDT" Timezone.Second Timezone.Sun Timezone.Mar 2 (-240).
Definition mySTD : Timezone.TimeChangeRule :=
  Timezone.mk_rule "EST" Timezone.First Timezone.Sun Timezone.Nov 2 (-300).
Definition myTZ : Timezone.RulePair := Timezone.mk_tz myDST mySTD.

(** The commands the sketch sends to the LCD. *)
Inductive lcd_op : Type :=
  | LcdClear
  | LcdSetCursor (col row : Z)
  | LcdPrint (s : string)
  | LcdWrite (code : Z).

(** The memory of the sketch and the devices it drives. *)
Record State : Type := mkState {
  eeprom : gmap Z Z;
  rtc : Z;
  sysTime : Z;
  serial_in : string;
  serial_out : string;
  sd_file : string;
  lcd : list lcd_op;
  zone : Z;
  doLog : Z;
  sensor : Z;
  bufDate : string;
  bufTime : string;
  bufTemp : string;
  bufHumid : string;
  first : Z;
  tLast : Z
}.

Definition set_eeprom (v : gmap Z Z) (st : State) : State :=
  mkState v (rtc st) (sysTime st) (serial_in st) (serial_out st) (sd_file st) (lcd st) (zone st) (doLog st) (sensor st) (bufDate st) (bufTime st) (bufTemp st) (bufHumid st) (first st) (tLast st).
Definition set_rtc (v : Z) (st : State) : State :=
  mkState (eeprom st) v (sysTime st) (serial_in st) (serial_out st) (sd_file st) (lcd st) (zone st) (doLog st) (sensor st) (bufDate st) (bufTime st) (bufTemp st) (bufHumid st) (first st) (tLast st).
Definition set_sysTime (v : Z) (st : State) : State :=
  mkState (eeprom st) (rtc st) v (serial_in st) (serial_out st) (sd_file st) (lcd st) (zone st) (doLog st) (sensor st) (bufDate st) (bufTime st) (bufTemp st) (bufHumid st) (first st) (tLast st).
Definition set_serial_in (v : string) (st : State) : State :=
  mkState (eeprom st) (rtc st) (sysTime st) v (serial_out st) (sd_file st) (lcd st) (zone st) (doLog st) (sensor st) (bufDate st) (bufTime st) (bufTemp st) (bufHumid st) (first st) (tLast st).
Definition set_serial_out (v : string) (st : State) : State :=
  mkState (eeprom st) (rtc st) (sysTime st) (serial_in st) v (sd_file st) (lcd st) (zone st) (doLog st) (sensor st) (bufDate st) (bufTime st) (bufTemp st) (bufHumid st) (first st) (tLast st).
Definition set_sd_file (v : string) (st : State) : State :=
  mkState (eeprom st) (rtc st) (sysTime st) (serial_in st) (serial_out st) v (lcd st) (zone st) (doLog st) (sensor st) (bufDate st) (bufTime st) (bufTemp st) (bufHumid st) (first st) (tLast st).
Definition set_lcd (v : list lcd_op) (st : State) : State :=
  mkState (eeprom st) (rtc st) (sysTime st) (serial_in st) (serial_out st) (sd_file st) v (zone st) (doLog st) (sensor st) (bufDate st) (bufTime st) (bufTemp st) (bufHumid st) (first st) (tLast st).
Definition set_zone (v : Z) (st : State) : State :=
  mkState (eeprom st) (rtc st) (sysTime st) (serial_in st) (serial_out st) (sd_file st) (lcd st) v (doLog st) (sensor st) (bufDate st) (bufTime st) (bufTemp st) (bufHumid st) (first st) (tLast st).
Definition set_doLog (v : Z) (st : State) : State :=
  mkState (eeprom st) (rtc st) (sysTime st) (serial_in st) (serial_out st) (sd_file st) (lcd st) (zone st) v (sensor st) (bufDate st) (bufTime st) (bufTemp st) (bufHumid st) (first st) (tLast st).
Definition set_sensor (v : Z) (st : State) : State :=
  mkState (eeprom st) (rtc st) (sysTime st) (serial_in st) (serial_out st) (sd_file st) (lcd st) (zone st) (doLog st) v (bufDate st) (bufTime st) (bufTemp st) (bufHumid st) (first st) (tLast st).
Definition set_bufDate (v : string) (st : State) : State :=
  mkState (eeprom st) (rtc st) (sysTime st) (serial_in st) (serial_out st) (sd_file st) (lcd st) (zone st) (doLog st) (sensor st) v (bufTime st) (bufTemp st) (bufHumid st) (first st) (tLast st).
Definition set_bufTime (v : string) (st : State) : State :=
  mkState (eeprom st) (rtc st) (sysTime st) (serial_in st) (serial_out st) (sd_file st) (lcd st) (zone st) (doLog st) (sensor st) (bufDate st) v (bufTemp st) (bufHumid st) (first st) (tLast st).
Definition set_bufTemp (v : string) (st : State) : State :=
  mkState (eeprom st) (rtc st) (sysTime st) (serial_in st) (serial_out st) (sd_file st) (lcd st) (zone st) (doLog st) (sensor st) (bufDate st) (bufTime st) v (bufHumid st) (first st) (tLast st).
Definition set_bufHumid (v : string) (st : State) : State :=
  mkState (eeprom st) (rtc st) (sysTime st) (serial_in st) (serial_out st) (sd_file st) (lcd st) (zone st) (doLog st) (sensor st) (bufDate st) (bufTime st) (bufTemp st) v (first st) (tLast st).
Definition set_first (v : Z) (st : State) : State :=
  mkState (eeprom st) (rtc st) (sysTime st) (serial_in st) (serial_out st) (sd_file st) (lcd st) (zone st) (doLog st) (sensor st) (bufDate st) (bufTime st) (bufTemp st) (bufHumid st) v (tLast st).
Definition set_tLast (v : Z) (st : State) : State :=
  mkState (eeprom st) (rtc st) (sysTime st) (serial_in st) (serial_out st) (sd_file st) (lcd st) (zone st) (doLog st) (sensor st) (bufDate st) (bufTime st) (bufTemp st) (bufHumid st) (first st) v.

(** What a call reads from the outside: the mode jumper, the sensors, the
    SD card, and the values that uninitialised locals happen to hold. *)
Record Env : Type := mkEnv {
  modepin : bool;                 (* digitalRead(MODEPIN) is HIGH *)
  dht_temperature : spec_float;   (* dht.readTemperature() *)
  dht_humidity : spec_float;      (* dht.readHumidity() *)
  rtc_temperature : Z;            (* RTC.temperature(), quarter degrees *)
  sd_opens : bool;                (* SD.open(FILENAME, FILE_WRITE) succeeds *)
  stack_c : spec_float;           (* [c] of mkTempStr before any assignment *)
  stack_h : spec_float            (* [h] of mkHumidStr before any assignment *)
}.

(** How a call ends: it returns, or it enters [halt] and never returns,
    or it is held in the wait for serial input of [setClock]. *)
Inductive outcome : Type :=
  | Returns (st : State)
  | Halts (st : State)
  | Waits (st : State).

Definition Serial_print (s : string) (st : State) : State :=
  set_serial_out (serial_out st ++ s)%string st.

Definition lcd_send (ops : list lcd_op) (st : State) : State :=
  set_lcd (lcd st ++ ops) st.

(** [now()]: the software clock.  The re-read of the hardware clock that
    [setup] installs for every hour is not modelled: [elapse] moves the two
    clocks in step. *)
Definition now (st : State) : Z := sysTime st.

(** The clocks advance by themselves; [elapse n] is the passing of [n]
    seconds between two calls. *)
Definition elapse (n : Z) (st : State) : State :=
  set_rtc (rtc st + n) (set_sysTime (sysTime st + n) st).

(** lines 667-669 *)
Definition adjustMode (env : Env) : Z :=
  if modepin env then SHOWLOC else SHOWUTC.

(** lines 403-409: ["%04d-%02d-%02d"] of year, month and day. *)
Definition date_string (t : Z) : string :=
  (Arduino.fmt_0d 4 (year t) ++ "-" ++ Arduino.fmt_0d 2 (month t)
   ++ "-" ++ Arduino.fmt_0d 2 (day t))%string.

Definition mkDateStr (t : Z) (st : State) : State :=
  set_bufDate (date_string t) st.

(** lines 414-417 *)
Definition displayDate (st : State) : State :=
  lcd_send [LcdSetCursor 0 1; LcdPrint (bufDate st)] st.

(** lines 422-424 *)
Definition consoleDate (st : State) : State := Serial_print (bufDate st) st.

(** lines 433-439: ["%02d:%02d:%02d"] of hour, minute and second. *)
Definition time_string (t : Z) : string :=
  (Arduino.fmt_0d 2 (hour t) ++ ":" ++ Arduino.fmt_0d 2 (minute t)
   ++ ":" ++ Arduino.fmt_0d 2 (second t))%string.

Definition mkTimeStr (t : Z) (st : State) : State :=
  set_bufTime (time_string t) st.

(** lines 444-447 *)
Definition displayTime (st : State) : State :=
  lcd_send [LcdSetCursor 0 0; LcdPrint (bufTime st)] st.

(** lines 452-454 *)
Definition consoleTime (st : State) : State := Serial_print (bufTime st) st.

(** lines 464-482.  The value of [c] that reaches the test: the DHT
    reading if bit 7 of [sensor] is set, then the DS3231 reading if bit 6 is
    set, and whatever the stack holds if neither is. *)
Definition temp_value (env : Env) (sensor : Z) : spec_float :=
  let c := stack_c env in
  let c := if negb (Z.land sensor USEDHTTEMP =? 0) then dht_temperature env else c in
  if negb (Z.land sensor USEDS32TEMP =? 0)
  then Arduino.fdiv (Arduino.float_of_int (rtc_temperature env)) (Arduino.float_of_int 4)
  else c.

Definition temp_string (c : spec_float) : string :=
  if negb (Arduino.isnan c) then
    let i := Arduino.int_of_float c in
    let c := Arduino.fsub c (Arduino.float_of_int i) in
    let c := Arduino.fmul (Arduino.float_of_int 100) c in
    let f := Arduino.int_of_float c in
    (Arduino.fmt_d i ++ "." ++ Arduino.fmt_d f)%string
  else "**"%string.

Definition mkTempStr (env : Env) (sensor : Z) (st : State) : State :=
  set_bufTemp (temp_string (temp_value env sensor)) st.

(** lines 487-494 *)
Definition displayTemp (st : State) : State :=
  lcd_send [LcdSetCursor 10 0; LcdPrint "      "; LcdSetCursor 10 0;
            LcdPrint (bufTemp st); LcdWrite 0; LcdPrint "C"] st.

(** lines 499-501 *)
Definition consoleTemp (st : State) : State := Serial_print (bufTemp st) st.

(** lines 508-526 *)
Definition humid_value (env : Env) (sensor : Z) : spec_float :=
  if negb (Z.land sensor USEDHTHUM =? 0) then dht_humidity env else stack_h env.

Definition humid_string (h : spec_float) : string :=
  if Arduino.isnan h then "**"%string
  else
    let i := Arduino.int_of_float h in
    let f := Arduino.int_of_float
               (Arduino.fmul (Arduino.float_of_int 10)
                             (Arduino.fsub h (Arduino.float_of_int i))) in
    (Arduino.fmt_d i ++ "." ++ Arduino.fmt_d f)%string.

Definition mkHumidStr (env : Env) (sensor : Z) (st : State) : State :=
  let h := humid_value env sensor in
  let st := set_bufHumid "**" st in
  if Arduino.isnan h
  then Serial_print ("Failed to read from DHT sensor!" ++ Arduino.endl) st
  else set_bufHumid (humid_string h) st.

(** lines 528-534 *)
Definition displayHumid (st : State) : State :=
  lcd_send [LcdSetCursor 11 1; LcdPrint "     "; LcdSetCursor 11 1;
            LcdPrint (bufHumid st); LcdPrint "%"] st.

(** lines 536-538 *)
Definition consoleHumid (st : State) : State := Serial_print (bufHumid st) st.

(** lines 547-557 *)
Definition consoleUpdate (st : State) : State :=
  let st := consoleDate st in
  let st := Serial_print "T" st in
  let st := consoleTime st in
  let st := Serial_print "Z" st in
  let st := Serial_print "," st in
  let st := consoleTemp st in
  let st := Serial_print "," st in
  let st := consoleHumid st in
  Serial_print Arduino.endl st.

(** lines 560-579: the record is appended when the file opens; when it
    does not, the error is printed and [halt] is entered. *)
Definition log_record (st : State) : string :=
  (bufDate st ++ "T" ++ bufTime st ++ "Z" ++ "," ++ bufTemp st ++ ","
   ++ bufHumid st ++ Arduino.endl)%string.

Definition sdLog (env : Env) (st : State) : outcome :=
  if sd_opens env
  then Returns (set_sd_file (sd_file st ++ log_record st)%string st)
  else Halts (Serial_print ("error opening " ++ FILENAME ++ Arduino.endl) st).

(** lines 584-592 *)
Definition validSignature (st : State) : bool :=
  let by1 := Arduino.EEPROM_read (eeprom st) EEBASE in
  let by2 := Arduino.EEPROM_read (eeprom st) (EEBASE + 1) in
  if (by1 =? SIG1) && (by2 =? SIG2) then true else false.

(** lines 594-598 *)
Definition writeSignature (st : State) : State :=
  let ee := Arduino.EEPROM_write (eeprom st) EEBASE SIG1 in
  set_eeprom (Arduino.EEPROM_write ee (EEBASE + 1) SIG2) st.

(** lines 627-631: the five fields after the year, each stored in a byte. *)
Definition read_tm (tm_Year : Z) (buf : string) : tmElements_t * string :=
  let '(v, buf) := Arduino.parseInt buf in
  let tm_Month := Arduino.to_uint8 v in
  let '(v, buf) := Arduino.parseInt buf in
  let tm_Day := Arduino.to_uint8 v in
  let '(v, buf) := Arduino.parseInt buf in
  let tm_Hour := Arduino.to_uint8 v in
  let '(v, buf) := Arduino.parseInt buf in
  let tm_Minute := Arduino.to_uint8 v in
  let '(v, buf) := Arduino.parseInt buf in
  let tm_Second := Arduino.to_uint8 v in
  (mk_tm tm_Second tm_Minute tm_Hour tm_Day tm_Month tm_Year, buf).

(** lines 618-625: the year as typed, and the year byte made of it. *)
Definition year_field (buf : string) : Z :=
  Arduino.to_int16 (fst (Arduino.parseInt buf)).

Definition year_byte (y : Z) : Z :=
  Arduino.to_uint8 (if 1000 <=? y then CalendarYrToTm y else y2kYearToTm y).

Definition rejected (y : Z) : bool := (100 <=? y) && (y <? 1000).

(** The broken-down local time that an accepted line enters. *)
Definition entered (buf : string) : tmElements_t :=
  fst (read_tm (year_byte (year_field buf)) (snd (Arduino.parseInt buf))).

(** lines 607-608: the two lines of the prompt. *)
Definition prompt (st : State) : State :=
  let st := Serial_print ("Must set date and time" ++ Arduino.endl ++ Arduino.endl) st in
  Serial_print ("Set LOCAL time (yy,m,d,h,m,s" ++ Arduino.endl) st.

(** lines 641-642: the signature, then the rules behind it. *)
Definition save (tz : Timezone.RulePair) (st : State) : State :=
  let st := writeSignature st in
  set_eeprom (TimezoneEE.writeRules tz (eeprom st) TZBASE) st.

(** lines 214-235 of [setup]: the rules are read from the EEPROM when the
    signature is valid; otherwise there is nothing to read and the clock is
    to be set. *)
Definition load (st : State) : option Timezone.RulePair :=
  if validSignature st then Some (TimezoneEE.readRules (eeprom st) (EEBASE + 2))
  else None.

(** What a [time_t] holds of a number: 32 bits without a sign. *)
Definition to_time_t (v : Z) : Z := v mod time_t_max.

(** lines 633-651: the clocks and the EEPROM are set from the local time
    [t], the result is reported, and the rest of the input is dropped.
    [utc] is a [time_t]. *)
Definition commit (t : Z) (st : State) : State :=
  let utc := to_time_t (Timezone.toUTC myTZ t) in
  let st := set_rtc utc st in
  let st := set_sysTime utc st in
  let st := save myTZ st in
  let st := Serial_print (Arduino.endl ++ "RTC set to: ZULU ") st in
  let st := consoleUpdate st in
  let st := Serial_print Arduino.endl st in
  set_serial_in EmptyString st.

(** lines 602-654.  With an empty receive buffer the call stays in the
    wait of line 610.  The local time [t] of line 633 is a [time_t]. *)
Definition setClock (st : State) : outcome :=
  let st := prompt st in
  if (String.length (serial_in st) =? 0)%nat then Waits st
  else if (12 <=? String.length (serial_in st))%nat then
    let y := year_field (serial_in st) in
    let buf := snd (Arduino.parseInt (serial_in st)) in
    let st := set_serial_in buf st in
    if rejected y then
      Returns (Serial_print ("Error: Year must be two digits or four digits!"
                             ++ Arduino.endl) st)
    else
      let '(tm, buf) := read_tm (year_byte y) buf in
      let st := set_serial_in buf st in
      Returns (commit (to_time_t (makeTime tm)) st)
  else Returns st.

(** The state in which a call ends. *)
Definition final (o : outcome) : State :=
  match o with Returns st => st | Halts st => st | Waits st => st end.

(** lines 353-355: the state after the flag is cleared and the two
    readings are taken. *)
Definition sampled (env : Env) (st : State) : State :=
  let st := set_first 0 st in
  let st := mkHumidStr env (sensor st) st in
  mkTempStr env (sensor st) st.

(** lines 353-362: one sample-and-log cycle. *)
Definition cycle (env : Env) (st : State) : outcome :=
  let st := set_first 0 st in
  let st := mkHumidStr env (sensor st) st in
  let st := mkTempStr env (sensor st) st in
  if negb (doLog st =? 0) then
    let st := Serial_print ("SD Logging now ..." ++ Arduino.endl) st in
    match sdLog env st with
    | Returns st =>
        let st := Serial_print ("Logging done" ++ Arduino.endl) st in
        Returns (consoleUpdate st)
    | other => other
    end
  else Returns (consoleUpdate st).

(** line 352: the test that starts a cycle. *)
Definition due (st : State) (utc : Z) : bool :=
  negb (first st =? 0) || ((second utc =? 0) && (minute utc mod 5 =? 0)).

(** lines 349-379: what a turn does once the time has changed.  The
    boolean tells whether the cycle of lines 353-362 was started. *)
Definition refresh (env : Env) (utc t : Z) (st : State) : bool * outcome :=
  let st := mkDateStr utc st in
  let st := mkTimeStr utc st in
  match (if due st utc then cycle env st else Returns st) with
  | Returns st' =>
      let st' := if zone st' =? SHOWLOC
                 then mkTimeStr t (mkDateStr t st') else st' in
      let st' := displayDate st' in
      let st' := displayTime st' in
      let st' := displayTemp st' in
      let st' := displayHumid st' in
      (due st utc, Returns (set_tLast t st'))
  | other => (due st utc, other)
  end.

(** lines 331-339: the jumper is read, and pending serial input starts
    the clock-set dialogue. *)
Definition poll (env : Env) (st : State) : outcome :=
  let st := set_zone (adjustMode env) st in
  if negb (String.length (serial_in st) =? 0)%nat then setClock st else Returns st.

(** lines 330-381.  The local time [t] is kept as a number: from the UTC
    instant 18000 on it is what the [time_t] of the sketch holds. *)
Definition loop (env : Env) (st : State) : bool * outcome :=
  match poll env st with
  | Returns st =>
      let utc := now st in
      let st := Serial_print ("time_t utc = " ++ Arduino.utoa utc ++ Arduino.endl) st in
      let t := fst (Timezone.toLocal myTZ utc) in
      if negb (t =? tLast st) then refresh env utc t st
      else (false, Returns st)
  | other => (false, other)
  end.

(** The gate of lines 346-352 as one test on the state before the turn:
    the local time differs from the one remembered, and a cycle is due. *)
Definition fires (st : State) : bool :=
  negb (fst (Timezone.toLocal myTZ (now st)) =? tLast st) && due st (now st).

(** A run of the main loop: before each turn some seconds pass.  The run
    ends when a turn does not return.  Each turn is recorded with the UTC
    second at which it ran and whether it started a cycle. *)
Fixpoint run (turns : list (Z * Env)) (st : State) : list (Z * bool) * outcome :=
  match turns with
  | [] => ([], Returns st)
  | (dt, env) :: rest =>
      let st := elapse dt st in
      match loop env st with
      | (f, Returns st') =>
          let '(evs, out) := run rest st' in ((now st, f) :: evs, out)
      | (f, other) => ([(now st, f)], other)
      end
  end.

(** The turns come at least once per second: no second is jumped over. *)
Definition every_second (turns : list (Z * Env)) : Prop :=
  Forall (fun p => fst p = 0 \/ fst p = 1) turns.

(** The cycles started in the five-minute bucket [k]. *)
Definition bucket (u : Z) : Z := u / 300.

Definition fired_in (k : Z) (evs : list (Z * bool)) : list (Z * bool) :=
  filter (fun p => snd p && (bucket (fst p) =? k)) evs.

(** The state of the statics when the sketch starts: [first] is
    initialised to 1, [tLast] has static storage and starts at 0. *)
Definition cold (st : State) : Prop := first st = 1 /\ tLast st = 0.

(** The part of the state that formatting, printing, logging and the
    display leave alone. *)
Definition core (st : State) :=
  (eeprom st, rtc st, sysTime st, serial_in st,
   zone st, doLog st, sensor st, first st, tLast st).

(** Simplification of reads through writes of the state record. *)
Ltac st_cbn :=
  cbn [eeprom rtc sysTime serial_in serial_out sd_file lcd zone doLog sensor
       bufDate bufTime bufTemp bufHumid first tLast
       set_eeprom set_rtc set_sysTime set_serial_in set_serial_out set_sd_file
       set_lcd set_zone set_doLog set_sensor set_bufDate set_bufTime
       set_bufTemp set_bufHumid set_first set_tLast
       Serial_print lcd_send elapse mkDateStr mkTimeStr mkTempStr
       displayDate displayTime displayTemp displayHumid
       consoleDate consoleTime consoleTemp consoleHumid consoleUpdate
       writeSignature save fst snd] in *;
  unfold now in *.

(** The statics after a turn has run at the present second with the flag
    already cleared, and no operator input pending. *)
Definition settled (st : State) : Prop :=
  first st = 0 /\ tLast st = fst (Timezone.toLocal myTZ (sysTime st))
  /\ serial_in st = EmptyString.

(** The log can be written in every turn, or logging is off. *)
Definition loggable (turns : list (Z * Env)) (st : State) : Prop :=
  doLog st = 0 \/ Forall (fun p => sd_opens (snd p) = true) turns.

(** States and inputs used as examples. *)
Definition fair_weather : Env :=
  mkEnv true (S754_finite false 12320768 (-19)) (S754_finite false 11875123 (-18))
        94 true S754_nan S754_nan.

Definition no_card : Env :=
  mkEnv true (S754_finite false 12320768 (-19)) (S754_finite false 11875123 (-18))
        94 false S754_nan S754_nan.

(** The memory at power-on, with the clocks at [t]. *)
Definition power_on (t : Z) : State :=
  mkState ∅ t t EmptyString EmptyString EmptyString [] SHOWLOC 1
          (Z.lor USEDHTTEMP USEDHTHUM) EmptyString EmptyString EmptyString
          EmptyString 1 0.

(** 2024-11-03T05:59:50Z, ten seconds before the end of daylight time,
    after a first cycle. *)
Definition running_2024 : State :=
  set_tLast (1730613590 - 14400) (set_first 0 (power_on 1730613590)).

(** The operator types a line at the prompt, the device just powered on. *)
Definition typed (line : string) : State :=
  set_serial_in (line ++ Arduino.endl)%string (power_on 0).

(** The device over time: it runs the loop turn after turn, or it is in
    [halt] (lines 388-395), where nothing happens but the LED on pin 13
    going on and off; [Blocked] is the wait for input of [setClock]. *)
Inductive machine : Type :=
  | Running (st : State)
  | Halted (st : State) (led : bool)
  | Blocked (st : State).

Definition step (turn : Z * Env) (m : machine) : machine :=
  match m with
  | Running st =>
      match snd (loop (snd turn) (elapse (fst turn) st)) with
      | Returns st' => Running st'
      | Halts st' => Halted st' true
      | Waits st' => Blocked st'
      end
  | Halted st led => Halted st (negb led)
  | Blocked st => Blocked st
  end.

Fixpoint steps (turns : list (Z * Env)) (m : machine) : machine :=
  match turns with
  | [] => m
  | turn :: rest => steps rest (step turn m)
  end.

(** The memory of the sketch in a machine state. *)
Definition memory (m : machine) : State :=
  match m with Running st => st | Halted st _ => st | Blocked st => st end.

(** The line that a cycle at UTC second [utc] appends to the log. *)
Definition log_line (env : Env) (sensor : Z) (utc : Z) : string :=
  (date_string utc ++ "T" ++ time_string utc ++ "Z" ++ ","
   ++ temp_string (temp_value env sensor) ++ ","
   ++ humid_string (humid_value env sensor) ++ Arduino.endl)%string.

(** The value of a single-precision number in units of 2^-149, the
    smallest step of the format (0 for what is not a finite number). *)
Definition scaled (x : spec_float) : Z :=
  match x with
  | S754_finite s m e => (if s then -1 else 1) * (Zpos m * 2 ^ (e + 149))
  | _ => 0
  end.

Definition unit149 : Z := 2 ^ 149.

(** A reading that is a number from 0 up to the range of [int]. *)
Definition readable (x : spec_float) : bool :=
  valid_binary Arduino.prec Arduino.emax x
  && match x with
     | S754_zero _ => true
     | S754_finite false m e => Zpos m * 2 ^ (e + 149) <? 32768 * 2 ^ 149
     | _ => false
     end.

(** Division by [2^n] rounded to nearest, ties to even. *)
Definition rne (M n : Z) : Z :=
  let q := M / 2 ^ n in
  let a := M mod 2 ^ n in
  if 2 * a <? 2 ^ n then q
  else if 2 ^ n <? 2 * a then q + 1
  else if Z.even q then q else q + 1.

(** A result that is zero or a positive finite number. *)
Definition nonneg_finite (x : spec_float) : bool :=
  match x with
  | S754_zero _ => true
  | S754_finite false _ e => -149 <=? e
  | _ => false
  end.

(** A mantissa and exponent in the canonical form of the format. *)
Definition canonical (m : positive) (e : Z) : Prop :=
  Z.max (Zpos (digits2_pos m) + e - 24) (-149) = e.

(** What the sketch is configured with and the clocks it reads: the part
    of the memory that only the clock-set dialogue and the passing of time
    change. *)
Definition config (st : State) :=
  (eeprom st, rtc st, sysTime st, serial_in st, zone st, doLog st, sensor st).

(** The notice of line 519, which [mkHumidStr] prints for a failed
    reading. *)
Definition dht_notice (h : spec_float) (st : State) : State :=
  if Arduino.isnan h
  then Serial_print ("Failed to read from DHT sensor!" ++ Arduino.endl) st
  else st.

(** lines 364-378: the end of a turn in which the time has changed. *)
Definition shown_state (t : Z) (st : State) : State :=
  set_tLast t
    (displayHumid
       (displayTemp
          (displayTime
             (displayDate
                (if zone st =? SHOWLOC then mkTimeStr t (mkDateStr t st) else st))))).


(** ** Startup *)

(** What [setup] finds in the devices it starts.  Modelled from the spec:
    the clock counts as set ([hardwareHealthy]) once a read of the hardware
    counter has produced a non-zero instant, and that instant is then the
    authoritative one. *)
Record Boot : Type := mkBoot {
  rtc_answers : bool;   (* RTC.get() reads the hardware counter *)
  sd_begins : bool      (* SD.begin(SDCS), line 303 *)
}.

Definition rtc_get (boot : Boot) (st : State) : Z :=
  if rtc_answers boot then rtc st else 0.

(** lines 656-664 *)
Definition showIntro (st : State) : State :=
  lcd_send [LcdClear; LcdSetCursor 0 0; LcdPrint "System";
            LcdSetCursor 0 1; LcdPrint "Startup"] st.

(** lines 184-207.  The commands that prepare the module (begin,
    backlight, createChar) put no text on the display and are not in the
    list of commands. *)
Definition setup_hello (env : Env) (st : State) : State :=
  let st := set_zone (adjustMode env) st in
  let st := Serial_print (Arduino.endl ++ "Blackfire Software" ++ Arduino.endl
                          ++ "Startup ..." ++ Arduino.endl) st in
  showIntro st.

(** lines 213-235: the object built from the EEPROM at line 220 is a
    local of the block and is dropped at its end. *)
Definition setup_config (st : State) : outcome :=
  if validSignature st then
    let st := Serial_print ("EEPROM Valid" ++ Arduino.endl) st in
    let st := lcd_send [LcdClear; LcdSetCursor 0 0; LcdPrint "EEPROM Valid"] st in
    let st := Serial_print ("Read Timezone Data" ++ Arduino.endl) st in
    Returns (lcd_send [LcdClear; LcdSetCursor 0 0; LcdPrint "Timezone";
                       LcdSetCursor 0 1; LcdPrint "info loaded"] st)
  else
    let st := Serial_print ("EEPROM Invalid" ++ Arduino.endl
                            ++ "Setting time" ++ Arduino.endl) st in
    let st := lcd_send [LcdClear; LcdSetCursor 0 0; LcdPrint "EEPROM Invalid";
                        LcdSetCursor 0 1; LcdPrint "Set Time"] st in
    setClock st.

(** lines 237-256 *)
Definition setup_clock (boot : Boot) (st : State) : outcome :=
  let v := rtc_get boot st in
  let st := if v =? 0 then st else set_sysTime v st in
  let st := Serial_print "RTC Sync" st in
  let st := lcd_send [LcdClear; LcdSetCursor 0 0; LcdPrint "RTC Sync"] st in
  match (if v =? 0
         then
           let st := Serial_print "RTC FAIL!" st in
           let st := lcd_send [LcdClear; LcdSetCursor 0 0; LcdPrint "RTC FAIL!";
                               LcdSetCursor 0 1; LcdPrint "Set Time"] st in
           setClock st
         else Returns st) with
  | Returns st => Returns (Serial_print Arduino.endl st)
  | other => other
  end.

(** lines 261-300: the sensors are started and read once. *)
Definition setup_sensors (env : Env) (st : State) : State :=
  let st := Serial_print "DHT " st in
  let st :=
    if negb (Z.lor (Z.land (sensor st) USEDHTHUM) (Z.land (sensor st) USEDHTTEMP) =? 0)
    then lcd_send [LcdClear; LcdPrint "DHT init"] (Serial_print "init" st)
    else lcd_send [LcdClear; LcdPrint "DHT not used"] (Serial_print "not used" st) in
  let st := Serial_print Arduino.endl st in
  let st := mkTempStr env (sensor st) st in
  let st := Serial_print "Temperature: " st in
  let st :=
    Serial_print (if negb (Z.land (sensor st) USEDS32TEMP =? 0) then "DS3231"
                  else if negb (Z.land (sensor st) USEDHTTEMP =? 0) then "DHT"
                  else "None") st in
  let st := Serial_print Arduino.endl st in
  let st := Serial_print "Humidity: " st in
  let st := mkHumidStr env (sensor st) st in
  let st := Serial_print (if negb (Z.land (sensor st) USEDHTHUM =? 0)
                          then "Used" else "None") st in
  Serial_print Arduino.endl st.

(** lines 302-317: the card is started; without it logging is turned
    off. *)
Definition setup_card (boot : Boot) (st : State) : State :=
  let st :=
    if negb (sd_begins boot) then
      let st := Serial_print ("SD Card failed, or not present" ++ Arduino.endl) st in
      let st := lcd_send [LcdClear; LcdSetCursor 0 0; LcdPrint "SD Failure";
                          LcdSetCursor 0 1; LcdPrint "No Logging"] st in
      set_doLog 0 st
    else
      let st := Serial_print ("SD initialized." ++ Arduino.endl) st in
      lcd_send [LcdClear; LcdSetCursor 0 0; LcdPrint "SD Init"] st in
  lcd_send [LcdClear] st.

(** lines 184-324 *)
Definition setup (boot : Boot) (env : Env) (st : State) : outcome :=
  match setup_config (setup_hello env st) with
  | Returns st =>
      match setup_clock boot st with
      | Returns st => Returns (setup_card boot (setup_sensors env st))
      | other => other
      end
  | other => other
  end.

(** The device from power-on: [setup], then the loop turn after turn. *)
Definition boot_machine (boot : Boot) (env : Env) (st : State) : machine :=
  match setup boot env st with
  | Returns st' => Running st'
  | Halts st' => Halted st' true
  | Waits st' => Blocked st'
  end.

(** ** The earlier sketch *)

(** src/unnamed/part_000: the routines that print the time on the console,
    as functions of the text sent so far. *)
Module Earlier.

(** [delim > 0] for a [char], which is signed on the AVR. *)
Definition char_positive (c : ascii) : bool :=
  let n := Z.of_nat (nat_of_ascii c) in (0 <? n) && (n <? 128).

(** lines 395-403 *)
Definition printI00 (val : Z) (delim : ascii) (out : string) : string :=
  let out := if val <? 10 then (out ++ "0")%string else out in
  let out := (out ++ Arduino.fmt_d val)%string in
  if char_positive delim then (out ++ String delim EmptyString)%string else out.

(** lines 371-376 *)
Definition printTime (t : Z) (out : string) : string :=
  let out := printI00 (hour t) ":" out in
  let out := printI00 (minute t) ":" out in
  printI00 (second t) " " out.

End Earlier.

(** The single-precision number nearest to [P] units of 2^-149, ties to
    even, in the same units: a number of more than 24 binary digits loses
    the digits beyond the 24th. *)
Definition round24 (P : Z) : Z :=
  let m := Z.max (Z.log2 P + 1 - 24) 0 in
  rne P m * 2 ^ m.


(* ================================================================== *)
(** * Properties of the calendar                                       *)
(* ================================================================== *)

Section Calendar.

Lemma year_days_pos y : 365 <= year_days y <= 366.
Proof. unfold year_days; destruct (LEAP_YEAR y); lia. Qed.

Lemma span_nonneg n : forall y0, 0 <= span y0 n.
Proof.
  induction n as [|n IH]; intros y0; simpl; [lia|].
  pose proof (year_days_pos y0). specialize (IH (y0 + 1)). lia.
Qed.

Lemma span_snoc n : forall y0,
  span y0 (S n) = span y0 n + year_days (y0 + Z.of_nat n).
Proof.
  induction n as [|n IH]; intros y0.
  - cbn [span Z.of_nat]. rewrite !Z.add_0_r. lia.
  - change (span y0 (S (S n))) with (year_days y0 + span (y0 + 1) (S n)).
    rewrite IH. simpl span.
    replace (y0 + 1 + Z.of_nat n) with (y0 + Z.of_nat (S n)) by lia. lia.
Qed.

Lemma days_to_year_span n : days_to_year n = span 1970 n.
Proof.
  induction n as [|n IH]; [reflexivity|].
  rewrite span_snoc, <- IH. reflexivity.
Qed.

(** The loop stops in the year that contains the day, when the fuel
    reaches that far. *)
Lemma year_loop_hit n : forall fuel y0 r,
  (n < fuel)%nat -> 0 <= r < year_days (y0 + Z.of_nat n) ->
  year_loop fuel y0 (span y0 n + r) = (y0 + Z.of_nat n, r).
Proof.
  induction n as [|n IH]; intros fuel y0 r Hf Hr.
  - destruct fuel as [|fuel]; [lia|]. cbn [year_loop span Z.of_nat] in *.
    rewrite !Z.add_0_r in *. rewrite Z.add_0_l.
    destruct (Z.ltb_spec r (year_days y0)); [reflexivity|lia].
  - destruct fuel as [|fuel]; [lia|].
    cbn [year_loop span].
    pose proof (span_nonneg n (y0 + 1)).
    destruct (Z.ltb_spec (year_days y0 + span (y0 + 1) n + r) (year_days y0));
      [lia|].
    replace (year_days y0 + span (y0 + 1) n + r - year_days y0)
      with (span (y0 + 1) n + r) by lia.
    replace (y0 + Z.of_nat (S n)) with (y0 + 1 + Z.of_nat n) in * by lia.
    apply IH; [lia|assumption].
Qed.

(** Every day number below the horizon of [N] years falls in one of them. *)
Lemma span_locate N : forall y0 d,
  0 <= d < span y0 N ->
  exists n, (n < N)%nat /\ span y0 n <= d < span y0 (S n).
Proof.
  induction N as [|N IH]; intros y0 d Hd.
  - simpl in Hd. lia.
  - destruct (Z.lt_ge_cases d (span y0 N)) as [Hlt|Hge].
    + destruct (IH y0 d) as (n & Hn & Hs); [lia|].
      exists n. split; [lia|assumption].
    + exists N. split; [lia|]. lia.
Qed.

Lemma yearStart_eq n : yearStart (1970 + Z.of_nat n) = span 1970 n * 86400.
Proof.
  unfold yearStart, SECS_PER_DAY.
  replace (Z.to_nat (1970 + Z.of_nat n - 1970)) with n by lia.
  now rewrite days_to_year_span.
Qed.

(** [year] inverts [yearStart] on the years the byte offset can name. *)
Lemma year_unique n t :
  (n < 256)%nat ->
  yearStart (1970 + Z.of_nat n) <= t < yearStart (1970 + Z.of_nat (S n)) ->
  year t = 1970 + Z.of_nat n.
Proof.
  intros Hn Ht. rewrite !yearStart_eq in Ht.
  rewrite span_snoc in Ht.
  unfold year, elapsedDays, SECS_PER_DAY.
  set (d := t / 86400).
  assert (Hd : span 1970 n <= d < span 1970 n + year_days (1970 + Z.of_nat n)).
  { unfold d. split.
    - apply Z.div_le_lower_bound; lia.
    - apply Z.div_lt_upper_bound; lia. }
  replace d with (span 1970 n + (d - span 1970 n)) by lia.
  rewrite year_loop_hit; [reflexivity|assumption|lia].
Qed.

(** Every instant a [time_t] can hold, and one day more, lies in a year
    from 1970 to 2106. *)
Lemma year_locate t :
  0 <= t < time_t_max + 86400 ->
  exists n, (n < 137)%nat /\
    yearStart (1970 + Z.of_nat n) <= t < yearStart (1970 + Z.of_nat (S n)).
Proof.
  intros Ht. unfold time_t_max in Ht.
  assert (Hd : 0 <= t / 86400 < span 1970 137).
  { split; [apply Z.div_pos; lia|].
    apply Z.div_lt_upper_bound; [lia|].
    replace (span 1970 137) with 50038 by (vm_compute; reflexivity). lia. }
  destruct (span_locate 137 1970 _ Hd) as (n & Hn & Hs).
  exists n. split; [assumption|].
  rewrite !yearStart_eq.
  pose proof (Z.div_mod t 86400 ltac:(lia)) as E.
  pose proof (Z.mod_pos_bound t 86400 ltac:(lia)). lia.
Qed.

End Calendar.

(* ================================================================== *)
(** * The conversions under the compiled-in rules                       *)
(* ================================================================== *)

Section EasternTime.

Import Timezone.

Lemma years_ok_table :
  forallb (fun n => year_ok myTZ (1970 + Z.of_nat n)) (seq 0 137) = true.
Proof. vm_compute. reflexivity. Qed.

Lemma year_ok_myTZ n : (n < 137)%nat -> year_ok myTZ (1970 + Z.of_nat n) = true.
Proof.
  intros Hn. pose proof years_ok_table as T.
  rewrite forallb_forall in T. apply T. apply in_seq. lia.
Qed.

Lemma year_ok_facts n :
  (n < 137)%nat ->
  let y := 1970 + Z.of_nat n in
  yearStart y + 18000 <= dstUTC myTZ y - 3600 /\
  dstUTC myTZ y + 3600 <= stdUTC myTZ y - 3600 /\
  stdUTC myTZ y + 3600 <= yearStart (1970 + Z.of_nat (S n)).
Proof.
  intros Hn y. pose proof (year_ok_myTZ n Hn) as H. unfold year_ok in H.
  fold y in H.
  replace (y + 1) with (1970 + Z.of_nat (S n)) in H by (unfold y; lia).
  apply andb_prop in H. destruct H as [H H3].
  apply andb_prop in H. destruct H as [H1 H2].
  apply Z.leb_le in H1, H2, H3. auto.
Qed.

(** Inside a year, daylight time is in force between the two transitions. *)
Lemma utcIsDST_in_year n u :
  (n < 137)%nat ->
  yearStart (1970 + Z.of_nat n) <= u < yearStart (1970 + Z.of_nat (S n)) ->
  utcIsDST myTZ u =
    (dstUTC myTZ (1970 + Z.of_nat n) <=? u) && (u <? stdUTC myTZ (1970 + Z.of_nat n)).
Proof.
  intros Hn Hu. unfold utcIsDST.
  rewrite (year_unique n u) by (assumption || lia).
  destruct (year_ok_facts n Hn) as (_ & H2 & _).
  destruct (Z.ltb_spec (dstUTC myTZ (1970 + Z.of_nat n))
                       (stdUTC myTZ (1970 + Z.of_nat n))); [reflexivity|lia].
Qed.

Lemma offsets_myTZ :
  offset (std myTZ) * SECS_PER_MIN = -18000 /\
  offset (dst myTZ) * SECS_PER_MIN = -14400 /\
  shift myTZ = 3600.
Proof. repeat split. Qed.

Lemma toTime_t_std n :
  toTime_t (std myTZ) (1970 + Z.of_nat n) = stdUTC myTZ (1970 + Z.of_nat n) - 14400.
Proof. unfold stdUTC. change (offset (dst myTZ) * SECS_PER_MIN) with (-14400). lia. Qed.

Lemma toTime_t_dst n :
  toTime_t (dst myTZ) (1970 + Z.of_nat n) = dstUTC myTZ (1970 + Z.of_nat n) - 18000.
Proof. unfold dstUTC. change (offset (std myTZ) * SECS_PER_MIN) with (-18000). lia. Qed.

(** The round trip from a UTC instant. *)
Lemma roundtrip_from_utc t :
  0 <= t < time_t_max ->
  let l := fst (toLocal myTZ t) in
  (ambiguous myTZ l = false -> toUTC myTZ l = t) /\
  (ambiguous myTZ l = true -> toUTC myTZ l = l - offset mySTD * SECS_PER_MIN).
Proof.
  intros Ht l.
  destruct (year_locate t) as (n & Hn & Hy); [lia|].
  destruct (year_ok_facts n Hn) as (H1 & H2 & H3). cbn zeta in H1, H2, H3.
  pose proof (utcIsDST_in_year n t Hn Hy) as Ed.
  set (D := dstUTC myTZ (1970 + Z.of_nat n)) in *.
  set (S' := stdUTC myTZ (1970 + Z.of_nat n)) in *.
  assert (Hn' : (n < 256)%nat) by lia.
  subst l. unfold toLocal, activeRule. cbn [fst].
  destruct (utcIsDST myTZ t) eqn:Ea.
  - (* daylight time at t *)
    symmetry in Ed. apply andb_prop in Ed. destruct Ed as [Ed1 Ed2].
    apply Z.leb_le in Ed1. apply Z.ltb_lt in Ed2.
    change (offset (dst myTZ) * SECS_PER_MIN) with (-14400).
    change (offset mySTD * SECS_PER_MIN) with (-18000).
    assert (Ea' : ambiguous myTZ (t + -14400) = (S' - 3600 <=? t)).
    { unfold ambiguous. rewrite (year_unique n) by (assumption || lia).
      rewrite toTime_t_std. fold S'. change (shift myTZ) with 3600.
      destruct (Z.leb_spec (S' - 14400 - 3600) (t + -14400));
        destruct (Z.ltb_spec (t + -14400) (S' - 14400));
        destruct (Z.leb_spec (S' - 3600) t); simpl; try reflexivity; lia. }
    unfold toUTC.
    change (offset (std myTZ) * SECS_PER_MIN) with (-18000).
    change (offset (dst myTZ) * SECS_PER_MIN) with (-14400).
    replace (t + -14400 - -18000) with (t + 3600) by lia.
    replace (t + -14400 - -14400) with t by lia.
    rewrite (utcIsDST_in_year n (t + 3600)) by (assumption || lia).
    fold D S'. rewrite Ea, Ea'.
    destruct (Z.leb_spec (S' - 3600) t).
    + split; [discriminate|intros _].
      destruct (Z.leb_spec D (t + 3600)); destruct (Z.ltb_spec (t + 3600) S');
        simpl; lia.
    + split; [intros _|discriminate].
      destruct (Z.leb_spec D (t + 3600)); destruct (Z.ltb_spec (t + 3600) S');
        simpl; lia.
  - (* standard time at t *)
    change (offset (std myTZ) * SECS_PER_MIN) with (-18000).
    change (offset mySTD * SECS_PER_MIN) with (-18000).
    assert (E : toUTC myTZ (t + -18000) = t).
    { unfold toUTC. change (offset (std myTZ) * SECS_PER_MIN) with (-18000).
      replace (t + -18000 - -18000) with t by lia. rewrite Ea. reflexivity. }
    rewrite E. split; intros _; lia.
Qed.

Lemma off_std : offset (std myTZ) * SECS_PER_MIN = -18000.
Proof. reflexivity. Qed.

Lemma off_dst : offset (dst myTZ) * SECS_PER_MIN = -14400.
Proof. reflexivity. Qed.

Lemma off_mySTD : offset mySTD * SECS_PER_MIN = -18000.
Proof. reflexivity. Qed.

Lemma shift_myTZ : shift myTZ = 3600.
Proof. reflexivity. Qed.

Lemma ambiguous_eq tz l :
  ambiguous tz l =
    (toTime_t (std tz) (year l) - shift tz <=? l) && (l <? toTime_t (std tz) (year l)).
Proof. reflexivity. Qed.

Lemma skipped_eq tz l :
  skipped tz l =
    (toTime_t (dst tz) (year l) <=? l) && (l <? toTime_t (dst tz) (year l) + shift tz).
Proof. reflexivity. Qed.

Lemma toUTC_eq tz l :
  toUTC tz l =
    if negb (utcIsDST tz (l - offset (std tz) * SECS_PER_MIN))
    then l - offset (std tz) * SECS_PER_MIN
    else if utcIsDST tz (l - offset (dst tz) * SECS_PER_MIN)
         then l - offset (dst tz) * SECS_PER_MIN
         else l - offset (std tz) * SECS_PER_MIN.
Proof. reflexivity. Qed.

(** A local time inside either window resolves to the standard rule. *)
Lemma window_resolves_to_standard l :
  0 <= l < time_t_max ->
  ambiguous myTZ l || skipped myTZ l = true ->
  toUTC myTZ l = l - offset mySTD * SECS_PER_MIN.
Proof.
  intros Hl Hw.
  destruct (year_locate l) as (n & Hn & Hy); [lia|].
  pose proof (year_ok_facts n Hn) as H. cbv zeta in H.
  destruct H as (H1 & H2 & H3).
  assert (Hn' : (n < 256)%nat) by lia.
  rewrite ambiguous_eq, skipped_eq in Hw.
  rewrite (year_unique n l Hn' Hy) in Hw.
  rewrite toTime_t_std, toTime_t_dst, shift_myTZ in Hw.
  rewrite toUTC_eq, off_std, off_dst, off_mySTD.
  assert (U1 := fun u => utcIsDST_in_year n u Hn).
  remember (dstUTC myTZ (1970 + Z.of_nat n)) as D.
  remember (stdUTC myTZ (1970 + Z.of_nat n)) as S'.
  remember (yearStart (1970 + Z.of_nat n)) as Y0.
  remember (yearStart (1970 + Z.of_nat (S n))) as Y1.
  clear HeqD HeqS' HeqY0 HeqY1.
  apply orb_prop in Hw. destruct Hw as [Hw|Hw];
    apply andb_prop in Hw; destruct Hw as [Hw1 Hw2];
    apply Z.leb_le in Hw1; apply Z.ltb_lt in Hw2.
  - rewrite (U1 (l - -18000)) by lia.
    destruct (Z.ltb_spec (l - -18000) S'); [lia|].
    rewrite andb_false_r. reflexivity.
  - rewrite (U1 (l - -18000)) by lia.
    rewrite (U1 (l - -14400)) by lia.
    destruct (Z.leb_spec D (l - -18000)); [|lia].
    destruct (Z.ltb_spec (l - -18000) S'); [|lia].
    destruct (Z.leb_spec D (l - -14400)); [lia|].
    reflexivity.
Qed.

End EasternTime.

(** C1: under the compiled-in Eastern rules, for every instant [t] that a
    [time_t] holds, converting [t] to local time and back gives [t] unless
    the local time lies in the hour that occurs twice, and there the result
    is the standard-time reading of the local time; every local time [l] in
    the repeated or in the skipped hour converts by the standard rule. *)
Theorem toUTC_toLocal_roundtrip (t l : Z) :
  0 <= t < time_t_max -> 0 <= l < time_t_max ->
  let lt := fst (Timezone.toLocal myTZ t) in
  (Timezone.ambiguous myTZ lt = false -> Timezone.toUTC myTZ lt = t) /\
  (Timezone.ambiguous myTZ lt = true ->
     Timezone.toUTC myTZ lt = lt - Timezone.offset mySTD * SECS_PER_MIN) /\
  (Timezone.ambiguous myTZ l || Timezone.skipped myTZ l = true ->
     Timezone.toUTC myTZ l = l - Timezone.offset mySTD * SECS_PER_MIN).
Proof.
  intros Ht Hl lt.
  destruct (roundtrip_from_utc t Ht) as [A B].
  split; [exact A|]. split; [exact B|].
  apply window_resolves_to_standard; assumption.
Qed.

(** 2024-07-03T09:46:40Z goes to local time and back; 02:30 local time on
    2024-03-10 does not exist and is read as standard time. *)
Lemma toUTC_toLocal_roundtrip_witness :
  Timezone.toUTC myTZ (fst (Timezone.toLocal myTZ 1720000000)) = 1720000000 /\
  Timezone.toUTC myTZ 1710037800 = 1710037800 - Timezone.offset mySTD * SECS_PER_MIN.
Proof.
  assert (H1 : 0 <= 1720000000 < time_t_max) by (unfold time_t_max; lia).
  assert (H2 : 0 <= 1710037800 < time_t_max) by (unfold time_t_max; lia).
  pose proof (toUTC_toLocal_roundtrip 1720000000 1710037800 H1 H2) as H.
  cbv zeta in H. destruct H as (A & _ & C).
  split; [apply A | apply C]; vm_compute; reflexivity.
Defined.

(* ================================================================== *)
(** * The main loop: what a turn leaves alone                           *)
(* ================================================================== *)

Section Frames.

Lemma core_mkHumidStr env s st : core (mkHumidStr env s st) = core st.
Proof. unfold mkHumidStr, core. destruct (Arduino.isnan _); reflexivity. Qed.

Lemma core_mkTempStr env s st : core (mkTempStr env s st) = core st.
Proof. reflexivity. Qed.

Lemma core_Serial_print s st : core (Serial_print s st) = core st.
Proof. reflexivity. Qed.

Lemma core_consoleUpdate st : core (consoleUpdate st) = core st.
Proof. reflexivity. Qed.

Lemma core_mkDateStr t st : core (mkDateStr t st) = core st.
Proof. reflexivity. Qed.

Lemma core_mkTimeStr t st : core (mkTimeStr t st) = core st.
Proof. reflexivity. Qed.

Lemma core_display st :
  core (displayHumid (displayTemp (displayTime (displayDate st)))) = core st.
Proof. reflexivity. Qed.

(** [mkHumidStr] writes [bufHumid] and the console only. *)
Lemma mkHumidStr_keeps env s st :
  core (mkHumidStr env s st) = core st /\
  bufDate (mkHumidStr env s st) = bufDate st /\
  bufTime (mkHumidStr env s st) = bufTime st /\
  bufTemp (mkHumidStr env s st) = bufTemp st /\
  lcd (mkHumidStr env s st) = lcd st /\
  sd_file (mkHumidStr env s st) = sd_file st /\
  bufHumid (mkHumidStr env s st) = humid_string (humid_value env s).
Proof.
  unfold mkHumidStr, humid_string.
  destruct (Arduino.isnan (humid_value env s)); repeat split.
Qed.

Lemma doLog_mkHumidStr env s st : doLog (mkHumidStr env s st) = doLog st.
Proof. pose proof (core_mkHumidStr env s st) as H. unfold core in H. congruence. Qed.

Lemma sensor_mkHumidStr env s st : sensor (mkHumidStr env s st) = sensor st.
Proof. pose proof (core_mkHumidStr env s st) as H. unfold core in H. congruence. Qed.

Lemma sd_file_mkHumidStr env s st : sd_file (mkHumidStr env s st) = sd_file st.
Proof. apply mkHumidStr_keeps. Qed.

Lemma zone_mkHumidStr env s st : zone (mkHumidStr env s st) = zone st.
Proof. pose proof (core_mkHumidStr env s st) as H. unfold core in H. congruence. Qed.

Lemma bufDate_mkHumidStr env s st : bufDate (mkHumidStr env s st) = bufDate st.
Proof. apply mkHumidStr_keeps. Qed.

Lemma bufTime_mkHumidStr env s st : bufTime (mkHumidStr env s st) = bufTime st.
Proof. apply mkHumidStr_keeps. Qed.

Lemma bufHumid_mkHumidStr env s st :
  bufHumid (mkHumidStr env s st) = humid_string (humid_value env s).
Proof. apply mkHumidStr_keeps. Qed.

(** The three ways a cycle ends. *)
Lemma cycle_nolog env st :
  doLog st = 0 -> cycle env st = Returns (consoleUpdate (sampled env st)).
Proof.
  intros H. unfold cycle, sampled. cbv zeta.
  cbn [doLog mkTempStr set_bufTemp].
  rewrite doLog_mkHumidStr. cbn [doLog set_first]. rewrite H. reflexivity.
Qed.

Lemma cycle_logged env st :
  doLog st <> 0 -> sd_opens env = true ->
  cycle env st =
    Returns (consoleUpdate
               (Serial_print ("Logging done" ++ Arduino.endl)
                  (set_sd_file (sd_file st ++ log_record (sampled env st))
                     (Serial_print ("SD Logging now ..." ++ Arduino.endl)
                                   (sampled env st))))).
Proof.
  intros H Ho. unfold cycle, sampled. cbv zeta.
  cbn [doLog mkTempStr set_bufTemp].
  rewrite doLog_mkHumidStr. cbn [doLog set_first].
  destruct (Z.eqb_spec (doLog st) 0) as [E|_]; [contradiction|].
  cbn [negb]. unfold sdLog. rewrite Ho.
  cbn [sd_file Serial_print set_serial_out mkTempStr set_bufTemp].
  rewrite sd_file_mkHumidStr. reflexivity.
Qed.

Lemma cycle_halts env st :
  doLog st <> 0 -> sd_opens env = false ->
  cycle env st =
    Halts (Serial_print ("error opening " ++ FILENAME ++ Arduino.endl)
             (Serial_print ("SD Logging now ..." ++ Arduino.endl)
                           (sampled env st))).
Proof.
  intros H Ho. unfold cycle, sampled. cbv zeta.
  cbn [doLog mkTempStr set_bufTemp].
  rewrite doLog_mkHumidStr. cbn [doLog set_first].
  destruct (Z.eqb_spec (doLog st) 0) as [E|_]; [contradiction|].
  cbn [negb]. unfold sdLog. rewrite Ho. reflexivity.
Qed.

Lemma core_sampled env st : core (sampled env st) = core (set_first 0 st).
Proof.
  unfold sampled. rewrite core_mkTempStr, core_mkHumidStr. reflexivity.
Qed.

Lemma core_set_tLast t a b :
  core a = core b -> core (set_tLast t a) = core (set_tLast t b).
Proof. unfold core. cbn. intros H. injection H as -> -> -> -> -> -> -> -> _. reflexivity. Qed.

Lemma core_set_tLast_same a : core (set_tLast (tLast a) a) = core a.
Proof. reflexivity. Qed.

Lemma core_cycle env st :
  sd_opens env = true \/ doLog st = 0 ->
  exists st', cycle env st = Returns st' /\ core st' = core (set_first 0 st).
Proof.
  intros H. destruct (Z.eq_dec (doLog st) 0) as [E|E].
  - rewrite (cycle_nolog env st E). eexists. split; [reflexivity|].
    rewrite core_consoleUpdate. apply core_sampled.
  - destruct H as [H|H]; [|contradiction].
    rewrite (cycle_logged env st E H). eexists. split; [reflexivity|].
    rewrite core_consoleUpdate, core_Serial_print.
    transitivity (core (sampled env st)); [reflexivity|apply core_sampled].
Qed.

Lemma due_frame a b u : first a = first b -> due a u = due b u.
Proof. unfold due. intros ->. reflexivity. Qed.

(** A turn in which the time has changed, when the log can be written. *)
Lemma core_refresh env utc t st :
  sd_opens env = true \/ doLog st = 0 ->
  exists st',
    refresh env utc t st = (due st utc, Returns st') /\
    core st' = core (set_tLast t (if due st utc then set_first 0 st else st)).
Proof.
  intros H. unfold refresh. cbv zeta.
  rewrite (due_frame (mkTimeStr utc (mkDateStr utc st)) st utc) by reflexivity.
  destruct (due st utc).
  - destruct (core_cycle env (mkTimeStr utc (mkDateStr utc st)) H) as (s1 & E1 & C1).
    rewrite E1. eexists. split; [reflexivity|].
    apply core_set_tLast. rewrite core_display.
    destruct (zone s1 =? SHOWLOC);
      [rewrite core_mkTimeStr, core_mkDateStr|]; rewrite C1; reflexivity.
  - eexists. split; [reflexivity|].
    apply core_set_tLast. rewrite core_display.
    destruct (zone _ =? SHOWLOC); reflexivity.
Qed.

Lemma fires_eq st :
  fires st = negb (fst (Timezone.toLocal myTZ (sysTime st)) =? tLast st)
             && due st (sysTime st).
Proof. reflexivity. Qed.

(** A turn with no operator input, when the log can be written. *)
Lemma core_loop env st :
  serial_in st = EmptyString ->
  sd_opens env = true \/ doLog st = 0 ->
  exists st',
    loop env st = (fires st, Returns st') /\
    core st' = core (set_tLast (fst (Timezone.toLocal myTZ (sysTime st)))
                       (set_zone (adjustMode env)
                          (if fires st then set_first 0 st else st))).
Proof.
  intros Hin Hsd. unfold loop, poll. cbv zeta.
  cbn [serial_in set_zone]. rewrite Hin. cbn [String.length Nat.eqb negb].
  unfold now. cbn [sysTime tLast Serial_print set_serial_out set_zone].
  rewrite fires_eq.
  set (utc := sysTime st). set (t := fst (Timezone.toLocal myTZ utc)).
  destruct (Z.eqb_spec t (tLast st)) as [E|E]; cbn [negb andb].
  - eexists. split; [reflexivity|]. rewrite E. reflexivity.
  - match goal with |- context [refresh env utc t ?X] =>
      destruct (core_refresh env utc t X Hsd) as (s1 & E1 & C1) end.
    rewrite E1. rewrite (due_frame _ st utc) by reflexivity.
    eexists. split; [reflexivity|]. rewrite C1.
    rewrite (due_frame _ st utc) by reflexivity.
    destruct (due st utc); reflexivity.
Qed.

End Frames.

(* ================================================================== *)
(** * The five-minute gate                                             *)
(* ================================================================== *)

Section Gate.

Import Timezone.

Lemma toLocal_eq tz u :
  toLocal tz u = (u + offset (activeRule tz u) * SECS_PER_MIN, activeRule tz u).
Proof. reflexivity. Qed.

Lemma activeRule_eq tz u :
  activeRule tz u = if utcIsDST tz u then dst tz else std tz.
Proof. reflexivity. Qed.

(** Local time is UTC less four or five hours. *)
Lemma toLocal_cases u :
  fst (toLocal myTZ u) = u - 14400 \/ fst (toLocal myTZ u) = u - 18000.
Proof.
  rewrite toLocal_eq, activeRule_eq. cbn [fst].
  destruct (utcIsDST myTZ u); [left; rewrite off_dst | right; rewrite off_std]; lia.
Qed.

Lemma toLocal_next u : fst (toLocal myTZ (u + 1)) <> fst (toLocal myTZ u).
Proof.
  destruct (toLocal_cases u) as [-> | ->];
    destruct (toLocal_cases (u + 1)) as [-> | ->]; lia.
Qed.

(** Second 0 of a minute divisible by 5 is the start of a bucket. *)
Lemma on_the_five u :
  (second u =? 0) && (minute u mod 5 =? 0) = (u mod 300 =? 0).
Proof.
  unfold second, minute.
  pose proof (Z.div_mod u 60 ltac:(lia)) as E1.
  pose proof (Z.mod_pos_bound u 60 ltac:(lia)) as B1.
  pose proof (Z.div_mod (u / 60) 60 ltac:(lia)) as E2.
  pose proof (Z.mod_pos_bound (u / 60) 60 ltac:(lia)) as B2.
  pose proof (Z.div_mod ((u / 60) mod 60) 5 ltac:(lia)) as E3.
  pose proof (Z.mod_pos_bound ((u / 60) mod 60) 5 ltac:(lia)) as B3.
  pose proof (Z.div_mod u 300 ltac:(lia)) as E4.
  pose proof (Z.mod_pos_bound u 300 ltac:(lia)) as B4.
  set (a := u / 60) in *. set (b := u mod 60) in *.
  set (c := a / 60) in *. set (d := a mod 60) in *.
  set (e := d / 5) in *. set (f := d mod 5) in *.
  set (g := u / 300) in *. set (h := u mod 300) in *.
  clearbody a b c d e f g h.
  destruct (Z.eqb_spec b 0); destruct (Z.eqb_spec f 0);
    destruct (Z.eqb_spec h 0); cbn [andb]; try reflexivity; exfalso; lia.
Qed.

Lemma core_fields a b :
  core a = core b ->
  eeprom a = eeprom b /\ rtc a = rtc b /\ sysTime a = sysTime b /\
  serial_in a = serial_in b /\ zone a = zone b /\ doLog a = doLog b /\
  sensor a = sensor b /\ first a = first b /\ tLast a = tLast b.
Proof. unfold core. intros H. injection H. intros. repeat split; assumption. Qed.

(** One turn of a settled loop: it starts a cycle exactly when a new
    second has begun and that second starts a bucket. *)
Lemma settled_turn dt env st :
  settled st -> dt = 0 \/ dt = 1 ->
  sd_opens env = true \/ doLog st = 0 ->
  exists st',
    loop env (elapse dt st) =
      ((dt =? 1) && ((sysTime st + dt) mod 300 =? 0), Returns st') /\
    settled st' /\ sysTime st' = sysTime st + dt /\ doLog st' = doLog st.
Proof.
  intros (Hf & Hl & Hi) Hdt Hsd.
  destruct (core_loop env (elapse dt st)) as (st' & E & C); [exact Hi|exact Hsd|].
  exists st'. rewrite E.
  assert (Ef : fires (elapse dt st) = (dt =? 1) && ((sysTime st + dt) mod 300 =? 0)).
  { rewrite fires_eq. cbn [elapse sysTime tLast set_rtc set_sysTime].
    rewrite (due_frame _ st) by reflexivity.
    unfold due. rewrite Hf, Hl. cbn [Z.eqb negb orb]. rewrite on_the_five.
    destruct Hdt as [-> | ->].
    - rewrite Z.add_0_r, Z.eqb_refl. reflexivity.
    - destruct (Z.eqb_spec (fst (toLocal myTZ (sysTime st + 1)))
                           (fst (toLocal myTZ (sysTime st)))) as [E1|E1];
        [destruct (toLocal_next _ E1)|reflexivity]. }
  split; [rewrite Ef; reflexivity|].
  apply core_fields in C.
  destruct C as (_ & _ & Cs & Ci & _ & Cd & _ & C1 & Ct).
  cbn [elapse sysTime tLast first serial_in doLog set_tLast set_zone set_rtc set_sysTime] in *.
  assert (Cs' : sysTime st' = sysTime st + dt).
  { rewrite Cs. destruct (fires _); reflexivity. }
  repeat split.
  - rewrite C1. destruct (fires _); [reflexivity|exact Hf].
  - rewrite Ct, Cs'. reflexivity.
  - rewrite Ci. destruct (fires _); exact Hi.
  - exact Cs'.
  - rewrite Cd. destruct (fires _); reflexivity.
Qed.

Lemma fired_in_cons k x evs :
  fired_in k (x :: evs) =
    if snd x && (bucket (fst x) =? k) then x :: fired_in k evs else fired_in k evs.
Proof. reflexivity. Qed.

(** No cycle in bucket [k] among events that all start later buckets. *)
Lemma fired_in_later k evs :
  (forall u, In (u, true) evs -> 300 * k < u /\ u mod 300 = 0) ->
  fired_in k evs = [].
Proof.
  induction evs as [|[u f] evs IH]; intros H; [reflexivity|].
  rewrite fired_in_cons. cbn [fst snd].
  destruct f.
  - destruct (H u (or_introl eq_refl)) as [H1 H2].
    unfold bucket. destruct (Z.eqb_spec (u / 300) k) as [E|E].
    + exfalso. pose proof (Z.div_mod u 300 ltac:(lia)). lia.
    + cbn [andb]. apply IH. intros v Hv. apply H. right. exact Hv.
  - cbn [andb]. apply IH. intros v Hv. apply H. right. exact Hv.
Qed.

(** The events of a run of a settled loop. *)
Lemma settled_run turns : forall st,
  settled st -> every_second turns -> loggable turns st ->
  exists evs st',
    run turns st = (evs, Returns st') /\
    (forall u, In u (map fst evs) -> sysTime st <= u) /\
    (forall u, In (u, true) evs -> sysTime st < u /\ u mod 300 = 0) /\
    (forall k, (List.length (fired_in k evs) <= 1)%nat) /\
    (forall k, sysTime st < 300 * k -> In (300 * k) (map fst evs) ->
               List.length (fired_in k evs) = 1%nat).
Proof.
  induction turns as [|[dt env] rest IH]; intros st Hs He Hl.
  - exists [], st. split; [reflexivity|].
    repeat split; intros; cbn in *; try contradiction; lia.
  - inversion He as [|? ? Hdt He']; subst. cbn [fst] in Hdt.
    assert (Hsd : sd_opens env = true \/ doLog st = 0).
    { destruct Hl as [Hl|Hl]; [right; exact Hl|left].
      inversion Hl; subst; assumption. }
    destruct (settled_turn dt env st Hs Hdt Hsd) as (st1 & E & Hs1 & Ht1 & Hd1).
    assert (Hl1 : loggable rest st1).
    { destruct Hl as [Hl|Hl]; [left; congruence|right].
      inversion Hl; subst; assumption. }
    destruct (IH st1 Hs1 He' Hl1) as (evs & st' & Er & P1 & P2 & P3 & P4).
    set (f := (dt =? 1) && ((sysTime st + dt) mod 300 =? 0)) in *.
    exists ((sysTime st + dt, f) :: evs), st'.
    split.
    { cbn [run]. rewrite E, Er. reflexivity. }
    assert (Q2 : forall u, In (u, true) ((sysTime st + dt, f) :: evs) ->
                           sysTime st < u /\ u mod 300 = 0).
    { intros u [Hu|Hu].
      - injection Hu as <- Hf. unfold f in Hf.
        apply andb_prop in Hf. destruct Hf as [Hf1 Hf2].
        apply Z.eqb_eq in Hf1, Hf2. lia.
      - destruct (P2 u Hu). lia. }
    assert (Q0 : forall k, f = true -> bucket (sysTime st + dt) = k ->
                           fired_in k evs = []).
    { intros k Hf Hb. apply fired_in_later. intros u Hu.
      destruct (P2 u Hu) as [Hu1 Hu2]. split; [|exact Hu2].
      unfold f in Hf. apply andb_prop in Hf. destruct Hf as [_ Hf2].
      apply Z.eqb_eq in Hf2. unfold bucket in Hb.
      pose proof (Z.div_mod (sysTime st + dt) 300 ltac:(lia)). lia. }
    split; [|split; [exact Q2|split]].
    + intros u [Hu|Hu]; [cbn [fst] in Hu; lia|]. specialize (P1 u Hu). lia.
    + intros k. rewrite fired_in_cons. cbn [fst snd].
      destruct f eqn:Ef; cbn [andb]; [|apply P3].
      destruct (Z.eqb_spec (bucket (sysTime st + dt)) k) as [Eb|Eb]; [|apply P3].
      rewrite (Q0 k eq_refl Eb). cbn. lia.
    + intros k Hk Hin. rewrite fired_in_cons. cbn [fst snd].
      destruct (Z.eq_dec (sysTime st + dt) (300 * k)) as [Eu|Eu].
      * assert (Hd1' : dt = 1) by lia.
        assert (Ef : f = true).
        { unfold f. rewrite Eu, Hd1'. cbn [Z.eqb Pos.eqb andb].
          apply Z.eqb_eq. rewrite Z.mul_comm. apply Z.mod_mul. lia. }
        assert (Eb : bucket (sysTime st + dt) = k).
        { unfold bucket. rewrite Eu, Z.mul_comm. apply Z.div_mul. lia. }
        rewrite Ef, Eb, Z.eqb_refl. cbn [andb].
        rewrite (Q0 k Ef Eb). reflexivity.
      * destruct Hin as [Hin|Hin]; [cbn [fst] in Hin; lia|].
        assert (Hb : (bucket (sysTime st + dt) =? k) = false).
        { apply Z.eqb_neq. unfold bucket. intros Hb.
          pose proof (Z.div_mod (sysTime st + dt) 300 ltac:(lia)).
          pose proof (Z.mod_pos_bound (sysTime st + dt) 300 ltac:(lia)). lia. }
        rewrite Hb, andb_false_r. apply P4; [lia|exact Hin].
Qed.

End Gate.

(** C2: once the first cycle has been started (the flag is cleared and the
    time of that turn is remembered), a run of the loop that is called at
    least once in every second, with no operator input and a log that can
    be written, returns from every turn, starts a cycle only at second 0 of
    a minute divisible by 5, never starts two in one five-minute bucket,
    and starts exactly one in every bucket whose first second it reaches. *)
Theorem one_cycle_per_bucket (turns : list (Z * Env)) (st : State) :
  settled st -> every_second turns -> loggable turns st ->
  exists evs st',
    run turns st = (evs, Returns st') /\
    (forall u, In (u, true) evs -> second u = 0 /\ minute u mod 5 = 0) /\
    (forall k, (List.length (fired_in k evs) <= 1)%nat) /\
    (forall k, sysTime st < 300 * k -> In (300 * k) (map fst evs) ->
               List.length (fired_in k evs) = 1%nat).
Proof.
  intros Hs He Hl.
  destruct (settled_run turns st Hs He Hl) as (evs & st' & Er & _ & P2 & P3 & P4).
  exists evs, st'. split; [exact Er|]. split; [|split; assumption].
  intros u Hu. destruct (P2 u Hu) as [_ Hm].
  pose proof (on_the_five u) as H5.
  rewrite (proj2 (Z.eqb_eq _ _) Hm) in H5.
  apply andb_prop in H5. destruct H5 as [H5 H6].
  apply Z.eqb_eq in H5, H6. split; assumption.
Qed.

(** A run of twenty seconds across 06:00:00Z on 2024-11-03. *)
Lemma one_cycle_per_bucket_witness :
  exists evs st',
    run (repeat (1, fair_weather) 20) running_2024 = (evs, Returns st') /\
    (forall u, In (u, true) evs -> second u = 0 /\ minute u mod 5 = 0) /\
    (forall k, (List.length (fired_in k evs) <= 1)%nat) /\
    (forall k, sysTime running_2024 < 300 * k -> In (300 * k) (map fst evs) ->
               List.length (fired_in k evs) = 1%nat).
Proof.
  apply (one_cycle_per_bucket (repeat (1, fair_weather) 20) running_2024).
  - split; [|split]; vm_compute; reflexivity.
  - unfold every_second. cbn [repeat].
    repeat (apply Forall_cons; [right; reflexivity|]). apply Forall_nil.
  - right. cbn [repeat].
    repeat (apply Forall_cons; [reflexivity|]). apply Forall_nil.
Defined.

(* ================================================================== *)
(** * The clock-set dialogue                                           *)
(* ================================================================== *)

Section ClockSet.

Lemma serial_in_prompt st : serial_in (prompt st) = serial_in st.
Proof. reflexivity. Qed.

Lemma setClock_waits st :
  String.length (serial_in st) = 0%nat -> setClock st = Waits (prompt st).
Proof.
  intros H. unfold setClock. cbv zeta. rewrite serial_in_prompt, H. reflexivity.
Qed.

Lemma setClock_short st :
  (0 < String.length (serial_in st) < 12)%nat -> setClock st = Returns (prompt st).
Proof.
  intros H. unfold setClock. cbv zeta. rewrite serial_in_prompt.
  destruct (Nat.eqb_spec (String.length (serial_in st)) 0); [lia|].
  destruct (Nat.leb_spec 12 (String.length (serial_in st))); [lia|reflexivity].
Qed.

Lemma setClock_rejects st :
  (12 <= String.length (serial_in st))%nat ->
  rejected (year_field (serial_in st)) = true ->
  setClock st =
    Returns (Serial_print ("Error: Year must be two digits or four digits!"
                           ++ Arduino.endl)
               (set_serial_in (snd (Arduino.parseInt (serial_in st))) (prompt st))).
Proof.
  intros H R. unfold setClock. cbv zeta. rewrite serial_in_prompt.
  destruct (Nat.eqb_spec (String.length (serial_in st)) 0); [lia|].
  destruct (Nat.leb_spec 12 (String.length (serial_in st))); [|lia].
  rewrite R. reflexivity.
Qed.

Lemma setClock_accepts st :
  (12 <= String.length (serial_in st))%nat ->
  rejected (year_field (serial_in st)) = false ->
  setClock st =
    Returns (commit (to_time_t (makeTime (entered (serial_in st))))
               (set_serial_in
                  (snd (read_tm (year_byte (year_field (serial_in st)))
                                (snd (Arduino.parseInt (serial_in st)))))
                  (set_serial_in (snd (Arduino.parseInt (serial_in st)))
                                 (prompt st)))).
Proof.
  intros H R. unfold setClock, entered. cbv zeta. rewrite serial_in_prompt.
  destruct (Nat.eqb_spec (String.length (serial_in st)) 0); [lia|].
  destruct (Nat.leb_spec 12 (String.length (serial_in st))); [|lia].
  rewrite R.
  destruct (read_tm _ _) as [tm buf]. reflexivity.
Qed.

(** The dialogue touches neither the statics of the loop nor the switches. *)
Lemma setClock_statics st :
  first (final (setClock st)) = first st /\
  tLast (final (setClock st)) = tLast st /\
  doLog (final (setClock st)) = doLog st /\
  sd_file (final (setClock st)) = sd_file st /\
  lcd (final (setClock st)) = lcd st.
Proof.
  destruct (Nat.eq_dec (String.length (serial_in st)) 0) as [E|E].
  - rewrite (setClock_waits st E). repeat split.
  - destruct (Nat.lt_ge_cases (String.length (serial_in st)) 12) as [L|L].
    + rewrite (setClock_short st) by lia. repeat split.
    + destruct (rejected (year_field (serial_in st))) eqn:R.
      * rewrite (setClock_rejects st L R). repeat split.
      * rewrite (setClock_accepts st L R). repeat split.
Qed.

(** With input pending the dialogue returns: it neither waits nor halts. *)
Lemma setClock_returns st :
  String.length (serial_in st) <> 0%nat -> exists st', setClock st = Returns st'.
Proof.
  intros E.
  destruct (Nat.lt_ge_cases (String.length (serial_in st)) 12) as [L|L].
  - rewrite (setClock_short st) by lia. eexists; reflexivity.
  - destruct (rejected (year_field (serial_in st))) eqn:R.
    + rewrite (setClock_rejects st L R). eexists; reflexivity.
    + rewrite (setClock_accepts st L R). eexists; reflexivity.
Qed.

Lemma poll_returns env st :
  exists st', poll env st = Returns st' /\ first st' = first st /\ tLast st' = tLast st.
Proof.
  unfold poll. cbv zeta. cbn [serial_in set_zone].
  destruct (Nat.eqb_spec (String.length (serial_in st)) 0) as [E|E]; cbn [negb].
  - eexists. split; [reflexivity|]. split; reflexivity.
  - destruct (setClock_returns (set_zone (adjustMode env) st) E) as (st' & Es).
    exists st'. split; [exact Es|].
    pose proof (setClock_statics (set_zone (adjustMode env) st)) as (F1 & F2 & _).
    rewrite Es in F1, F2. cbn [final] in F1, F2. split; assumption.
Qed.

Lemma refresh_flag env utc t st : fst (refresh env utc t st) = due st utc.
Proof.
  unfold refresh. cbv zeta.
  rewrite (due_frame (mkTimeStr utc (mkDateStr utc st)) st utc) by reflexivity.
  destruct (if due st utc then cycle env _ else Returns _); reflexivity.
Qed.

End ClockSet.

(** C3 (as amended): in a turn of the loop with the flag [first] still
    set, as it is at startup, the poll of the operator returns, and if the
    local time then read differs from the remembered one ([tLast], 0 at
    startup) the cycle is started, whatever the second and the minute are. *)
Theorem first_turn_fires (env : Env) (st : State) :
  first st <> 0 ->
  exists st1,
    poll env st = Returns st1 /\
    (fst (Timezone.toLocal myTZ (now st1)) <> tLast st -> fst (loop env st) = true).
Proof.
  intros Hf. destruct (poll_returns env st) as (st1 & Ep & F1 & F2).
  exists st1. split; [exact Ep|]. intros Ht.
  unfold loop. rewrite Ep. cbv zeta.
  cbn [tLast Serial_print set_serial_out]. rewrite F2.
  destruct (Z.eqb_spec (fst (Timezone.toLocal myTZ (now st1))) (tLast st)) as [E|E];
    [contradiction|].
  cbn [negb]. rewrite refresh_flag.
  rewrite (due_frame _ st1) by reflexivity.
  unfold due. rewrite F1.
  destruct (Z.eqb_spec (first st) 0); [contradiction|reflexivity].
Qed.

(** At power-on on 2024-11-03T05:59:50Z the first turn starts a cycle. *)
Lemma first_turn_fires_witness :
  exists st1,
    poll fair_weather (power_on 1730613590) = Returns st1 /\
    (fst (Timezone.toLocal myTZ (now st1)) <> tLast (power_on 1730613590) ->
     fst (loop fair_weather (power_on 1730613590)) = true).
Proof.
  apply (first_turn_fires fair_weather (power_on 1730613590)).
  vm_compute. discriminate.
Defined.

(** C3, the claim as stated fails: at startup with the clock at
    1970-01-01T05:00:00Z (second 0, minute 0) the local time is 0, which is
    the initial [tLast]; the first turn starts no cycle. *)
Lemma first_turn_counterexample :
  cold (power_on 18000) /\
  second (now (power_on 18000)) = 0 /\ minute (now (power_on 18000)) = 0 /\
  fst (loop fair_weather (power_on 18000)) = false.
Proof. repeat split. Qed.

Section ClockSetClaims.

Lemma Year_read_tm y buf : Year (fst (read_tm y buf)) = y.
Proof.
  unfold read_tm.
  repeat match goal with
         | |- context [Arduino.parseInt ?b] => destruct (Arduino.parseInt b)
         end.
  reflexivity.
Qed.

Lemma year_byte_2digit y : 0 <= y < 100 -> tmYearToCalendar (year_byte y) = 2000 + y.
Proof.
  intros H. unfold year_byte, tmYearToCalendar, y2kYearToTm, Arduino.to_uint8.
  destruct (Z.leb_spec 1000 y); [lia|].
  rewrite Z.mod_small by lia. lia.
Qed.

Lemma year_byte_4digit y : 1970 <= y < 2226 -> tmYearToCalendar (year_byte y) = y.
Proof.
  intros H. unfold year_byte, tmYearToCalendar, CalendarYrToTm, Arduino.to_uint8.
  destruct (Z.leb_spec 1000 y); [|lia].
  rewrite Z.mod_small by lia. lia.
Qed.

Lemma rejected_iff y : rejected y = true <-> 100 <= y < 1000.
Proof.
  unfold rejected. rewrite andb_true_iff, Z.leb_le, Z.ltb_lt. reflexivity.
Qed.

Lemma commit_clocks t st :
  rtc (commit t st) = to_time_t (Timezone.toUTC myTZ t) /\
  sysTime (commit t st) = to_time_t (Timezone.toUTC myTZ t) /\
  serial_in (commit t st) = EmptyString.
Proof. repeat split. Qed.


(** A call that stops short of the commit leaves the clocks and the
    EEPROM alone. *)
Lemma setClock_untouched st :
  (String.length (serial_in st) < 12)%nat \/
  rejected (year_field (serial_in st)) = true ->
  rtc (final (setClock st)) = rtc st /\
  sysTime (final (setClock st)) = sysTime st /\
  eeprom (final (setClock st)) = eeprom st.
Proof.
  intros H.
  destruct (Nat.eq_dec (String.length (serial_in st)) 0) as [E|E].
  - rewrite (setClock_waits st E). repeat split.
  - destruct (Nat.lt_ge_cases (String.length (serial_in st)) 12) as [L|L].
    + rewrite (setClock_short st) by lia. repeat split.
    + destruct H as [H|R]; [lia|].
      rewrite (setClock_rejects st L R). repeat split.
Qed.

End ClockSetClaims.

(** C8: what [setClock] does with a line of at least 12 bytes.  A year
    below 100 is stored as 2000 plus that number and a year from 1970 to
    2225 as itself, in the year byte of the time entered; both clocks are
    set to that local time converted to UTC, as the 32 bits of a [time_t]
    hold it, and the receive buffer is emptied.  A year from 100 to 999 is
    refused: the error message is the last thing printed, the call returns,
    the clocks and the EEPROM are as before, and the receive buffer is not
    emptied: it still holds all that follows the digits of the year. *)
Theorem year_entry (st : State) :
  (12 <= String.length (serial_in st))%nat ->
  let y := year_field (serial_in st) in
  let tm := entered (serial_in st) in
  let utc := to_time_t (Timezone.toUTC myTZ (to_time_t (makeTime tm))) in
  (0 <= y < 100 ->
     tmYearToCalendar (Year tm) = 2000 + y /\
     exists st', setClock st = Returns st' /\
       rtc st' = utc /\ sysTime st' = utc /\ serial_in st' = EmptyString) /\
  (1970 <= y < 2226 ->
     tmYearToCalendar (Year tm) = y /\
     exists st', setClock st = Returns st' /\
       rtc st' = utc /\ sysTime st' = utc /\ serial_in st' = EmptyString) /\
  (100 <= y < 1000 ->
     exists st', setClock st = Returns st' /\
       serial_out st' =
         (serial_out (prompt st)
          ++ "Error: Year must be two digits or four digits!" ++ Arduino.endl)%string /\
       rtc st' = rtc st /\ sysTime st' = sysTime st /\ eeprom st' = eeprom st /\
       serial_in st' = snd (Arduino.parseInt (serial_in st))).
Proof.
  intros L y tm utc. split; [|split]; intros Hy.
  - split.
    + unfold tm, entered. rewrite Year_read_tm. apply year_byte_2digit. exact Hy.
    + assert (R : rejected (year_field (serial_in st)) = false).
      { destruct (rejected _) eqn:R; [|reflexivity].
        apply rejected_iff in R. fold y in R. lia. }
      rewrite (setClock_accepts st L R). eexists. split; [reflexivity|].
      split; [|split]; apply commit_clocks.
  - split.
    + unfold tm, entered. rewrite Year_read_tm. apply year_byte_4digit. exact Hy.
    + assert (R : rejected (year_field (serial_in st)) = false).
      { destruct (rejected _) eqn:R; [|reflexivity].
        apply rejected_iff in R. fold y in R. lia. }
      rewrite (setClock_accepts st L R). eexists. split; [reflexivity|].
      split; [|split]; apply commit_clocks.
  - assert (R : rejected (year_field (serial_in st)) = true)
      by (apply rejected_iff; exact Hy).
    rewrite (setClock_rejects st L R).
    eexists. split; [reflexivity|]. repeat split.
Qed.

(** The line "123,3,15,9,30,0" is refused, and what follows the year stays
    in the receive buffer. *)
Lemma year_entry_witness :
  exists st', setClock (typed "123,3,15,9,30,0") = Returns st' /\
    serial_out st' =
      (serial_out (prompt (typed "123,3,15,9,30,0"))
       ++ "Error: Year must be two digits or four digits!" ++ Arduino.endl)%string /\
    rtc st' = 0 /\ sysTime st' = 0 /\ eeprom st' = ∅ /\
    serial_in st' = (",3,15,9,30,0" ++ Arduino.endl)%string.
Proof.
  assert (L : (12 <= String.length (serial_in (typed "123,3,15,9,30,0")))%nat)
    by (vm_compute; lia).
  pose proof (year_entry (typed "123,3,15,9,30,0") L) as H.
  cbv zeta in H. destruct H as (_ & _ & H).
  apply H. vm_compute. split; [discriminate|reflexivity].
Defined.

(** C8, the claim as stated fails at the line "123,3,15,9,30,0": the input
    is not discarded.  After the error the rest of the line is still in the
    receive buffer, and the next turn of the loop reads it as a new entry
    (year 3, month 15, day 9, hour 30) and sets both clocks and the
    signature from it. *)
Lemma rejected_line_counterexample :
  exists st1 st2,
    setClock (typed "123,3,15,9,30,0") = Returns st1 /\
    serial_in st1 = (",3,15,9,30,0" ++ Arduino.endl)%string /\
    rtc st1 = 0 /\ validSignature st1 = false /\
    snd (loop fair_weather st1) = Returns st2 /\
    rtc st2 = 1073732400 /\ sysTime st2 = 1073732400 /\
    validSignature st2 = true /\ serial_in st2 = EmptyString.
Proof.
  eexists. eexists. split; [reflexivity|]. split; [reflexivity|].
  split; [reflexivity|]. split; [reflexivity|].
  split; [vm_compute; reflexivity|]. repeat split.
Qed.

(** C10: when fewer than 12 bytes are in the receive buffer, or the year
    typed lies in 100..999, [setClock] leaves the hardware counter, the
    software clock and the EEPROM exactly as they were. *)
Theorem setClock_modifies_nothing (st : State) :
  (String.length (serial_in st) < 12)%nat \/
  100 <= year_field (serial_in st) < 1000 ->
  rtc (final (setClock st)) = rtc st /\
  sysTime (final (setClock st)) = sysTime st /\
  eeprom (final (setClock st)) = eeprom st.
Proof.
  intros [H|H]; apply setClock_untouched; [left; exact H|right].
  apply rejected_iff. exact H.
Qed.

Lemma setClock_modifies_nothing_witness :
  rtc (final (setClock (typed "123,3,15,9,30,0"))) = rtc (typed "123,3,15,9,30,0") /\
  sysTime (final (setClock (typed "123,3,15,9,30,0"))) = sysTime (typed "123,3,15,9,30,0") /\
  eeprom (final (setClock (typed "123,3,15,9,30,0"))) = eeprom (typed "123,3,15,9,30,0").
Proof.
  apply (setClock_modifies_nothing (typed "123,3,15,9,30,0")).
  right. vm_compute. split; [discriminate|reflexivity].
Defined.

(* ================================================================== *)
(** * The EEPROM: signature and rules                                   *)
(* ================================================================== *)

Section Eeprom.

Import Arduino TimezoneEE Timezone.

Lemma read_write (ee : gmap Z Z) a v x :
  EEPROM_read (EEPROM_write ee a v) x =
    if decide (a = x) then v mod 256 else EEPROM_read ee x.
Proof.
  unfold EEPROM_read, EEPROM_write. rewrite lookup_insert.
  destruct (decide (a = x)); reflexivity.
Qed.

Lemma read_put_outside bs : forall (ee : gmap Z Z) a x,
  x < a \/ a + Z.of_nat (List.length bs) <= x ->
  EEPROM_read (EEPROM_put ee a bs) x = EEPROM_read ee x.
Proof.
  induction bs as [|b bs IH]; intros ee a x H; [reflexivity|].
  cbn [EEPROM_put]. cbn [List.length] in H.
  rewrite IH by lia. rewrite read_write.
  destruct (decide (a = x)); [lia|reflexivity].
Qed.

Lemma get_put_outside n : forall (ee : gmap Z Z) a bs x,
  x + Z.of_nat n <= a \/ a + Z.of_nat (List.length bs) <= x ->
  EEPROM_get (EEPROM_put ee a bs) x n = EEPROM_get ee x n.
Proof.
  induction n as [|n IH]; intros ee a bs x H; [reflexivity|].
  cbn [EEPROM_get]. rewrite read_put_outside by lia.
  rewrite IH by lia. reflexivity.
Qed.

(** What was put is what is got, byte by byte. *)
Lemma get_put bs : forall (ee : gmap Z Z) a,
  Forall (fun b => 0 <= b < 256) bs ->
  EEPROM_get (EEPROM_put ee a bs) a (List.length bs) = bs.
Proof.
  induction bs as [|b bs IH]; intros ee a H; [reflexivity|].
  inversion H as [|? ? Hb Hbs]; subst.
  cbn [EEPROM_put List.length EEPROM_get].
  rewrite read_put_outside by lia.
  rewrite read_write. destruct (decide (a = a)); [|contradiction].
  rewrite Z.mod_small by lia. rewrite IH by assumption. reflexivity.
Qed.

Lemma chars_of_range s : Forall (fun b => 0 <= b < 256) (chars_of s).
Proof.
  induction s as [|c s IH]; [constructor|].
  cbn [chars_of]. constructor; [|exact IH].
  pose proof (nat_ascii_bounded c). lia.
Qed.

Lemma pad_to_range n : forall l,
  Forall (fun b => 0 <= b < 256) l -> Forall (fun b => 0 <= b < 256) (pad_to n l).
Proof.
  induction n as [|n IH]; intros l H; [constructor|].
  destruct l as [|x r]; cbn [pad_to].
  - constructor; [lia|]. apply IH. constructor.
  - inversion H; subst. constructor; [assumption|]. apply IH. assumption.
Qed.

Lemma pad_to_length n : forall l, List.length (pad_to n l) = n.
Proof.
  induction n as [|n IH]; intros l; [reflexivity|].
  destruct l; cbn [pad_to List.length]; rewrite IH; reflexivity.
Qed.

(** The abbreviation comes back from its six bytes. *)
Lemma cstring_pad n : forall s,
  (String.length s < n)%nat ->
  forallb (fun x => negb (x =? 0)) (chars_of s) = true ->
  cstring (pad_to n (chars_of s)) = s.
Proof.
  induction n as [|n IH]; intros s L H; [lia|].
  destruct s as [|c s]; cbn [chars_of pad_to cstring].
  - reflexivity.
  - cbn [chars_of forallb] in H. apply andb_prop in H. destruct H as [H1 H2].
    cbn [String.length] in L.
    destruct (Z.eqb_spec (Z.of_nat (nat_of_ascii c)) 0) as [E|E]; [discriminate|].
    rewrite Nat2Z.id, ascii_nat_embedding. f_equal. apply IH; [lia|exact H2].
Qed.

Lemma int16_bytes v :
  -32768 <= v < 32768 -> to_int16 (v mod 256 + 256 * ((v / 256) mod 256)) = v.
Proof.
  intros H. unfold to_int16.
  pose proof (Z.div_mod v 256 ltac:(lia)) as E1.
  pose proof (Z.mod_pos_bound v 256 ltac:(lia)) as B1.
  pose proof (Z.div_mod (v / 256) 256 ltac:(lia)) as E2.
  pose proof (Z.mod_pos_bound (v / 256) 256 ltac:(lia)) as B2.
  set (lo := v mod 256) in *. set (q := v / 256) in *.
  set (hi := q mod 256) in *. set (q2 := q / 256) in *.
  assert (Hq2 : q2 = 0 \/ q2 = -1) by lia.
  destruct Hq2 as [Hq2|Hq2].
  - replace (lo + 256 * hi + 32768) with (v + 32768) by lia.
    rewrite Z.mod_small by lia. lia.
  - replace (lo + 256 * hi + 32768) with (v + 32768 + 1 * 65536) by lia.
    rewrite Z.mod_add by lia. rewrite Z.mod_small by lia. lia.
Qed.

Lemma storable_facts r :
  storable r = true ->
  (String.length (abbrev r) < 6)%nat /\
  forallb (fun x => negb (x =? 0)) (chars_of (abbrev r)) = true /\
  0 <= week r < 256 /\ 0 <= dow r < 256 /\ 0 <= month r < 256 /\
  0 <= hour r < 256 /\ -32768 <= offset r < 32768.
Proof.
  unfold storable. cbn [forallb]. rewrite !andb_true_iff.
  rewrite Nat.leb_le, !Z.leb_le, !Z.ltb_lt. intros H. repeat split; try lia.
  apply H.
Qed.

Lemma rule_bytes_range r :
  storable r = true -> Forall (fun b => 0 <= b < 256) (rule_bytes r).
Proof.
  intros H. apply storable_facts in H.
  destruct H as (_ & _ & Hw & Hd & Hm & Hh & _).
  unfold rule_bytes. apply Forall_app. split.
  - apply pad_to_range, chars_of_range.
  - pose proof (Z.mod_pos_bound (offset r) 256 ltac:(lia)).
    pose proof (Z.mod_pos_bound (offset r / 256) 256 ltac:(lia)).
    repeat constructor; lia.
Qed.

Lemma rule_bytes_length r : List.length (rule_bytes r) = 12%nat.
Proof. unfold rule_bytes. rewrite length_app, pad_to_length. reflexivity. Qed.

Lemma rule_of_rule_bytes r : storable r = true -> rule_of_bytes (rule_bytes r) = r.
Proof.
  intros H. apply storable_facts in H.
  destruct H as (Hl & Hc & _ & _ & _ & _ & Ho).
  unfold rule_of_bytes, rule_bytes.
  pose proof (pad_to_length 6 (chars_of (abbrev r))) as L6.
  remember (pad_to 6 (chars_of (abbrev r))) as p eqn:Ep.
  rewrite firstn_app, L6. cbn [Nat.sub firstn]. rewrite app_nil_r.
  rewrite <- L6 at 1. rewrite firstn_all.
  rewrite !app_nth2 by lia. rewrite L6. cbn [Nat.sub nth].
  rewrite int16_bytes by exact Ho.
  rewrite Ep, cstring_pad by assumption.
  destruct r; reflexivity.
Qed.

Lemma get_put_n n bs (ee : gmap Z Z) a :
  List.length bs = n -> Forall (fun b => 0 <= b < 256) bs ->
  EEPROM_get (EEPROM_put ee a bs) a n = bs.
Proof. intros <- H. apply get_put. exact H. Qed.

(** The rules come back from the EEPROM as they were written. *)
Lemma readRules_writeRules tz (ee : gmap Z Z) a :
  storable (dst tz) = true -> storable (std tz) = true ->
  readRules (writeRules tz ee a) a = tz.
Proof.
  intros Hd Hs. unfold readRules, writeRules.
  pose proof (rule_bytes_length (dst tz)) as Ld.
  pose proof (rule_bytes_length (std tz)) as Ls.
  rewrite (get_put_outside 12 _ (a + 12) (rule_bytes (std tz)) a) by lia.
  rewrite (get_put_n 12 (rule_bytes (dst tz)) ee a Ld (rule_bytes_range _ Hd)).
  rewrite (get_put_n 12 (rule_bytes (std tz)) _ (a + 12) Ls (rule_bytes_range _ Hs)).
  rewrite !rule_of_rule_bytes by assumption.
  destruct tz; reflexivity.
Qed.

Lemma validSignature_iff st :
  validSignature st = true <->
  EEPROM_read (eeprom st) EEBASE = SIG1 /\ EEPROM_read (eeprom st) (EEBASE + 1) = SIG2.
Proof.
  unfold validSignature. cbv zeta.
  destruct (Z.eqb_spec (EEPROM_read (eeprom st) EEBASE) SIG1);
    destruct (Z.eqb_spec (EEPROM_read (eeprom st) (EEBASE + 1)) SIG2);
    cbn [andb]; split; intros H; try discriminate; try reflexivity; tauto.
Qed.

Lemma validSignature_save tz st : validSignature (save tz st) = true.
Proof.
  apply validSignature_iff. unfold save, writeSignature, writeRules. cbv zeta.
  cbn [eeprom set_eeprom].
  rewrite !read_put_outside by (unfold TZBASE, EEBASE; lia).
  rewrite !read_write.
  repeat match goal with |- context [decide ?P] => destruct (decide P) end;
    unfold EEBASE in *; try lia; split; reflexivity.
Qed.

End Eeprom.

(** C4: the stored configuration is valid exactly when the bytes at
    offsets 100 and 101 are 0x55 and 0xAA; with any other pair there is
    nothing to load; and after a save, the load gives back the rule pair
    that was saved (for rules that fit their twelve bytes each). *)
Theorem signature_gates_load (st : State) (tz : Timezone.RulePair) :
  TimezoneEE.storable (Timezone.dst tz) = true ->
  TimezoneEE.storable (Timezone.std tz) = true ->
  (validSignature st = true <->
     Arduino.EEPROM_read (eeprom st) 100 = 85 /\
     Arduino.EEPROM_read (eeprom st) 101 = 170) /\
  (~ (Arduino.EEPROM_read (eeprom st) 100 = 85 /\
      Arduino.EEPROM_read (eeprom st) 101 = 170) -> load st = None) /\
  load (save tz st) = Some tz.
Proof.
  intros Hd Hs. split; [apply validSignature_iff|]. split.
  - intros H. unfold load.
    destruct (validSignature st) eqn:V; [|reflexivity].
    apply validSignature_iff in V. contradiction.
  - unfold load. rewrite validSignature_save.
    unfold save. cbv zeta. cbn [eeprom set_eeprom].
    change (EEBASE + 2) with TZBASE.
    rewrite readRules_writeRules by assumption. reflexivity.
Qed.

(** The compiled-in rules, saved on a blank EEPROM. *)
Lemma signature_gates_load_witness :
  load (power_on 0) = None /\ load (save myTZ (power_on 0)) = Some myTZ.
Proof.
  destruct (signature_gates_load (power_on 0) myTZ) as (_ & N & R);
    [reflexivity | reflexivity |].
  split; [|exact R]. apply N. vm_compute. intros [H _]. discriminate.
Defined.

(* ================================================================== *)
(** * Readings that failed                                              *)
(* ================================================================== *)

(** C6: when the value that reaches the test of [mkTempStr] or of
    [mkHumidStr] is not a number (the DHT driver reports a failed reading
    so), the buffer holds the two characters "**": not "0.0", and no
    digits at all.  With the compiled-in selection of sensors that value is
    the DHT reading. *)
Theorem failed_reading_placeholder (env : Env) (s : Z) (st : State) :
  (Arduino.isnan (temp_value env s) = true ->
     bufTemp (mkTempStr env s st) = "**"%string) /\
  (Arduino.isnan (humid_value env s) = true ->
     bufHumid (mkHumidStr env s st) = "**"%string) /\
  (s = Z.lor USEDHTTEMP USEDHTHUM ->
     temp_value env s = dht_temperature env /\
     humid_value env s = dht_humidity env).
Proof.
  split; [|split].
  - intros H. cbn [mkTempStr bufTemp set_bufTemp]. unfold temp_string.
    rewrite H. reflexivity.
  - intros H. rewrite bufHumid_mkHumidStr. unfold humid_string.
    rewrite H. reflexivity.
  - intros ->. split; reflexivity.
Qed.

Lemma failed_reading_placeholder_witness :
  bufTemp (mkTempStr (mkEnv true S754_nan S754_nan 94 true S754_nan S754_nan)
                     (Z.lor USEDHTTEMP USEDHTHUM) (power_on 0)) = "**"%string /\
  bufHumid (mkHumidStr (mkEnv true S754_nan S754_nan 94 true S754_nan S754_nan)
                       (Z.lor USEDHTTEMP USEDHTHUM) (power_on 0)) = "**"%string.
Proof.
  destruct (failed_reading_placeholder
              (mkEnv true S754_nan S754_nan 94 true S754_nan S754_nan)
              (Z.lor USEDHTTEMP USEDHTHUM) (power_on 0)) as (A & B & _).
  split; [apply A | apply B]; reflexivity.
Defined.

(* ================================================================== *)
(** * When the log file does not open                                   *)
(* ================================================================== *)

Section Halt.

Lemma steps_halted turns : forall st led,
  steps turns (Halted st led) =
    Halted st (if Nat.even (List.length turns) then led else negb led).
Proof.
  induction turns as [|turn rest IH]; intros st led; [reflexivity|].
  cbn [steps step List.length]. rewrite IH.
  rewrite Nat.even_succ, <- Nat.negb_even.
  destruct (Nat.even (List.length rest)), led; reflexivity.
Qed.

Lemma refresh_halts env utc t st :
  due st utc = true -> doLog st <> 0 -> sd_opens env = false ->
  exists st', snd (refresh env utc t st) = Halts st' /\ lcd st' = lcd st.
Proof.
  intros Hd Hl Ho. unfold refresh. cbv zeta.
  rewrite (due_frame (mkTimeStr utc (mkDateStr utc st)) st utc) by reflexivity.
  rewrite Hd. rewrite (cycle_halts env (mkTimeStr utc (mkDateStr utc st)) Hl Ho).
  eexists. split; [reflexivity|].
  cbn [lcd Serial_print set_serial_out]. unfold sampled. cbv zeta.
  cbn [lcd mkTempStr set_bufTemp].
  pose proof (mkHumidStr_keeps env (sensor (set_first 0 (mkTimeStr utc (mkDateStr utc st))))
                (set_first 0 (mkTimeStr utc (mkDateStr utc st)))) as K.
  destruct K as (_ & _ & _ & _ & K & _). rewrite K. reflexivity.
Qed.

End Halt.

(** C9, the claim as stated fails: the log file does not open in the
    first turn; a minute later, with the card back, the device is still in
    [halt], nothing was ever written to the display, and the time buffer
    still holds the second of the failure. *)
Lemma display_stops_counterexample :
  exists st led,
    steps [(1, no_card); (1, fair_weather); (61, fair_weather)]
          (Running (power_on 1730613590)) = Halted st led /\
    lcd st = [] /\ bufTime st = "05:59:51"%string.
Proof. eexists. eexists. split; [vm_compute; reflexivity|]. split; reflexivity. Qed.

(* ================================================================== *)
(** * The shape of the date and time strings                            *)
(* ================================================================== *)

Section Shapes.

Import Arduino.

Lemma digits_loop_step k n acc :
  digits_loop (S k) n acc =
    if n / 10 =? 0 then String (digit (n mod 10)) acc
    else digits_loop k (n / 10) (String (digit (n mod 10)) acc).
Proof. reflexivity. Qed.

Lemma utoa_1 v : 0 <= v < 10 -> utoa v = String (digit v) EmptyString.
Proof.
  intros H. unfold utoa. rewrite digits_loop_step.
  rewrite Z.div_small by lia. cbn [Z.eqb]. rewrite Z.mod_small by lia. reflexivity.
Qed.

Lemma utoa_2 v :
  10 <= v < 100 ->
  utoa v = String (digit (v / 10)) (String (digit (v mod 10)) EmptyString).
Proof.
  intros H. unfold utoa. rewrite !digits_loop_step.
  destruct (Z.eqb_spec (v / 10) 0) as [E|E].
  { exfalso. pose proof (Z.div_mod v 10 ltac:(lia)).
    pose proof (Z.mod_pos_bound v 10 ltac:(lia)). lia. }
  assert (B : 0 <= v / 10 < 10).
  { split; [apply Z.div_pos; lia|apply Z.div_lt_upper_bound; lia]. }
  rewrite (Z.div_small (v / 10)) by lia. cbn [Z.eqb].
  rewrite (Z.mod_small (v / 10)) by lia. reflexivity.
Qed.

Lemma utoa_4 v :
  1000 <= v < 10000 ->
  String.length (utoa v) = 4%nat.
Proof.
  intros H. unfold utoa. rewrite !digits_loop_step.
  assert (B1 : 100 <= v / 10 < 1000).
  { split; [apply Z.div_le_lower_bound; lia|apply Z.div_lt_upper_bound; lia]. }
  assert (B2 : 10 <= v / 10 / 10 < 100).
  { split; [apply Z.div_le_lower_bound; lia|apply Z.div_lt_upper_bound; lia]. }
  assert (B3 : 1 <= v / 10 / 10 / 10 < 10).
  { split; [apply Z.div_le_lower_bound; lia|apply Z.div_lt_upper_bound; lia]. }
  destruct (Z.eqb_spec (v / 10) 0); [lia|].
  destruct (Z.eqb_spec (v / 10 / 10) 0); [lia|].
  destruct (Z.eqb_spec (v / 10 / 10 / 10) 0); [lia|].
  rewrite (Z.div_small (v / 10 / 10 / 10)) by lia. reflexivity.
Qed.

(** Two digits for 0..99, four for 1000..9999. *)
Lemma fmt_0d_2_length v : 0 <= v < 100 -> String.length (fmt_0d 2 v) = 2%nat.
Proof.
  intros H. unfold fmt_0d. destruct (Z.ltb_spec v 0); [lia|].
  destruct (Z.lt_ge_cases v 10).
  - rewrite utoa_1 by lia. reflexivity.
  - rewrite utoa_2 by lia. reflexivity.
Qed.

Lemma fmt_0d_4_length v : 1000 <= v < 10000 -> String.length (fmt_0d 4 v) = 4%nat.
Proof.
  intros H. unfold fmt_0d. destruct (Z.ltb_spec v 0); [lia|].
  pose proof (utoa_4 v H) as L.
  destruct (utoa v) as [|a [|b [|c [|d [|e r]]]]]; try discriminate L.
  reflexivity.
Qed.

Lemma length_append a b :
  String.length (a ++ b)%string = (String.length a + String.length b)%nat.
Proof.
  induction a as [|c a IH]; [reflexivity|].
  change (S (String.length (a ++ b)) = S (String.length a + String.length b)).
  rewrite IH. reflexivity.
Qed.

Lemma month_loop_range (leap : bool) (d : Z) :
  0 <= d < (if leap then 366 else 365) ->
  1 <= fst (month_loop 11 leap 1 d) <= 12 /\
  0 <= snd (month_loop 11 leap 1 d) < 31.
Proof.
  intros H. destruct leap; cbn -[Z.ltb Z.sub];
    repeat match goal with
           | |- context [?a <? ?b] => destruct (Z.ltb_spec a b)
           end;
    cbv beta iota delta [fst snd];
    repeat match goal with
           | |- context [monthDays ?l ?m] =>
               let v := eval vm_compute in (monthDays l m) in
               change (monthDays l m) with v in *
           | H : context [monthDays ?l ?m] |- _ =>
               let v := eval vm_compute in (monthDays l m) in
               change (monthDays l m) with v in *
           end; lia.
Qed.

Lemma year_loop_locate t :
  0 <= t < time_t_max ->
  exists n d, (n < 137)%nat /\
    year_loop 256 1970 (elapsedDays t) = (1970 + Z.of_nat n, d) /\
    0 <= d < year_days (1970 + Z.of_nat n).
Proof.
  intros Ht. destruct (year_locate t) as (n & Hn & Hy); [unfold time_t_max in *; lia|].
  rewrite !yearStart_eq in Hy. rewrite span_snoc in Hy.
  exists n, (elapsedDays t - span 1970 n).
  assert (Hd : span 1970 n <= elapsedDays t
               < span 1970 n + year_days (1970 + Z.of_nat n)).
  { unfold elapsedDays, SECS_PER_DAY. split.
    - apply Z.div_le_lower_bound; lia.
    - apply Z.div_lt_upper_bound; lia. }
  split; [exact Hn|]. split; [|lia].
  replace (elapsedDays t) with (span 1970 n + (elapsedDays t - span 1970 n)) at 1 by lia.
  apply year_loop_hit; lia.
Qed.

(** The fields of the calendar date of an instant a [time_t] holds. *)
Lemma date_fields t :
  0 <= t < time_t_max ->
  1970 <= year t <= 2106 /\ 1 <= month t <= 12 /\ 1 <= day t <= 31.
Proof.
  intros Ht. destruct (year_loop_locate t Ht) as (n & d & Hn & E & Hd).
  unfold year, month, day. rewrite E. cbn [fst].
  assert (Hd' : 0 <= d < (if LEAP_YEAR (1970 + Z.of_nat n) then 366 else 365)).
  { unfold year_days in Hd. destruct (LEAP_YEAR _); lia. }
  pose proof (month_loop_range (LEAP_YEAR (1970 + Z.of_nat n)) d Hd').
  lia.
Qed.

Lemma time_fields t :
  0 <= hour t < 24 /\ 0 <= minute t < 60 /\ 0 <= second t < 60.
Proof.
  unfold hour, minute, second.
  pose proof (Z.mod_pos_bound (t / 3600) 24 ltac:(lia)).
  pose proof (Z.mod_pos_bound (t / 60) 60 ltac:(lia)).
  pose proof (Z.mod_pos_bound t 60 ltac:(lia)). lia.
Qed.

(** YYYY-MM-DD and HH:MM:SS: ten and eight characters, with the fields
    at their places. *)
Lemma date_string_shape t :
  0 <= t < time_t_max ->
  String.length (fmt_0d 4 (year t)) = 4%nat /\
  String.length (fmt_0d 2 (month t)) = 2%nat /\
  String.length (fmt_0d 2 (day t)) = 2%nat /\
  String.length (date_string t) = 10%nat.
Proof.
  intros Ht. destruct (date_fields t Ht) as (Hy & Hm & Hd).
  pose proof (fmt_0d_4_length (year t) ltac:(lia)) as L1.
  pose proof (fmt_0d_2_length (month t) ltac:(lia)) as L2.
  pose proof (fmt_0d_2_length (day t) ltac:(lia)) as L3.
  repeat split; try assumption.
  unfold date_string. rewrite !length_append, L1, L2, L3. reflexivity.
Qed.

Lemma time_string_shape t :
  String.length (fmt_0d 2 (hour t)) = 2%nat /\
  String.length (fmt_0d 2 (minute t)) = 2%nat /\
  String.length (fmt_0d 2 (second t)) = 2%nat /\
  String.length (time_string t) = 8%nat.
Proof.
  destruct (time_fields t) as (Hh & Hm & Hs).
  pose proof (fmt_0d_2_length (hour t) ltac:(lia)) as L1.
  pose proof (fmt_0d_2_length (minute t) ltac:(lia)) as L2.
  pose proof (fmt_0d_2_length (second t) ltac:(lia)) as L3.
  repeat split; try assumption.
  unfold time_string. rewrite !length_append, L1, L2, L3. reflexivity.
Qed.

End Shapes.

(* ================================================================== *)
(** * The log file                                                      *)
(* ================================================================== *)

Section Log.

Lemma setClock_keeps_sensor st : sensor (final (setClock st)) = sensor st.
Proof.
  destruct (Nat.eq_dec (String.length (serial_in st)) 0) as [E|E].
  - rewrite (setClock_waits st E). reflexivity.
  - destruct (Nat.lt_ge_cases (String.length (serial_in st)) 12) as [L|L].
    + rewrite (setClock_short st) by lia. reflexivity.
    + destruct (rejected (year_field (serial_in st))) eqn:R.
      * rewrite (setClock_rejects st L R). reflexivity.
      * rewrite (setClock_accepts st L R). reflexivity.
Qed.

Lemma poll_keeps env st st1 :
  poll env st = Returns st1 ->
  sd_file st1 = sd_file st /\ sensor st1 = sensor st /\ doLog st1 = doLog st.
Proof.
  unfold poll. cbv zeta. cbn [serial_in set_zone].
  destruct (negb _).
  - intros E.
    pose proof (setClock_statics (set_zone (adjustMode env) st)) as (_ & _ & D & F & _).
    pose proof (setClock_keeps_sensor (set_zone (adjustMode env) st)) as S.
    rewrite E in D, F, S. cbn [final] in D, F, S. repeat split; assumption.
  - intros E. injection E as <-. repeat split.
Qed.

Lemma log_record_sampled env utc st :
  log_record (sampled env (mkTimeStr utc (mkDateStr utc st))) =
  log_line env (sensor st) utc.
Proof.
  unfold log_record, log_line, sampled. cbv zeta.
  cbn [bufDate bufTime bufTemp bufHumid mkTempStr set_bufTemp].
  rewrite bufDate_mkHumidStr, bufTime_mkHumidStr, bufHumid_mkHumidStr,
          sensor_mkHumidStr.
  reflexivity.
Qed.

Lemma sd_file_sampled env st : sd_file (sampled env st) = sd_file st.
Proof.
  unfold sampled. cbv zeta. cbn [sd_file mkTempStr set_bufTemp].
  rewrite sd_file_mkHumidStr. reflexivity.
Qed.

Lemma sd_file_shown t st :
  sd_file
    (set_tLast t
       (displayHumid
          (displayTemp
             (displayTime
                (displayDate
                   (if zone st =? SHOWLOC then mkTimeStr t (mkDateStr t st) else st))))))
  = sd_file st.
Proof. destruct (zone st =? SHOWLOC); reflexivity. Qed.

(** A turn in which the time has changed appends nothing, or one line. *)
Lemma refresh_sd_file env utc t st :
  sd_file (final (snd (refresh env utc t st))) = sd_file st \/
  sd_file (final (snd (refresh env utc t st))) =
    (sd_file st ++ log_line env (sensor st) utc)%string.
Proof.
  unfold refresh. cbv zeta.
  set (X := mkTimeStr utc (mkDateStr utc st)).
  destruct (due X utc).
  - destruct (Z.eq_dec (doLog X) 0) as [E|E].
    + left. rewrite (cycle_nolog env X E). cbn [snd final].
      rewrite sd_file_shown. cbn [sd_file consoleUpdate consoleDate consoleTime
        consoleTemp consoleHumid Serial_print set_serial_out].
      transitivity (sd_file X); [apply sd_file_sampled|reflexivity].
    + destruct (sd_opens env) eqn:O.
      * right. rewrite (cycle_logged env X E O). cbn [snd final].
        rewrite sd_file_shown. cbn [sd_file consoleUpdate consoleDate consoleTime
          consoleTemp consoleHumid Serial_print set_serial_out set_sd_file].
        unfold X. rewrite log_record_sampled. reflexivity.
      * left. rewrite (cycle_halts env X E O). cbn [snd final].
        cbn [sd_file Serial_print set_serial_out].
        transitivity (sd_file X); [apply sd_file_sampled|reflexivity].
  - left. cbn [snd final]. rewrite sd_file_shown. reflexivity.
Qed.

End Log.

(** C7: a turn of the loop leaves the log file as it is or appends one
    record to it, and that record is DATE "T" TIME "Z" "," TEMP "," HUMID
    and the line end, where DATE and TIME are the date and time strings of
    the UTC second read in that turn (not of the local time); for an
    instant a [time_t] holds, DATE has the ten characters of YYYY-MM-DD
    and TIME the eight of HH:MM:SS. *)
Theorem log_record_form (env : Env) (st : State) :
  exists st1,
    poll env st = Returns st1 /\
    (sd_file (final (snd (loop env st))) = sd_file st \/
     sd_file (final (snd (loop env st))) =
       (sd_file st
        ++ (date_string (now st1) ++ "T" ++ time_string (now st1) ++ "Z" ++ ","
            ++ temp_string (temp_value env (sensor st)) ++ ","
            ++ humid_string (humid_value env (sensor st)) ++ Arduino.endl))%string) /\
    (0 <= now st1 < time_t_max ->
     String.length (date_string (now st1)) = 10%nat /\
     String.length (time_string (now st1)) = 8%nat).
Proof.
  destruct (poll_returns env st) as (st1 & Ep & _ & _).
  destruct (poll_keeps env st st1 Ep) as (Kf & Ks & _).
  exists st1. split; [exact Ep|]. split.
  - unfold loop. rewrite Ep. cbv zeta.
    destruct (negb _).
    + match goal with |- context [refresh env ?u ?t ?X] =>
        destruct (refresh_sd_file env u t X) as [R|R] end.
      * left. rewrite R. exact Kf.
      * right. rewrite R. cbn [sd_file sensor Serial_print set_serial_out].
        rewrite Kf, Ks. reflexivity.
    + left. cbn [snd final sd_file Serial_print set_serial_out]. exact Kf.
  - intros Hr. split; [apply date_string_shape; exact Hr|apply time_string_shape].
Qed.

(** The record of the first turn after power-on at 2024-11-03T05:59:50Z,
    an hour before local time would read the same. *)
Lemma log_record_form_witness :
  sd_file (final (snd (loop fair_weather (power_on 1730613590)))) =
    ("2024-11-03T05:59:50Z,23.50,45.2" ++ Arduino.endl)%string /\
  String.length (date_string 1730613590) = 10%nat /\
  String.length (time_string 1730613590) = 8%nat.
Proof.
  destruct (log_record_form fair_weather (power_on 1730613590)) as (st1 & Ep & _ & S).
  assert (E : st1 = set_zone (adjustMode fair_weather) (power_on 1730613590)).
  { vm_compute in Ep. injection Ep as <-. vm_compute. reflexivity. }
  subst st1. split; [vm_compute; reflexivity|].
  apply S. vm_compute. split; [discriminate|reflexivity].
Defined.

(* ================================================================== *)
(** * Single precision: shifting, rounding, and the two products        *)
(* ================================================================== *)

Section Rounding.

Import Arduino.

Lemma iter_pos_nat {A} (f : A -> A) p : forall x,
  iter_pos f p x = Nat.iter (Pos.to_nat p) f x.
Proof.
  induction p as [p IH|p IH|]; intros x; cbn [iter_pos].
  - rewrite !IH. rewrite Pos2Nat.inj_xI.
    replace (S (2 * Pos.to_nat p))%nat with (Pos.to_nat p + (Pos.to_nat p + 1))%nat by lia.
    rewrite !Nat.iter_add. reflexivity.
  - rewrite !IH. rewrite Pos2Nat.inj_xO.
    replace (2 * Pos.to_nat p)%nat with (Pos.to_nat p + Pos.to_nat p)%nat by lia.
    rewrite Nat.iter_add. reflexivity.
  - reflexivity.
Qed.

Lemma shr_1_nonneg m r s :
  0 <= m ->
  shr_1 (Build_shr_record m r s) = Build_shr_record (m / 2) (Z.odd m) (r || s).
Proof.
  intros H. destruct m as [|p|p]; [reflexivity| |lia].
  destruct p as [p|p|]; cbn [shr_1 Z.odd].
  - replace (Z.pos p~1 / 2) with (Z.pos p); [reflexivity|].
    apply (Z.div_unique _ 2 _ 1); lia.
  - replace (Z.pos p~0 / 2) with (Z.pos p); [reflexivity|].
    apply (Z.div_unique _ 2 _ 0); lia.
  - reflexivity.
Qed.

Lemma shr_iter n : forall M,
  0 <= M ->
  let mrs := Nat.iter n shr_1 (Build_shr_record M false false) in
  shr_m mrs = M / 2 ^ Z.of_nat n /\
  (shr_r mrs = true <-> 2 ^ Z.of_nat n <= 2 * (M mod 2 ^ Z.of_nat n)) /\
  (shr_s mrs = true <-> (2 * (M mod 2 ^ Z.of_nat n)) mod 2 ^ Z.of_nat n <> 0).
Proof.
  induction n as [|n IH]; intros M HM mrs.
  - subst mrs. cbn [Nat.iter nat_rect shr_m shr_r shr_s Z.of_nat].
    rewrite Z.pow_0_r, Z.div_1_r, !Z.mod_1_r. 
    repeat split; intros; try discriminate; try lia.
  - specialize (IH M HM). cbv zeta in IH. destruct IH as (Im & Ir & Is).
    subst mrs. rewrite Nat.iter_succ.
    destruct (Nat.iter n shr_1 (Build_shr_record M false false)) as [m r s].
    cbn [shr_m shr_r shr_s] in *.
    assert (Hm : 0 <= m) by (subst m; apply Z.div_pos; [lia|apply Z.pow_pos_nonneg; lia]).
    rewrite (shr_1_nonneg m r s Hm). cbn [shr_m shr_r shr_s].
    rewrite Nat2Z.inj_succ, Z.pow_succ_r by lia.
    set (P := 2 ^ Z.of_nat n) in *.
    assert (HP : 0 < P) by (apply Z.pow_pos_nonneg; lia).
    pose proof (Z.div_mod M P ltac:(lia)) as E1.
    pose proof (Z.mod_pos_bound M P HP) as B1.
    pose proof (Z.div_mod M (2 * P) ltac:(lia)) as E2.
    pose proof (Z.mod_pos_bound M (2 * P) ltac:(lia)) as B2.
    pose proof (Z.div_mod m 2 ltac:(lia)) as E3.
    pose proof (Z.mod_pos_bound m 2 ltac:(lia)) as B3.
    rewrite <- Im in E1.
    pose proof (Zodd_mod m) as Ho.
    set (a := M mod P) in *. set (b := M mod (2 * P)) in *.
    set (q := M / (2 * P)) in *. set (h := m / 2) in *. set (o := m mod 2) in *.
    assert (Hq : q = h /\ b = a + o * P).
    { apply (Z.div_mod_unique (2 * P)); [left; lia | left; nia |].
      rewrite <- E2, E1, E3. ring. }
    destruct Hq as [Hq Hb]. fold o in Ho.
    assert (H2b : (2 * b) mod (2 * P) = 2 * a).
    { rewrite Hb. replace (2 * (a + o * P)) with (2 * a + o * (2 * P)) by ring.
      rewrite Z.mod_add by lia. apply Z.mod_small. lia. }
    split; [lia|]. split.
    + rewrite Ho, Z.eqb_eq. split; intros; nia.
    + rewrite H2b, orb_true_iff, Ir, Is. split.
      * intros [H|H]; [lia|]. intros Ha. apply H.
        replace a with 0 by lia. apply Z.mod_0_l. lia.
      * intros Ha. destruct (Z.le_gt_cases P (2 * a)); [left; assumption|right].
        rewrite Z.mod_small by lia. lia.
Qed.


Lemma digits2_pos_bounds p :
  2 ^ (Zpos (digits2_pos p) - 1) <= Zpos p < 2 ^ Zpos (digits2_pos p).
Proof.
  induction p as [p IH|p IH|]; cbn [digits2_pos].
  - rewrite Pos2Z.inj_succ, (Pos2Z.inj_xI p).
    replace (Z.succ (Zpos (digits2_pos p)) - 1) with (Z.succ (Zpos (digits2_pos p) - 1)) by lia.
    rewrite !Z.pow_succ_r by lia.
    set (A := 2 ^ (Zpos (digits2_pos p) - 1)) in *.
    set (B := 2 ^ Zpos (digits2_pos p)) in *. clearbody A B. lia.
  - rewrite Pos2Z.inj_succ, (Pos2Z.inj_xO p).
    replace (Z.succ (Zpos (digits2_pos p)) - 1) with (Z.succ (Zpos (digits2_pos p) - 1)) by lia.
    rewrite !Z.pow_succ_r by lia.
    set (A := 2 ^ (Zpos (digits2_pos p) - 1)) in *.
    set (B := 2 ^ Zpos (digits2_pos p)) in *. clearbody A B. lia.
  - split; [vm_compute; discriminate|reflexivity].
Qed.

Lemma fexp_eq e : fexp prec emax e = Z.max (e - 24) (-149).
Proof. reflexivity. Qed.

(** Rounding to nearest, ties to even, as the record of shifts encodes it. *)
Lemma round_shr p M :
  0 <= M ->
  round_nearest_even
    (shr_m (iter_pos shr_1 p (Build_shr_record M false false)))
    (loc_of_shr_record (iter_pos shr_1 p (Build_shr_record M false false)))
  = rne M (Zpos p).
Proof.
  intros HM. rewrite iter_pos_nat.
  pose proof (shr_iter (Pos.to_nat p) M HM) as H. cbv zeta in H.
  rewrite positive_nat_Z in H.
  destruct (Nat.iter _ _ _) as [m r s]. cbn [shr_m shr_r shr_s] in H.
  destruct H as (Hm & Hr & Hs). unfold rne.
  set (P := 2 ^ Zpos p) in *.
  assert (HP : 0 < P) by (apply Z.pow_pos_nonneg; lia).
  pose proof (Z.mod_pos_bound M P HP) as B.
  set (a := M mod P) in *. rewrite <- Hm.
  cbn [shr_m loc_of_shr_record].
  destruct r, s; cbn [round_nearest_even].
  - assert (P <= 2 * a) by (apply Hr; reflexivity).
    assert ((2 * a) mod P <> 0) by (apply Hs; reflexivity).
    destruct (Z.ltb_spec (2 * a) P); [lia|].
    destruct (Z.ltb_spec P (2 * a)); [reflexivity|].
    exfalso. replace (2 * a) with P in * by lia.
    rewrite Z.mod_same in * by lia. lia.
  - assert (P <= 2 * a) by (apply Hr; reflexivity).
    assert (~ (2 * a) mod P <> 0) by (intros X; apply Hs in X; discriminate).
    destruct (Z.ltb_spec (2 * a) P); [lia|].
    destruct (Z.ltb_spec P (2 * a)); [|reflexivity].
    exfalso. assert (E : (2 * a) mod P = 2 * a - P).
    { replace (2 * a) with ((2 * a - P) + 1 * P) at 1 by ring.
      rewrite Z.mod_add by lia. apply Z.mod_small. lia. }
    lia.
  - assert (~ P <= 2 * a) by (intros X; apply Hr in X; discriminate).
    destruct (Z.ltb_spec (2 * a) P); [reflexivity|lia].
  - assert (~ P <= 2 * a) by (intros X; apply Hr in X; discriminate).
    destruct (Z.ltb_spec (2 * a) P); [reflexivity|lia].
Qed.

Lemma shr_fexp_exact m e :
  shr_fexp prec emax m e loc_Exact =
    let n := Z.max (Zdigits2 m + e - 24) (-149) - e in
    if 0 <? n
    then (iter_pos shr_1 (Z.to_pos n) (Build_shr_record m false false), e + n)
    else (Build_shr_record m false false, e).
Proof.
  unfold shr_fexp, shr. rewrite fexp_eq. cbv zeta. cbn [shr_record_of_loc].
  destruct (Z.max (Zdigits2 m + e - 24) (-149) - e) as [|p|p]; reflexivity.
Qed.

Lemma rne_bounds M n :
  0 <= M -> 0 < n -> M / 2 ^ n <= rne M n <= M / 2 ^ n + 1.
Proof.
  intros HM Hn. unfold rne. cbv zeta.
  destruct (2 * (M mod 2 ^ n) <? 2 ^ n); [lia|].
  destruct (2 ^ n <? 2 * (M mod 2 ^ n)); [lia|].
  destruct (Z.even (M / 2 ^ n)); lia.
Qed.

Lemma bra_pos (M : positive) E :
  let d := Zpos (digits2_pos M) in
  let g := Z.max (d + E - 24) (-149) in
  let n := g - E in
  0 < n -> g <= 103 ->
  nonneg_finite (binary_round_aux prec emax false (Zpos M) E loc_Exact) = true /\
  scaled (binary_round_aux prec emax false (Zpos M) E loc_Exact)
    = rne (Zpos M) n * 2 ^ (g + 149).
Proof.
  intros d g n Hn Hg.
  unfold binary_round_aux. rewrite shr_fexp_exact. cbv zeta.
  cbn [Zdigits2]. fold d. fold g. fold n.
  destruct (Z.ltb_spec 0 n) as [_|]; [|lia].
  replace (E + n) with g by (unfold n; lia).
  assert (Hp : Zpos (Z.to_pos n) = n) by (apply Z2Pos.id; lia).
  pose proof (round_shr (Z.to_pos n) (Zpos M) ltac:(lia)) as R.
  rewrite Hp in R. rewrite R. clear R.
  pose proof (rne_bounds (Zpos M) n ltac:(lia) Hn) as B.
  pose proof (digits2_pos_bounds M) as DB. fold d in DB.
  assert (Hq : Zpos M / 2 ^ n < 2 ^ 24).
  { apply Z.div_lt_upper_bound; [apply Z.pow_pos_nonneg; lia|].
    rewrite <- Z.pow_add_r by lia.
    apply Z.lt_le_trans with (2 ^ d); [lia|].
    apply Z.pow_le_mono_r; unfold n, g; lia. }
  assert (Hq0 : 0 <= Zpos M / 2 ^ n) by (apply Z.div_pos; [lia|apply Z.pow_pos_nonneg; lia]).
  set (m1 := rne (Zpos M) n) in *. clearbody m1.
  rewrite shr_fexp_exact. cbv zeta.
  assert (Hg0 : -149 <= g) by (unfold g; lia).
  destruct m1 as [|m|m]; [| |lia].
  - cbn [Zdigits2].
    destruct (Z.ltb_spec 0 (Z.max (0 + g - 24) (-149) - g)); [lia|].
    cbn [shr_m nonneg_finite scaled]. split; [reflexivity|lia].
  - cbn [Zdigits2]. pose proof (digits2_pos_bounds m) as D1.
    set (d1 := Zpos (digits2_pos m)) in *.
    assert (Hd1 : d1 <= 25).
    { destruct (Z.le_gt_cases d1 25) as [|G]; [assumption|exfalso].
      assert (2 ^ 25 <= 2 ^ (d1 - 1)) by (apply Z.pow_le_mono_r; lia).
      assert (2 ^ 24 < 2 ^ 25) by (apply Z.pow_lt_mono_r; lia). lia. }
    destruct (Z.ltb_spec 0 (Z.max (d1 + g - 24) (-149) - g)) as [L|L].
    + assert (Hd25 : d1 = 25) by lia.
      assert (Hm : Zpos m = 2 ^ 24).
      { rewrite Hd25 in D1. change (25 - 1) with 24 in D1. lia. }
      replace (Z.max (d1 + g - 24) (-149) - g) with 1 by lia.
      change (Z.to_pos 1) with 1%positive. cbn [iter_pos].
      rewrite shr_1_nonneg by lia. cbn [shr_m]. rewrite Hm.
      change (2 ^ 24 / 2) with (Zpos 8388608).
      cbv iota beta.
      destruct (Z.leb_spec (g + 1) (emax - prec)) as [_|X]; [|unfold emax, prec in X; lia].
      cbn [nonneg_finite scaled]. split; [apply Z.leb_le; lia|].
      replace (g + 1 + 149) with (Z.succ (g + 149)) by lia.
      rewrite Z.pow_succ_r by lia. change (2 ^ 24) with (8388608 * 2). ring.
    + cbn [shr_m].
      destruct (Z.leb_spec g (emax - prec)) as [_|X]; [|unfold emax, prec in X; lia].
      cbn [nonneg_finite scaled]. split; [apply Z.leb_le; lia|ring].
Qed.


(** No shift is needed: the result is the number itself. *)
Lemma bra_exact (M : positive) E :
  Z.max (Zpos (digits2_pos M) + E - 24) (-149) - E <= 0 -> E <= 104 ->
  binary_round_aux prec emax false (Zpos M) E loc_Exact = S754_finite false M E.
Proof.
  intros Hn HE. unfold binary_round_aux. rewrite shr_fexp_exact. cbv zeta.
  cbn [Zdigits2].
  destruct (Z.ltb_spec 0 (Z.max (Zpos (digits2_pos M) + E - 24) (-149) - E)); [lia|].
  cbn [shr_m loc_of_shr_record round_nearest_even].
  rewrite shr_fexp_exact. cbv zeta. cbn [Zdigits2].
  destruct (Z.ltb_spec 0 (Z.max (Zpos (digits2_pos M) + E - 24) (-149) - E)); [lia|].
  cbn [shr_m].
  destruct (Z.leb_spec E (emax - prec)) as [_|X]; [reflexivity|unfold emax, prec in X; lia].
Qed.

Lemma iter_xO m d :
  Zpos (Pos.iter xO m d) = Zpos m * 2 ^ Zpos d /\
  digits2_pos (Pos.iter xO m d) = (digits2_pos m + d)%positive.
Proof.
  induction d as [|d IH] using Pos.peano_ind.
  - cbn [Pos.iter digits2_pos]. split; [rewrite Pos2Z.inj_xO; change (2 ^ 1) with 2; lia|lia].
  - rewrite Pos.iter_succ. destruct IH as [I1 I2]. cbn [digits2_pos].
    rewrite (Pos2Z.inj_xO (Pos.iter xO m d)), I1, I2, Pos2Z.inj_succ, Z.pow_succ_r by lia.
    split; [ring|lia].
Qed.

Lemma digits_unique p k :
  2 ^ (k - 1) <= Zpos p < 2 ^ k -> Zpos (digits2_pos p) = k.
Proof.
  intros H. pose proof (digits2_pos_bounds p) as B.
  set (d := Zpos (digits2_pos p)) in *.
  assert (0 < d) by (unfold d; lia).
  assert (0 < k).
  { destruct (Z.lt_ge_cases 0 k); [assumption|exfalso].
    assert (2 ^ k <= 2 ^ 0) by (apply Z.pow_le_mono_r; lia).
    change (2 ^ 0) with 1 in *. lia. }
  destruct (Z.lt_trichotomy d k) as [L|[E|G]]; [exfalso|assumption|exfalso].
  - assert (2 ^ d <= 2 ^ (k - 1)) by (apply Z.pow_le_mono_r; lia). lia.
  - assert (2 ^ k <= 2 ^ (d - 1)) by (apply Z.pow_le_mono_r; lia). lia.
Qed.

(** A number of at most 24 digits, in the normal range, is normalised
    without rounding. *)
Lemma binary_round_norm (m : positive) e :
  let d := Zpos (digits2_pos m) in
  d <= 24 -> -149 <= d + e - 24 <= 104 ->
  exists mz,
    binary_round prec emax false m e = S754_finite false mz (d + e - 24) /\
    Zpos mz = Zpos m * 2 ^ (24 - d) /\
    Zpos (digits2_pos mz) = 24.
Proof.
  intros d Hd He. unfold binary_round. rewrite fexp_eq. fold d.
  rewrite Z.max_l by lia. unfold shl_align.
  replace (d + e - 24 - e) with (d - 24) by lia.
  destruct (d - 24) as [|p|p] eqn:Ed; [| lia |].
  - exists m. assert (d = 24) by lia.
    replace (d + e - 24) with e by lia.
    split; [|split].
    + apply bra_exact; fold d; lia.
    + replace (24 - d) with 0 by lia. change (2 ^ 0) with 1. lia.
    + fold d. lia.
  - exists (Pos.iter xO m p). destruct (iter_xO m p) as [I1 I2].
    assert (Hp : Zpos p = 24 - d) by lia.
    assert (Hdz : Zpos (digits2_pos (Pos.iter xO m p)) = 24).
    { rewrite I2, Pos2Z.inj_add. fold d. lia. }
    split; [|split].
    + apply bra_exact; rewrite ?Hdz; lia.
    + rewrite I1, Hp. reflexivity.
    + exact Hdz.
Qed.


Lemma valid_finite s m e :
  valid_binary prec emax (S754_finite s m e) = true -> canonical m e /\ e <= 104.
Proof.
  unfold valid_binary, bounded, canonical_mantissa, canonical.
  rewrite fexp_eq, andb_true_iff, Z.eqb_eq, Z.leb_le. unfold emax, prec. lia.
Qed.

Lemma int_of_float_scaled x :
  nonneg_finite x = true -> int_of_float x = scaled x / 2 ^ 149.
Proof.
  destruct x as [s|s| |s m e]; try discriminate.
  - intros _. reflexivity.
  - destruct s; [discriminate|]. cbn [nonneg_finite int_of_float scaled].
    intros H. apply Z.leb_le in H.
    rewrite Z.mul_1_l.
    destruct (Z.leb_spec 0 e).
    + rewrite Z.pow_add_r by lia. rewrite Z.mul_assoc.
      rewrite Z.div_mul by (apply Z.pow_nonzero; lia). reflexivity.
    + assert (E : 2 ^ 149 = 2 ^ (e + 149) * 2 ^ (- e)).
      { rewrite <- Z.pow_add_r by lia. f_equal. lia. }
      rewrite E, (Z.mul_comm (Zpos m)).
      rewrite Z.div_mul_cancel_l; [reflexivity|apply Z.pow_nonzero; lia|apply Z.pow_nonzero; lia].
Qed.


Lemma pow2_lt_inv a b : 0 <= b -> 2 ^ a < 2 ^ b -> a < b.
Proof. intros Hb H. apply (Z.pow_lt_mono_r_iff 2); [lia|assumption|assumption]. Qed.

Lemma pow2_pos a : 0 < 2 ^ a \/ 2 ^ a = 0.
Proof.
  destruct (Z.le_gt_cases 0 a); [left; apply Z.pow_pos_nonneg; lia|right].
  apply Z.pow_neg_r. lia.
Qed.

(** The arithmetic behind the bounds of a rounded product. *)
Lemma round_top (C T2 N q a M mcz D : Z) :
  0 < N <= 2 ^ 24 -> 2 ^ 23 < mcz ->
  M = N * q + a -> 0 <= a < N ->
  M <= mcz * D - mcz -> C * T2 * N = mcz * D ->
  (2 * a < N -> q < C * T2) /\ (N <= 2 * a -> q < C * T2 - 1).
Proof.
  intros HN Hm EM Ba HM HT. change (2 ^ 24) with 16777216 in HN.
  change (2 ^ 23) with 8388608 in Hm. split; intros Ha.
  - apply (Z.mul_lt_mono_pos_l N); lia.
  - apply (Z.mul_lt_mono_pos_l N); lia.
Qed.

Lemma round_near (C K U G T2 N M q a w rw m1 : Z) :
  0 < N -> 0 < T2 -> 0 < G -> U = G * T2 ->
  M * G = C * K * N ->
  M = N * q + a -> 0 <= a < N ->
  C * K = U * w + rw -> 0 <= rw < U ->
  q <= m1 <= q + 1 ->
  w <= m1 / T2 <= w + 1.
Proof.
  intros HN HT HG HU HMG EM Ba Ew Bw Bm.
  assert (L1 : w * T2 <= q).
  { assert (X : N * (w * T2) <= M).
    { apply (Z.mul_le_mono_pos_r _ _ G); [lia|].
      rewrite HMG.
      replace (N * (w * T2) * G) with (U * w * N) by (rewrite HU; ring).
      apply Z.mul_le_mono_nonneg_r; lia. }
    assert (Y : N * (w * T2) < N * (q + 1)) by lia.
    apply Z.mul_lt_mono_pos_l in Y; lia. }
  assert (L2 : q * G <= C * K).
  { apply (Z.mul_le_mono_pos_r _ _ N); [lia|].
    rewrite <- HMG. replace (q * G * N) with (N * q * G) by ring.
    apply Z.mul_le_mono_nonneg_r; lia. }
  split.
  - apply Z.div_le_lower_bound; [lia|]. rewrite Z.mul_comm. lia.
  - assert (m1 / T2 < w + 2); [|lia].
    apply Z.div_lt_upper_bound; [lia|].
    apply (Z.mul_lt_mono_pos_r G); [lia|].
    assert (m1 * G <= q * G + G) by (replace (q * G + G) with ((q + 1) * G) by ring;
                                      apply Z.mul_le_mono_nonneg_r; lia).
    assert (G <= U) by (rewrite HU; nia).
    replace (T2 * (w + 2) * G) with (U * w + 2 * U) by (rewrite HU; ring).
    lia.
Qed.

Lemma scale_spec (C : Z) (mc mx : positive) (ec ex : Z) :
  0 < C -> -24 <= ec < 0 -> Zpos mc = C * 2 ^ (- ec) ->
  2 ^ 23 < Zpos mc < 2 ^ 24 ->
  canonical mx ex -> Zpos mx * 2 ^ (ex + 149) < 2 ^ 149 ->
  let K := Zpos mx * 2 ^ (ex + 149) in
  let f := int_of_float (fmul (S754_finite false mc ec) (S754_finite false mx ex)) in
  (C * K) / 2 ^ 149 <= f <= (C * K) / 2 ^ 149 + 1 /\ f <= C - 1.
Proof.
  intros HC Hec Hmc Bmc Hcan HK K f.
  unfold canonical in Hcan.
  pose proof (digits2_pos_bounds mx) as Bx.
  set (dx := Zpos (digits2_pos mx)) in *.
  assert (Hex : -149 <= ex < 0).
  { split; [lia|]. destruct (Z.lt_ge_cases ex 0); [assumption|exfalso].
    assert (2 ^ 149 <= 2 ^ (ex + 149)) by (apply Z.pow_le_mono_r; lia).
    assert (0 < 2 ^ 149) by (apply Z.pow_pos_nonneg; lia). nia. }
  assert (HU : 2 ^ 149 = 2 ^ (- ex) * 2 ^ (ex + 149)).
  { rewrite <- Z.pow_add_r by lia. f_equal. lia. }
  assert (HB : 0 < 2 ^ (ex + 149)) by (apply Z.pow_pos_nonneg; lia).
  assert (HD : 0 < 2 ^ (- ex)) by (apply Z.pow_pos_nonneg; lia).
  assert (Hmx : Zpos mx < 2 ^ (- ex)) by nia.
  assert (Hdx : dx + ex <= 0).
  { assert (2 ^ (dx - 1) < 2 ^ (- ex)) by lia.
    apply pow2_lt_inv in H; lia. }
  assert (Hdx24 : dx <= 24) by lia.
  pose proof (digits2_pos_bounds (mc * mx)) as BM.
  set (d := Zpos (digits2_pos (mc * mx))) in *.
  rewrite Pos2Z.inj_mul in BM.
  assert (Hd : dx + 23 <= d <= dx + 24).
  { assert (P1 : 2 ^ 24 * 2 ^ dx = 2 ^ (dx + 24)).
    { rewrite <- Z.pow_add_r by (unfold dx; lia). f_equal. lia. }
    assert (P2 : 2 ^ 23 * 2 ^ (dx - 1) = 2 ^ (dx + 22)).
    { rewrite <- Z.pow_add_r by (unfold dx; lia). f_equal. lia. }
    assert (0 < 2 ^ (dx - 1)) by (apply Z.pow_pos_nonneg; unfold dx; lia).
    assert (L1 : 2 ^ (d - 1) < 2 ^ (dx + 24)) by nia.
    assert (L2 : 2 ^ (dx + 22) < 2 ^ d) by nia.
    apply pow2_lt_inv in L1; [|unfold dx; lia].
    apply pow2_lt_inv in L2; [|unfold d; lia]. lia. }
  set (E := ec + ex) in *.
  set (g := Z.max (d + E - 24) (-149)).
  set (n := g - E).
  assert (Hn : 0 < n <= 24) by (unfold n, g, E in *; lia).
  assert (Hg : -149 <= g <= ec) by (unfold g, E in *; lia).
  destruct (bra_pos (mc * mx) E) as [NF SR]; [fold d; fold g; fold n; lia|fold d; fold g; lia|].
  fold d in SR. fold g in SR. fold n in SR.
  subst f. unfold fmul, SFmul. cbn [xorb]. fold E.
  rewrite (int_of_float_scaled _ NF), SR.
  rewrite Pos2Z.inj_mul.
  set (M := Zpos mc * Zpos mx) in *.
  pose proof (rne_bounds M n ltac:(unfold M; lia) ltac:(lia)) as Bm1.
  assert (HG : 0 < 2 ^ (g + 149)) by (apply Z.pow_pos_nonneg; lia).
  assert (HT : 0 < 2 ^ (- g)) by (apply Z.pow_pos_nonneg; lia).
  assert (HN : 0 < 2 ^ n) by (apply Z.pow_pos_nonneg; lia).
  assert (HUG : 2 ^ 149 = 2 ^ (g + 149) * 2 ^ (- g)).
  { rewrite <- Z.pow_add_r by lia. f_equal. lia. }
  assert (HMG : M * 2 ^ (g + 149) = C * K * 2 ^ n).
  { unfold M, K. rewrite Hmc.
    assert (X : 2 ^ (- ec) * 2 ^ (g + 149) = 2 ^ (ex + 149) * 2 ^ n).
    { rewrite <- !Z.pow_add_r by lia. f_equal. unfold n, E. lia. }
    nia. }
  assert (HTT : C * 2 ^ (- g) * 2 ^ n = Zpos mc * 2 ^ (- ex)).
  { rewrite Hmc.
    assert (X : 2 ^ (- g) * 2 ^ n = 2 ^ (- ec) * 2 ^ (- ex)).
    { rewrite <- !Z.pow_add_r by lia. f_equal. unfold n, E. lia. }
    nia. }
  assert (HN24 : 2 ^ n <= 2 ^ 24) by (apply Z.pow_le_mono_r; lia).
  assert (Hf : rne M n * 2 ^ (g + 149) / 2 ^ 149 = rne M n / 2 ^ (- g)).
  { rewrite HUG, (Z.mul_comm (2 ^ (g + 149)) (2 ^ (- g))).
    apply Z.div_mul_cancel_r; lia. }
  rewrite Hf. clear Hf.
  pose proof (Z.div_mod M (2 ^ n) ltac:(lia)) as EM.
  pose proof (Z.mod_pos_bound M (2 ^ n) HN) as BMm.
  assert (HMle : M <= Zpos mc * 2 ^ (- ex) - Zpos mc).
  { unfold M. replace (Zpos mc * 2 ^ (- ex) - Zpos mc)
      with (Zpos mc * (2 ^ (- ex) - 1)) by ring.
    apply Z.mul_le_mono_nonneg_l; lia. }
  destruct (round_top C (2 ^ (- g)) (2 ^ n) (M / 2 ^ n) (M mod 2 ^ n) M
              (Zpos mc) (2 ^ (- ex))) as [T1 T2]; try assumption; try lia.
  assert (Htop : rne M n < C * 2 ^ (- g)).
  { unfold rne. cbv zeta.
    destruct (Z.ltb_spec (2 * (M mod 2 ^ n)) (2 ^ n)); [apply T1; assumption|].
    specialize (T2 ltac:(assumption)).
    destruct (2 ^ n <? 2 * (M mod 2 ^ n)); [lia|].
    destruct (Z.even (M / 2 ^ n)); lia. }
  pose proof (Z.div_mod (C * K) (2 ^ 149) ltac:(lia)) as Ew.
  pose proof (Z.mod_pos_bound (C * K) (2 ^ 149) ltac:(lia)) as Bw.
  split.
  - apply (round_near C K (2 ^ 149) (2 ^ (g + 149)) (2 ^ (- g)) (2 ^ n) M
             (M / 2 ^ n) (M mod 2 ^ n) _ ((C * K) mod 2 ^ 149)); assumption.
  - assert (rne M n / 2 ^ (- g) < C); [|lia].
    apply Z.div_lt_upper_bound; [lia|]. rewrite Z.mul_comm. exact Htop.
Qed.


Lemma float_of_int_0 : float_of_int 0 = S754_zero false.
Proof. reflexivity. Qed.

Lemma fsub_zero m e : fsub (S754_finite false m e) (S754_zero false) = S754_finite false m e.
Proof. reflexivity. Qed.

Lemma fsub_same_exp (m1 m2 : positive) e :
  fsub (S754_finite false m1 e) (S754_finite false m2 e) =
  binary_normalize prec emax (Zpos m1 - Zpos m2) e false.
Proof.
  unfold fsub, SFsub. rewrite Z.min_id. unfold shl_align. rewrite Z.sub_diag.
  cbn [fst cond_Zopp]. reflexivity.
Qed.

Lemma frac_spec (mh : positive) (eh : Z) :
  canonical mh eh -> Zpos mh * 2 ^ (eh + 149) < 32768 * 2 ^ 149 ->
  let x := S754_finite false mh eh in
  let i := int_of_float x in
  let xf := fsub x (float_of_int i) in
  0 <= i < 32768 /\ i = scaled x / 2 ^ 149 /\
  ((xf = S754_zero false /\ scaled x = i * 2 ^ 149) \/
   (exists mx ex, xf = S754_finite false mx ex /\ canonical mx ex /\
      Zpos mx * 2 ^ (ex + 149) = scaled x - i * 2 ^ 149 /\
      Zpos mx * 2 ^ (ex + 149) < 2 ^ 149)).
Proof.
  intros Hcan Hv x i xf.
  pose proof Hcan as Hcan'. unfold canonical in Hcan'.
  pose proof (digits2_pos_bounds mh) as Bh.
  set (dh := Zpos (digits2_pos mh)) in *.
  assert (He149 : -149 <= eh) by lia.
  assert (P15 : 32768 = 2 ^ 15) by reflexivity.
  assert (Heh : eh < 0).
  { destruct (Z.lt_ge_cases eh 0); [assumption|exfalso].
    assert (dh = 24) by lia.
    assert (2 ^ 149 <= 2 ^ (eh + 149)) by (apply Z.pow_le_mono_r; lia).
    assert (0 < 2 ^ 149) by (apply Z.pow_pos_nonneg; lia).
    assert (2 ^ 23 <= Zpos mh) by (replace 23 with (dh - 1) by lia; lia).
    change (2 ^ 23) with 8388608 in *. nia. }
  assert (HB : 0 < 2 ^ (eh + 149)) by (apply Z.pow_pos_nonneg; lia).
  assert (HD : 0 < 2 ^ (- eh)) by (apply Z.pow_pos_nonneg; lia).
  assert (HU : 2 ^ 149 = 2 ^ (- eh) * 2 ^ (eh + 149)).
  { rewrite <- Z.pow_add_r by lia. f_equal. lia. }
  assert (Hi : i = Zpos mh / 2 ^ (- eh)).
  { unfold i, x. cbn [int_of_float].
    destruct (Z.leb_spec 0 eh); [lia|reflexivity]. }
  assert (Hs : scaled x = Zpos mh * 2 ^ (eh + 149)).
  { unfold x. cbn [scaled]. lia. }
  assert (Hi2 : i = scaled x / 2 ^ 149).
  { rewrite Hi, Hs, HU.
    symmetry. apply Z.div_mul_cancel_r; lia. }
  pose proof (Z.div_mod (Zpos mh) (2 ^ (- eh)) ltac:(lia)) as Ek.
  pose proof (Z.mod_pos_bound (Zpos mh) (2 ^ (- eh)) HD) as Bk.
  rewrite <- Hi in Ek.
  set (k := Zpos mh mod 2 ^ (- eh)) in *.
  assert (Hi0 : 0 <= i) by (rewrite Hi; apply Z.div_pos; lia).
  assert (Hi15 : i < 32768).
  { rewrite Hi. apply Z.div_lt_upper_bound; [lia|].
    apply (Z.mul_lt_mono_pos_r (2 ^ (eh + 149))); [lia|].
    replace (2 ^ (- eh) * 32768 * 2 ^ (eh + 149)) with (32768 * 2 ^ 149) by (rewrite HU; ring).
    exact Hv. }
  assert (Hfrac : scaled x - i * 2 ^ 149 = k * 2 ^ (eh + 149)).
  { rewrite Hs, HU. rewrite Ek at 1. ring. }
  split; [lia|]. split; [exact Hi2|].
  destruct (Z.eq_dec i 0) as [Ei0|Ei0].
  - (* below one: the reading itself is the fraction *)
    right. exists mh, eh.
    assert (Hk : k = Zpos mh) by (rewrite Ei0 in Ek; lia).
    split; [|split; [exact Hcan|split]].
    + unfold xf. rewrite Ei0, float_of_int_0. apply fsub_zero.
    + rewrite Hfrac, Hk. reflexivity.
    + rewrite HU. apply Z.mul_lt_mono_pos_r; lia.
  - (* one or more: both numbers have the exponent of the reading *)
    assert (Hi1 : 1 <= i) by lia.
    assert (HmD : 2 ^ (- eh) <= Zpos mh) by nia.
    assert (Hdh : dh = 24).
    { destruct (Z.eq_dec dh 24); [assumption|exfalso].
      assert (eh = -149) by lia. subst eh.
      assert (dh - 1 < 149) by lia.
      assert (2 ^ dh <= 2 ^ 149) by (apply Z.pow_le_mono_r; lia).
      change (- -149) with 149 in *. lia. }
    rewrite Hdh in Bh. change (24 - 1) with 23 in Bh.
    assert (Heh23 : -23 <= eh).
    { assert (2 ^ (- eh) < 2 ^ 24) by lia.
      apply pow2_lt_inv in H; lia. }
    destruct i as [|ip|ip] eqn:Eip; [lia| |lia].
    assert (Hdi : Zpos (digits2_pos ip) = 24 + eh).
    { apply digits_unique.
      assert (Q1 : 2 ^ 23 = 2 ^ (24 + eh - 1) * 2 ^ (- eh)).
      { rewrite <- Z.pow_add_r by lia. f_equal. lia. }
      assert (Q2 : 2 ^ 24 = 2 ^ (24 + eh) * 2 ^ (- eh)).
      { rewrite <- Z.pow_add_r by lia. f_equal. lia. }
      rewrite Hi. split.
      - apply Z.div_le_lower_bound; [lia|]. rewrite Z.mul_comm, <- Q1. lia.
      - apply Z.div_lt_upper_bound; [lia|]. rewrite Z.mul_comm, <- Q2. lia. }
    destruct (binary_round_norm ip 0) as (mi & Ebi & Hmi & _); [lia|lia|].
    rewrite Hdi in Ebi, Hmi.
    replace (24 + eh + 0 - 24) with eh in Ebi by lia.
    replace (24 - (24 + eh)) with (- eh) in Hmi by lia.
    assert (Efi : float_of_int (Zpos ip) = S754_finite false mi eh) by exact Ebi.
    assert (Hkm : Zpos mh - Zpos mi = k) by (rewrite Hmi; lia).
    unfold xf, x. rewrite Efi, fsub_same_exp, Hkm.
    destruct k as [|kp|kp] eqn:Ekp; [| |lia].
    + left. split; [reflexivity|].
      change (scaled x = Z.pos ip * 2 ^ 149). lia.
    + right. cbn [binary_normalize].
      pose proof (digits2_pos_bounds kp) as Bkp.
      set (dk := Zpos (digits2_pos kp)) in *.
      assert (Hdk : dk <= - eh).
      { assert (2 ^ (dk - 1) < 2 ^ (- eh)) by lia.
        apply pow2_lt_inv in H; lia. }
      destruct (binary_round_norm kp eh) as (mz & Ebz & Hmz & Hdz);
        [fold dk; lia|fold dk; unfold dk; lia|].
      fold dk in Ebz, Hmz.
      exists mz, (dk + eh - 24). split; [exact Ebz|].
      assert (HP : 2 ^ (24 - dk) * 2 ^ (dk + eh - 24 + 149) = 2 ^ (eh + 149)).
      { rewrite <- Z.pow_add_r by (unfold dk; lia). f_equal. lia. }
      split; [|split].
      * unfold canonical. rewrite Hdz. unfold dk. lia.
      * change (scaled (S754_finite false mh eh)) with (scaled x).
        rewrite Hfrac, Hmz, <- HP. ring.
      * rewrite Hmz, <- Z.mul_assoc, HP, HU.
        apply Z.mul_lt_mono_pos_r; lia.
Qed.


Lemma float_of_int_10 : float_of_int 10 = S754_finite false 10485760 (-20).
Proof. vm_compute. reflexivity. Qed.

Lemma float_of_int_100 : float_of_int 100 = S754_finite false 13107200 (-17).
Proof. vm_compute. reflexivity. Qed.

Lemma humid_string_eq x :
  isnan x = false ->
  humid_string x =
  (fmt_d (int_of_float x) ++ "." ++
   fmt_d (int_of_float (fmul (float_of_int 10) (fsub x (float_of_int (int_of_float x))))))%string.
Proof. intros H. unfold humid_string. rewrite H. reflexivity. Qed.

Lemma temp_string_eq x :
  isnan x = false ->
  temp_string x =
  (fmt_d (int_of_float x) ++ "." ++
   fmt_d (int_of_float (fmul (float_of_int 100) (fsub x (float_of_int (int_of_float x))))))%string.
Proof. intros H. unfold temp_string. rewrite H. reflexivity. Qed.


(** The fraction digits of a reading: what [(int)(C * (x - (int)x))] is for
    the two factors of the sketch. *)
Lemma fraction_digits (C : Z) (mc : positive) (ec : Z) (x : spec_float) :
  0 < C -> -24 <= ec < 0 -> Zpos mc = C * 2 ^ (- ec) ->
  2 ^ 23 < Zpos mc < 2 ^ 24 ->
  readable x = true ->
  let i := scaled x / 2 ^ 149 in
  let r := scaled x - i * 2 ^ 149 in
  let f := int_of_float (fmul (S754_finite false mc ec) (fsub x (float_of_int (int_of_float x)))) in
  isnan x = false /\ int_of_float x = i /\ 0 <= i < 32768 /\ 0 <= r < 2 ^ 149 /\
  (C * r) / 2 ^ 149 <= f <= (C * r) / 2 ^ 149 + 1 /\ 0 <= f <= C - 1.
Proof.
  intros HC Hec Hmc Bmc Hr i r f.
  assert (P : 0 < 2 ^ 149) by (apply Z.pow_pos_nonneg; lia).
  unfold readable in Hr. apply andb_true_iff in Hr. destruct Hr as [Hv Hb].
  destruct x as [s|s| |s m e]; try discriminate.
  - (* a zero of either sign *)
    assert (Ef : f = 0) by (destruct s; reflexivity).
    assert (Ei : i = 0) by reflexivity.
    assert (Er : r = 0) by reflexivity.
    rewrite Ef, Er, Ei, Z.mul_0_r, Z.div_0_l by lia.
    repeat split; try reflexivity; lia.
  - destruct s; [discriminate|]. apply Z.ltb_lt in Hb.
    apply valid_finite in Hv. destruct Hv as [Hcan _].
    destruct (frac_spec m e Hcan Hb) as (Bi & Ei & Hx). fold i in Ei.
    split; [reflexivity|]. split; [exact Ei|]. split; [rewrite <- Ei; exact Bi|].
    unfold f. clear f.
    destruct Hx as [[Ez Es]|(mx & ex & Ex & Hcx & Es & Bx)]; rewrite Ex || rewrite Ez.
    + assert (Er : r = 0) by (unfold r; rewrite <- Ei; lia).
      rewrite Er, Z.mul_0_r, Z.div_0_l by lia.
      cbn [fmul SFmul int_of_float]. lia.
    + assert (Er : r = Zpos mx * 2 ^ (ex + 149)) by (unfold r; rewrite <- Ei; lia).
      assert (Hpos : 0 < 2 ^ (ex + 149)).
      { apply Z.pow_pos_nonneg; [lia|]. unfold canonical in Hcx. lia. }
      pose proof (scale_spec C mc mx ec ex HC Hec Hmc Bmc Hcx Bx) as S.
      cbv zeta in S. rewrite <- Er in S. destruct S as [S1 S2].
      split; [rewrite Er; split; [nia|exact Bx]|].
      split; [exact S1|]. split; [|exact S2].
      apply Z.le_trans with (C * r / 2 ^ 149); [|apply S1].
      apply Z.div_pos; [|lia]. rewrite Er. nia.
Qed.


End Rounding.

Section Turns.

Lemma append_nil_r (s : string) : (s ++ "")%string = s.
Proof.
  induction s as [|c s IH]; [reflexivity|].
  change (String c (s ++ "") = String c s). rewrite IH. reflexivity.
Qed.

Lemma append_assoc (a b c : string) : ((a ++ b) ++ c)%string = (a ++ (b ++ c))%string.
Proof.
  induction a as [|x a IH]; [reflexivity|].
  change (String x ((a ++ b) ++ c) = String x (a ++ (b ++ c))). rewrite IH. reflexivity.
Qed.

Lemma config_fields a b :
  config a = config b ->
  eeprom a = eeprom b /\ rtc a = rtc b /\ sysTime a = sysTime b /\
  serial_in a = serial_in b /\ zone a = zone b /\ doLog a = doLog b /\
  sensor a = sensor b.
Proof. unfold config. intros H. injection H as -> -> -> -> -> -> ->. repeat split. Qed.

Lemma Halts_inj a b : Halts a = Halts b -> a = b.
Proof. intros H. injection H as ->. reflexivity. Qed.

Lemma Returns_inj a b : Returns a = Returns b -> a = b.
Proof. intros H. injection H as ->. reflexivity. Qed.

Lemma final_Returns st : final (Returns st) = st.
Proof. reflexivity. Qed.

(** The readings of a cycle, as writes to the memory. *)
Lemma sampled_eq env st :
  sampled env st =
  set_bufTemp (temp_string (temp_value env (sensor st)))
    (set_bufHumid (humid_string (humid_value env (sensor st)))
       (dht_notice (humid_value env (sensor st)) (set_first 0 st))).
Proof.
  unfold sampled, mkTempStr, mkHumidStr, humid_string, dht_notice. cbv zeta.
  cbn [sensor set_first].
  destruct (Arduino.isnan (humid_value env (sensor st))); reflexivity.
Qed.

Lemma cycle_cases env st :
  (doLog st = 0 /\ cycle env st = Returns (consoleUpdate (sampled env st))) \/
  (doLog st <> 0 /\ sd_opens env = true /\
   cycle env st =
     Returns (consoleUpdate
                (Serial_print ("Logging done" ++ Arduino.endl)
                   (set_sd_file (sd_file st ++ log_record (sampled env st))
                      (Serial_print ("SD Logging now ..." ++ Arduino.endl)
                                    (sampled env st)))))) \/
  (doLog st <> 0 /\ sd_opens env = false /\
   cycle env st =
     Halts (Serial_print ("error opening " ++ FILENAME ++ Arduino.endl)
              (Serial_print ("SD Logging now ..." ++ Arduino.endl)
                            (sampled env st)))).
Proof.
  destruct (Z.eq_dec (doLog st) 0) as [E|E].
  - left. split; [exact E|apply cycle_nolog; exact E].
  - right. destruct (sd_opens env) eqn:Ho.
    + left. split; [exact E|]. split; [reflexivity|apply cycle_logged; assumption].
    + right. split; [exact E|]. split; [reflexivity|apply cycle_halts; assumption].
Qed.

(** What a cycle leaves alone, however it ends. *)
Lemma cycle_keeps env st :
  config (final (cycle env st)) = config st /\
  first (final (cycle env st)) = 0 /\
  tLast (final (cycle env st)) = tLast st /\
  lcd (final (cycle env st)) = lcd st /\
  bufDate (final (cycle env st)) = bufDate st /\
  bufTime (final (cycle env st)) = bufTime st /\
  bufTemp (final (cycle env st)) = temp_string (temp_value env (sensor st)) /\
  bufHumid (final (cycle env st)) = humid_string (humid_value env (sensor st)).
Proof.
  destruct (cycle_cases env st) as [(_ & E)|[(_ & _ & E)|(_ & _ & E)]];
    rewrite E, sampled_eq; unfold dht_notice;
    destruct (Arduino.isnan (humid_value env (sensor st))); repeat split.
Qed.

Lemma cycle_appends env st :
  exists s, sd_file (final (cycle env st)) = (sd_file st ++ s)%string.
Proof.
  destruct (cycle_cases env st) as [(_ & E)|[(_ & _ & E)|(_ & _ & E)]]; rewrite E.
  - exists EmptyString. rewrite append_nil_r, sampled_eq. unfold dht_notice.
    destruct (Arduino.isnan _); reflexivity.
  - eexists. reflexivity.
  - exists EmptyString. rewrite append_nil_r, sampled_eq. unfold dht_notice.
    destruct (Arduino.isnan _); reflexivity.
Qed.


Lemma refresh_eq env utc t st :
  refresh env utc t st =
  (due st utc,
   match (if due st utc then cycle env (mkTimeStr utc (mkDateStr utc st))
          else Returns (mkTimeStr utc (mkDateStr utc st))) with
   | Returns st' => Returns (shown_state t st')
   | other => other
   end).
Proof.
  unfold refresh. cbv zeta.
  rewrite (due_frame (mkTimeStr utc (mkDateStr utc st)) st utc) by reflexivity.
  destruct (if due st utc then cycle env _ else Returns _); reflexivity.
Qed.

Lemma shown_state_keeps t st :
  config (shown_state t st) = config st /\
  first (shown_state t st) = first st /\
  tLast (shown_state t st) = t /\
  sd_file (shown_state t st) = sd_file st /\
  serial_out (shown_state t st) = serial_out st /\
  bufTemp (shown_state t st) = bufTemp st /\
  bufHumid (shown_state t st) = bufHumid st.
Proof. unfold shown_state. destruct (zone st =? SHOWLOC); repeat split. Qed.

(** A refresh as one of three: no cycle, a cycle that returns, a cycle
    that ends in [halt]. *)
Lemma refresh_cases env utc t st :
  let st0 := mkTimeStr utc (mkDateStr utc st) in
  (due st utc = false /\
   snd (refresh env utc t st) = Returns (shown_state t st0)) \/
  (due st utc = true /\ (doLog st = 0 \/ sd_opens env = true) /\
   exists st', cycle env st0 = Returns st' /\
               snd (refresh env utc t st) = Returns (shown_state t st')) \/
  (due st utc = true /\ doLog st <> 0 /\ sd_opens env = false /\
   exists st', cycle env st0 = Halts st' /\
               snd (refresh env utc t st) = Halts st').
Proof.
  intros st0. rewrite refresh_eq. fold st0. cbn [snd].
  destruct (due st utc); [right|left; split; reflexivity].
  destruct (cycle_cases env st0) as [(D & E)|[(D & O & E)|(D & O & E)]]; rewrite E.
  - left. split; [reflexivity|]. split; [left; exact D|]. eexists. split; reflexivity.
  - left. split; [reflexivity|]. split; [right; exact O|]. eexists. split; reflexivity.
  - right. split; [reflexivity|]. split; [exact D|]. split; [exact O|].
    eexists. split; reflexivity.
Qed.

(** What a refresh leaves alone, however it ends. *)
Lemma refresh_keeps env utc t st :
  config (final (snd (refresh env utc t st))) = config st /\
  (first (final (snd (refresh env utc t st))) = 0 \/
   first (final (snd (refresh env utc t st))) = first st) /\
  exists s, sd_file (final (snd (refresh env utc t st))) = (sd_file st ++ s)%string.
Proof.
  pose proof (cycle_keeps env (mkTimeStr utc (mkDateStr utc st))) as (K1 & K2 & _).
  pose proof (cycle_appends env (mkTimeStr utc (mkDateStr utc st))) as (s & K3).
  destruct (refresh_cases env utc t st) as [(_ & E)|[(_ & _ & st' & Ec & E)|(_ & _ & _ & st' & Ec & E)]];
    rewrite E; cbn [final].
  - pose proof (shown_state_keeps t (mkTimeStr utc (mkDateStr utc st))) as (S1 & S2 & _ & S4 & _).
    rewrite S1, S2, S4. split; [reflexivity|]. split; [right; reflexivity|].
    exists EmptyString. rewrite append_nil_r. reflexivity.
  - rewrite Ec in K1, K2, K3. cbn [final] in K1, K2, K3.
    pose proof (shown_state_keeps t st') as (S1 & S2 & _ & S4 & _).
    rewrite S1, S2, S4, K1, K2, K3. split; [reflexivity|]. split; [left; reflexivity|].
    exists s. reflexivity.
  - rewrite Ec in K1, K2, K3. cbn [final] in K1, K2, K3.
    rewrite K1, K2, K3. split; [reflexivity|]. split; [left; reflexivity|].
    exists s. reflexivity.
Qed.

(** A turn, once the poll of the operator has returned. *)
Lemma loop_eq env st st1 :
  poll env st = Returns st1 ->
  loop env st =
  let st2 := Serial_print ("time_t utc = " ++ Arduino.utoa (sysTime st1) ++ Arduino.endl) st1 in
  if negb (fst (Timezone.toLocal myTZ (sysTime st1)) =? tLast st1)
  then refresh env (sysTime st1) (fst (Timezone.toLocal myTZ (sysTime st1))) st2
  else (false, Returns st2).
Proof. intros E. unfold loop. rewrite E. reflexivity. Qed.

(** What the poll of the operator leaves alone. *)
Lemma poll_statics env st :
  exists st1, poll env st = Returns st1 /\
    first st1 = first st /\ tLast st1 = tLast st /\ doLog st1 = doLog st /\
    sd_file st1 = sd_file st /\ lcd st1 = lcd st /\ sensor st1 = sensor st.
Proof.
  destruct (poll_returns env st) as (st1 & E & F1 & F2).
  destruct (poll_keeps env st st1 E) as (K1 & K2 & K3).
  exists st1. split; [exact E|]. repeat split; try assumption.
  unfold poll in E. cbv zeta in E.
  destruct (negb _) in E.
  - pose proof (setClock_statics (set_zone (adjustMode env) st)) as (_ & _ & _ & _ & L).
    rewrite E in L. exact L.
  - injection E as <-. reflexivity.
Qed.

Lemma poll_quiet env st :
  serial_in st = EmptyString -> poll env st = Returns (set_zone (adjustMode env) st).
Proof.
  intros E. unfold poll. cbv zeta. cbn [serial_in set_zone]. rewrite E. reflexivity.
Qed.

(** How a turn ends. *)
Lemma loop_cases env st :
  exists st1,
    poll env st = Returns st1 /\
    ((fires st1 = true /\ doLog st <> 0 /\ sd_opens env = false /\
      exists st', snd (loop env st) = Halts st') \/
     (~ (fires st1 = true /\ doLog st <> 0 /\ sd_opens env = false) /\
      exists st', snd (loop env st) = Returns st')).
Proof.
  destruct (poll_statics env st) as (st1 & E & F1 & F2 & F3 & _).
  exists st1. split; [exact E|].
  rewrite (loop_eq env st st1 E), fires_eq. cbv zeta.
  destruct (negb (fst (Timezone.toLocal myTZ (sysTime st1)) =? tLast st1)); cbn [andb].
  - match goal with |- context [refresh env ?u ?t ?X] =>
      destruct (refresh_cases env u t X) as
        [(D & R)|[(D & L & st' & _ & R)|(D & L & O & st' & _ & R)]];
      rewrite (due_frame X st1 u) in D by reflexivity;
      change (doLog X) with (doLog st1) in *; rewrite <- ?F3 end.
    + right. rewrite R. split; [|eexists; reflexivity].
      intros (A & _). congruence.
    + right. rewrite R. split; [|eexists; reflexivity].
      intros (_ & A & B). destruct L; congruence.
    + left. rewrite R. repeat split; try assumption. eexists; reflexivity.
  - right. split; [|eexists; reflexivity]. intros (A & _). discriminate.
Qed.

Lemma poll_short env st :
  (String.length (serial_in st) < 12)%nat ->
  exists st1, poll env st = Returns st1 /\
    config st1 = config (set_zone (adjustMode env) st) /\
    first st1 = first st /\ tLast st1 = tLast st /\ sd_file st1 = sd_file st.
Proof.
  intros L. destruct (Nat.eq_dec (String.length (serial_in st)) 0) as [E|E].
  - exists (set_zone (adjustMode env) st). split; [|repeat split].
    apply poll_quiet. destruct (serial_in st); [reflexivity|discriminate].
  - exists (prompt (set_zone (adjustMode env) st)). split; [|repeat split].
    unfold poll. cbv zeta. cbn [serial_in set_zone].
    destruct (Nat.eqb_spec (String.length (serial_in st)) 0) as [F|_]; [contradiction|].
    cbn [negb]. apply setClock_short. cbn [serial_in set_zone]. lia.
Qed.

(** With fewer than 12 characters pending, a turn changes nothing of the
    configuration and the clocks but the display mode. *)
Lemma loop_config env st :
  (String.length (serial_in st) < 12)%nat ->
  config (final (snd (loop env st))) = config (set_zone (adjustMode env) st).
Proof.
  intros L. destruct (poll_short env st L) as (st1 & E & C & _).
  rewrite (loop_eq env st st1 E). cbv zeta. rewrite <- C.
  destruct (negb _); [|reflexivity].
  match goal with |- context [refresh env ?u ?t ?X] =>
    pose proof (refresh_keeps env u t X) as (K & _) end.
  rewrite K. reflexivity.
Qed.

(** The log only grows in a turn. *)
Lemma loop_appends env st :
  exists s, sd_file (final (snd (loop env st))) = (sd_file st ++ s)%string.
Proof.
  destruct (poll_statics env st) as (st1 & E & _ & _ & _ & F & _).
  rewrite (loop_eq env st st1 E). cbv zeta. rewrite <- F.
  destruct (negb _).
  - match goal with |- context [refresh env ?u ?t ?X] =>
      pose proof (refresh_keeps env u t X) as (_ & _ & s & K) end.
    exists s. rewrite K. reflexivity.
  - exists EmptyString. rewrite append_nil_r. reflexivity.
Qed.

(** With logging off a turn returns and the log is as it was. *)
Lemma loop_nolog env st :
  doLog st = 0 ->
  exists st', snd (loop env st) = Returns st' /\ doLog st' = 0 /\
              sd_file st' = sd_file st.
Proof.
  intros D. destruct (poll_statics env st) as (st1 & E & _ & _ & F3 & F4 & _).
  rewrite (loop_eq env st st1 E). cbv zeta.
  destruct (negb _).
  - match goal with |- context [refresh env ?u ?t ?X] =>
      pose proof (refresh_keeps env u t X) as (K & _);
      destruct (refresh_cases env u t X) as
        [(_ & R)|[(_ & _ & st' & Ec & R)|(_ & L & _)]];
      [| |exfalso; apply L; change (doLog X) with (doLog st1); congruence];
      rewrite R in *; cbn [final] in K; eexists; (split; [reflexivity|]);
      (split; [unfold config in K; change (doLog X) with (doLog st1) in K; congruence|]) end.
    + match goal with |- sd_file (shown_state ?t ?Y) = _ =>
        pose proof (shown_state_keeps t Y) as (_ & _ & _ & S & _); rewrite S end.
      exact F4.
    + match goal with |- sd_file (shown_state ?t ?Y) = _ =>
        pose proof (shown_state_keeps t Y) as (_ & _ & _ & S & _); rewrite S end.
      rewrite cycle_nolog in Ec by (cbn [doLog mkTimeStr mkDateStr set_bufTime set_bufDate Serial_print set_serial_out]; congruence).
      injection Ec as <-. rewrite sampled_eq. unfold dht_notice.
      destruct (Arduino.isnan _); exact F4.
  - eexists. split; [reflexivity|]. split; [exact (eq_trans F3 D)|exact F4].
Qed.

(** What every turn and the passing of time keep, a run keeps. *)
Lemma steps_invariant (P : State -> Prop) :
  (forall n st, P st -> P (elapse n st)) ->
  (forall env st, P st -> P (final (snd (loop env st)))) ->
  forall turns m, P (memory m) -> P (memory (steps turns m)).
Proof.
  intros He Hl turns. induction turns as [|turn rest IH]; intros m Hm; [exact Hm|].
  cbn [steps]. apply IH. destruct m as [st|st led|st]; cbn [step memory] in *.
  - pose proof (Hl (snd turn) _ (He (fst turn) st Hm)) as H.
    destruct (snd (loop (snd turn) (elapse (fst turn) st))); exact H.
  - exact Hm.
  - exact Hm.
Qed.

End Turns.

(** C9 (as amended): nothing ends the program, but a log file that does
    not open stops it.  [sdLog] then prints the error on the console and
    enters [halt]; a turn of the loop reaches it exactly when, after the
    poll of the operator, a cycle is due and logging is on.  That turn ends
    in [halt] with the error as the last thing printed and with no write to
    the display or to the log, and from then on, whatever time passes and
    whatever the card does, the memory of the sketch and the display stay
    as they are while the LED goes on and off. *)
Theorem open_failure_halts (turn : Z * Env) (st st1 : State) (later : list (Z * Env)) :
  doLog st <> 0 -> sd_opens (snd turn) = false ->
  poll (snd turn) (elapse (fst turn) st) = Returns st1 -> fires st1 = true ->
  (forall s, sdLog (snd turn) s =
             Halts (Serial_print ("error opening " ++ FILENAME ++ Arduino.endl) s)) /\
  exists st',
    step turn (Running st) = Halted st' true /\
    (exists before,
       serial_out st' = (before ++ "error opening " ++ FILENAME ++ Arduino.endl)%string) /\
    lcd st' = lcd st /\ sd_file st' = sd_file st /\
    steps later (Halted st' true) =
      Halted st' (Nat.even (List.length later)).
Proof.
  intros Hl Ho E Hf. destruct turn as [dt env]. cbn [fst snd] in *.
  split; [intros s; unfold sdLog; rewrite Ho; reflexivity|].
  destruct (poll_statics env (elapse dt st)) as (st1' & E' & _ & _ & F3 & F4 & F5 & _).
  rewrite E in E'. apply Returns_inj in E'. subst st1'.
  change (doLog (elapse dt st)) with (doLog st) in F3.
  change (sd_file (elapse dt st)) with (sd_file st) in F4.
  change (lcd (elapse dt st)) with (lcd st) in F5.
  rewrite fires_eq in Hf. apply andb_prop in Hf. destruct Hf as [Hf1 Hf2].
  cbn [step fst snd]. rewrite (loop_eq env _ st1 E). cbv zeta. rewrite Hf1.
  match goal with |- context [refresh env ?u ?t (Serial_print ?s ?Y)] =>
    destruct (refresh_cases env u t (Serial_print s Y)) as
      [(D & _)|[(_ & L & _)|(_ & _ & _ & st' & Ec & R)]];
    [rewrite (due_frame (Serial_print s Y) st1 u) in D by reflexivity; congruence
    |change (doLog (Serial_print s Y)) with (doLog st1) in L;
     destruct L; congruence
    |];
    rewrite cycle_halts in Ec
      by (assumption ||
          (change (doLog (mkTimeStr u (mkDateStr u (Serial_print s Y)))) with (doLog st1);
           congruence))
  end.
  rewrite R. exists st'. split; [reflexivity|].
  apply Halts_inj in Ec. subst st'.
  rewrite sampled_eq. unfold dht_notice.
  split; [|split; [|split]].
  - destruct (Arduino.isnan _); eexists; st_cbn; reflexivity.
  - destruct (Arduino.isnan _); st_cbn; exact F5.
  - destruct (Arduino.isnan _); st_cbn; exact F4.
  - rewrite steps_halted. destruct (Nat.even _); reflexivity.
Qed.

(** The card is missing at power-on on 2024-11-03T05:59:50Z. *)
Lemma open_failure_halts_witness :
  (forall s, sdLog no_card s =
             Halts (Serial_print ("error opening " ++ FILENAME ++ Arduino.endl) s)) /\
  exists st',
    step (1, no_card) (Running (power_on 1730613590)) = Halted st' true /\
    (exists before,
       serial_out st' = (before ++ "error opening " ++ FILENAME ++ Arduino.endl)%string) /\
    lcd st' = [] /\ sd_file st' = EmptyString /\
    steps [(1, fair_weather); (1, fair_weather)] (Halted st' true) =
      Halted st' (Nat.even 2).
Proof.
  refine (open_failure_halts (1, no_card) (power_on 1730613590)
            (set_zone SHOWLOC (elapse 1 (power_on 1730613590)))
            [(1, fair_weather); (1, fair_weather)] _ _ _ _).
  - vm_compute. discriminate.
  - reflexivity.
  - reflexivity.
  - vm_compute. reflexivity.
Defined.

(** X1: a turn of the loop never stays in the wait for input of
    [setClock], which it enters only with input pending: it returns, or it
    ends in [halt], and it ends in [halt] exactly when the time has
    changed, a cycle is due, logging is on and the log file does not
    open. *)
Theorem loop_outcome (env : Env) (st : State) :
  exists st1,
    poll env st = Returns st1 /\
    ((fires st1 = true /\ doLog st <> 0 /\ sd_opens env = false /\
      exists st', snd (loop env st) = Halts st') \/
     (~ (fires st1 = true /\ doLog st <> 0 /\ sd_opens env = false) /\
      exists st', snd (loop env st) = Returns st')).
Proof. exact (loop_cases env st). Qed.

(** X2: the log file only grows: whatever the turns of a run are, what
    the file holds at the start is still there at the end, with the new
    records behind it. *)
Theorem log_is_append_only (turns : list (Z * Env)) (st : State) :
  exists s, sd_file (memory (steps turns (Running st))) = (sd_file st ++ s)%string.
Proof.
  apply (steps_invariant (fun x => exists s, sd_file x = (sd_file st ++ s)%string)).
  - intros n x H. exact H.
  - intros env x (s & H). destruct (loop_appends env x) as (s' & H').
    exists (s ++ s')%string. rewrite H', H. apply append_assoc.
  - exists EmptyString. cbn [memory]. rewrite append_nil_r. reflexivity.
Qed.

(** With logging off a run never leaves the loop and never writes the log. *)
Lemma steps_nolog (turns : list (Z * Env)) (st : State) :
  doLog st = 0 ->
  exists st', steps turns (Running st) = Running st' /\
              doLog st' = 0 /\ sd_file st' = sd_file st.
Proof.
  revert st. induction turns as [|turn rest IH]; intros st D.
  - exists st. repeat split. exact D.
  - cbn [steps step].
    destruct (loop_nolog (snd turn) (elapse (fst turn) st) D) as (st1 & E & D1 & F1).
    rewrite E. destruct (IH st1 D1) as (st' & E' & D' & F').
    exists st'. split; [exact E'|]. split; [exact D'|].
    rewrite F', F1. reflexivity.
Qed.

(** X3: with logging off, as [setup] leaves it when the card does not
    answer, no turn ends in [halt] and none writes to the log, whatever the
    operator types and whether or not the file would open. *)
Theorem no_logging_no_halt (turns : list (Z * Env)) (st : State) :
  doLog st = 0 ->
  exists st', steps turns (Running st) = Running st' /\
              doLog st' = 0 /\ sd_file st' = sd_file st.
Proof. exact (steps_nolog turns st). Qed.

(** The operator types a time while the card is out and logging is off. *)
Lemma no_logging_no_halt_witness :
  exists st',
    steps [(1, no_card); (1, no_card)]
          (Running (set_doLog 0 (typed "24,3,15,9,30,0"))) = Running st' /\
    doLog st' = 0 /\ sd_file st' = EmptyString.
Proof.
  exact (no_logging_no_halt [(1, no_card); (1, no_card)]
           (set_doLog 0 (typed "24,3,15,9,30,0")) eq_refl).
Defined.

(** X4: a line of fewer than 12 characters is never consumed: each turn
    prints the prompt and returns from [setClock] with the characters still
    in the receive buffer, so that they are found again in the next turn,
    and the EEPROM is not written. *)
Theorem short_line_stays (turns : list (Z * Env)) (st : State) :
  (0 < String.length (serial_in st) < 12)%nat ->
  (forall env, poll env st = Returns (prompt (set_zone (adjustMode env) st))) /\
  serial_in (memory (steps turns (Running st))) = serial_in st /\
  eeprom (memory (steps turns (Running st))) = eeprom st.
Proof.
  intros L. split.
  - intros env. unfold poll. cbv zeta. cbn [serial_in set_zone].
    destruct (Nat.eqb_spec (String.length (serial_in st)) 0) as [F|_]; [lia|].
    cbn [negb]. apply setClock_short. exact L.
  - apply (steps_invariant
             (fun x => serial_in x = serial_in st /\ eeprom x = eeprom st)).
    + intros n x (A & B). cbn. split; assumption.
    + intros env x (A & B).
      assert (Lx : (String.length (serial_in x) < 12)%nat) by (rewrite A; lia).
      pose proof (loop_config env x Lx) as K. apply config_fields in K.
      destruct K as (K1 & _ & _ & K4 & _).
      cbn [eeprom serial_in set_zone] in K1, K4. rewrite K1, K4.
      split; assumption.
    + split; reflexivity.
Qed.

(** Five characters are typed and the device runs on for three turns. *)
Lemma short_line_stays_witness :
  let st := set_serial_in "24,3," (power_on 1710509400) in
  let turns := [(0, fair_weather); (1, fair_weather); (1, fair_weather)] in
  (forall env, poll env st = Returns (prompt (set_zone (adjustMode env) st))) /\
  serial_in (memory (steps turns (Running st))) = "24,3,"%string /\
  eeprom (memory (steps turns (Running st))) = ∅.
Proof.
  exact (short_line_stays [(0, fair_weather); (1, fair_weather); (1, fair_weather)]
           (set_serial_in "24,3," (power_on 1710509400)) ltac:(cbn; lia)).
Defined.

(** X5: without operator input a run never writes the EEPROM and never
    changes the switches: the receive buffer stays empty, and the EEPROM,
    [doLog] and [sensor] are as they were. *)
Theorem quiet_run_keeps_config (turns : list (Z * Env)) (st : State) :
  serial_in st = EmptyString ->
  serial_in (memory (steps turns (Running st))) = EmptyString /\
  eeprom (memory (steps turns (Running st))) = eeprom st /\
  doLog (memory (steps turns (Running st))) = doLog st /\
  sensor (memory (steps turns (Running st))) = sensor st.
Proof.
  intros L.
  apply (steps_invariant
           (fun x => serial_in x = EmptyString /\ eeprom x = eeprom st /\
                     doLog x = doLog st /\ sensor x = sensor st)).
  - intros n x (A & B & C & D). cbn. repeat split; assumption.
  - intros env x (A & B & C & D).
    assert (Lx : (String.length (serial_in x) < 12)%nat) by (rewrite A; cbn; lia).
    pose proof (loop_config env x Lx) as K. apply config_fields in K.
    destruct K as (K1 & _ & _ & K4 & _ & K6 & K7).
    cbn [eeprom serial_in doLog sensor set_zone] in K1, K4, K6, K7.
    rewrite K1, K4, K6, K7. repeat split; assumption.
  - cbn [memory]. repeat split. exact L.
Qed.

(** Three turns of a device at power-on. *)
Lemma quiet_run_keeps_config_witness :
  let st := power_on 1710509400 in
  let turns := [(0, fair_weather); (1, fair_weather); (1, no_card)] in
  serial_in (memory (steps turns (Running st))) = EmptyString /\
  eeprom (memory (steps turns (Running st))) = ∅ /\
  doLog (memory (steps turns (Running st))) = 1 /\
  sensor (memory (steps turns (Running st))) = Z.lor USEDHTTEMP USEDHTHUM.
Proof.
  exact (quiet_run_keeps_config [(0, fair_weather); (1, fair_weather); (1, no_card)]
           (power_on 1710509400) eq_refl).
Defined.

Section Shown.

Lemma setClock_zone st : zone (final (setClock st)) = zone st.
Proof.
  destruct (Nat.eq_dec (String.length (serial_in st)) 0) as [E|E].
  - rewrite (setClock_waits st E). reflexivity.
  - destruct (Nat.lt_ge_cases (String.length (serial_in st)) 12) as [L|L].
    + rewrite (setClock_short st) by lia. reflexivity.
    + destruct (rejected (year_field (serial_in st))) eqn:R.
      * rewrite (setClock_rejects st L R). reflexivity.
      * rewrite (setClock_accepts st L R). reflexivity.
Qed.

Lemma poll_zone env st st1 : poll env st = Returns st1 -> zone st1 = adjustMode env.
Proof.
  unfold poll. cbv zeta. destruct (negb _); intros E.
  - pose proof (setClock_zone (set_zone (adjustMode env) st)) as Z.
    rewrite E in Z. exact Z.
  - injection E as <-. reflexivity.
Qed.

(** The stamp of lines 349-350, made before anything else in a refresh. *)
Lemma stamped utc s st :
  zone (mkTimeStr utc (mkDateStr utc (Serial_print s st))) = zone st /\
  lcd (mkTimeStr utc (mkDateStr utc (Serial_print s st))) = lcd st /\
  bufDate (mkTimeStr utc (mkDateStr utc (Serial_print s st))) = date_string utc /\
  bufTime (mkTimeStr utc (mkDateStr utc (Serial_print s st))) = time_string utc.
Proof.
  unfold mkTimeStr, mkDateStr.
  generalize (date_string utc) (time_string utc). intros d h. repeat split.
Qed.

(** What the end of a turn puts on the display. *)
Lemma shown_state_display t st (b : bool) :
  (zone st =? SHOWLOC) = b ->
  let d := if b then date_string t else bufDate st in
  let h := if b then time_string t else bufTime st in
  bufDate (shown_state t st) = d /\ bufTime (shown_state t st) = h /\
  zone (shown_state t st) = zone st /\
  lcd (shown_state t st) =
    lcd st ++ [LcdSetCursor 0 1; LcdPrint d; LcdSetCursor 0 0; LcdPrint h;
               LcdSetCursor 10 0; LcdPrint "      "; LcdSetCursor 10 0;
               LcdPrint (bufTemp st); LcdWrite 0; LcdPrint "C";
               LcdSetCursor 11 1; LcdPrint "     "; LcdSetCursor 11 1;
               LcdPrint (bufHumid st); LcdPrint "%"].
Proof.
  intros <-. unfold shown_state. destruct (zone st =? SHOWLOC); cbv zeta;
    (split; [reflexivity|]); (split; [reflexivity|]); (split; [reflexivity|]);
    st_cbn; rewrite <- !app_assoc; reflexivity.
Qed.

Lemma consoleUpdate_out st :
  serial_out (consoleUpdate st) = (serial_out st ++ log_record st)%string.
Proof.
  unfold log_record. st_cbn. rewrite !append_assoc. reflexivity.
Qed.

End Shown.

(** What a turn in which the time has changed leaves on show. *)
Lemma loop_shows (env : Env) (st st1 st' : State) :
  poll env st = Returns st1 ->
  fst (Timezone.toLocal myTZ (now st1)) <> tLast st ->
  snd (loop env st) = Returns st' ->
  let shown := if modepin env then fst (Timezone.toLocal myTZ (now st1)) else now st1 in
  zone st' = adjustMode env /\
  bufDate st' = date_string shown /\ bufTime st' = time_string shown /\
  lcd st' =
    lcd st ++ [LcdSetCursor 0 1; LcdPrint (date_string shown);
               LcdSetCursor 0 0; LcdPrint (time_string shown);
               LcdSetCursor 10 0; LcdPrint "      "; LcdSetCursor 10 0;
               LcdPrint (bufTemp st'); LcdWrite 0; LcdPrint "C";
               LcdSetCursor 11 1; LcdPrint "     "; LcdSetCursor 11 1;
               LcdPrint (bufHumid st'); LcdPrint "%"].
Proof.
  intros E Ht Hr shown.
  destruct (poll_statics env st) as (st1' & E' & _ & F2 & _ & _ & F5 & _).
  rewrite E in E'. injection E' as <-.
  pose proof (poll_zone env st st1 E) as Hz.
  rewrite (loop_eq env st st1 E) in Hr. cbv zeta in Hr. unfold now in *.
  rewrite <- F2 in Ht.
  destruct (Z.eqb_spec (fst (Timezone.toLocal myTZ (sysTime st1))) (tLast st1)) as [C|_];
    [contradiction|].
  cbn [negb] in Hr.
  subst shown.
  remember (fst (Timezone.toLocal myTZ (sysTime st1))) as t eqn:Et.
  remember (sysTime st1) as utc eqn:Eu.
  assert (G : exists X, st' = shown_state t X /\ zone X = zone st1 /\ lcd X = lcd st1 /\
                        bufDate X = date_string utc /\ bufTime X = time_string utc).
  { match type of Hr with context [refresh env utc t ?Y] =>
      pose proof (cycle_keeps env (mkTimeStr utc (mkDateStr utc Y))) as (K1 & _ & _ & K4 & K5 & K6 & _);
      match Y with Serial_print ?s ?Z => pose proof (stamped utc s Z) as (S1 & S2 & S3 & S4) end;
      destruct (refresh_cases env utc t Y) as
        [(_ & R)|[(_ & _ & sc & Ec & R)|(_ & _ & _ & sc & Ec & R)]];
      rewrite R in Hr; [| |discriminate]; apply Returns_inj in Hr; rewrite <- Hr end.
    - eexists. split; [reflexivity|].
      split; [exact S1|]. split; [exact S2|]. split; [exact S3|exact S4].
    - rewrite Ec, final_Returns in K1, K4, K5, K6.
      apply config_fields in K1. destruct K1 as (_ & _ & _ & _ & K1 & _).
      exists sc. split; [reflexivity|].
      split; [exact (eq_trans K1 S1)|]. split; [exact (eq_trans K4 S2)|].
      split; [exact (eq_trans K5 S3)|exact (eq_trans K6 S4)]. }
  destruct G as (X & -> & Gz & Gl & Gd & Gt).
  assert (Hb : (zone X =? SHOWLOC) = modepin env).
  { rewrite Gz, Hz. unfold adjustMode. destruct (modepin env); reflexivity. }
  pose proof (shown_state_display t X (modepin env) Hb) as (D1 & D2 & D3 & D4).
  pose proof (shown_state_keeps t X) as (_ & _ & _ & _ & _ & B1 & B2).
  cbv zeta in D4.
  rewrite D3, D1, D2, D4, B1, B2, Gl, F5, Gd, Gt, Gz, Hz.
  destruct (modepin env); cbv beta iota; repeat split.
Qed.

(** X6: when the time has changed, at an instant from 18000 on that a
    [time_t] holds (so that the local time is no earlier than 1970), the
    turn ends by showing the date and the time of the zone that the jumper
    selects (local time with the pin high, UTC with the pin low), then the
    temperature followed by the degree sign and C, then the humidity
    followed by the percent sign, in this order and at these positions. *)
Theorem display_follows_jumper (env : Env) (st st1 st' : State) :
  poll env st = Returns st1 ->
  18000 <= now st1 < time_t_max ->
  fst (Timezone.toLocal myTZ (now st1)) <> tLast st ->
  snd (loop env st) = Returns st' ->
  let shown := if modepin env then fst (Timezone.toLocal myTZ (now st1)) else now st1 in
  0 <= shown < time_t_max /\
  zone st' = adjustMode env /\
  bufDate st' = date_string shown /\ bufTime st' = time_string shown /\
  lcd st' =
    lcd st ++ [LcdSetCursor 0 1; LcdPrint (date_string shown);
               LcdSetCursor 0 0; LcdPrint (time_string shown);
               LcdSetCursor 10 0; LcdPrint "      "; LcdSetCursor 10 0;
               LcdPrint (bufTemp st'); LcdWrite 0; LcdPrint "C";
               LcdSetCursor 11 1; LcdPrint "     "; LcdSetCursor 11 1;
               LcdPrint (bufHumid st'); LcdPrint "%"].
Proof.
  intros E Hn Ht Hr shown. split.
  - subst shown. pose proof (toLocal_cases (now st1)) as C.
    destruct (modepin env); lia.
  - exact (loop_shows env st st1 st' E Ht Hr).
Qed.

(** At power-on in March 2024 the first turn shows the local date and
    time with the pin high. *)
Lemma display_follows_jumper_witness :
  let st := power_on 1710509400 in
  let st' := final (snd (loop fair_weather st)) in
  0 <= 1710509400 - 14400 < time_t_max /\
  zone st' = SHOWLOC /\
  bufDate st' = "2024-03-15"%string /\ bufTime st' = "09:30:00"%string /\
  lcd st' =
    [LcdSetCursor 0 1; LcdPrint "2024-03-15"; LcdSetCursor 0 0; LcdPrint "09:30:00";
     LcdSetCursor 10 0; LcdPrint "      "; LcdSetCursor 10 0;
     LcdPrint "23.50"; LcdWrite 0; LcdPrint "C";
     LcdSetCursor 11 1; LcdPrint "     "; LcdSetCursor 11 1;
     LcdPrint "45.2"; LcdPrint "%"].
Proof.
  refine (display_follows_jumper fair_weather (power_on 1710509400)
            (set_zone SHOWLOC (power_on 1710509400))
            (final (snd (loop fair_weather (power_on 1710509400)))) _ _ _ _).
  - reflexivity.
  - unfold now, time_t_max. cbn. lia.
  - vm_compute. discriminate.
  - vm_compute. reflexivity.
Defined.
Section Reports.

Lemma load_frame a b : eeprom a = eeprom b -> load a = load b.
Proof. unfold load, validSignature. intros ->. reflexivity. Qed.

Lemma validSignature_frame a b : eeprom a = eeprom b -> validSignature a = validSignature b.
Proof. unfold validSignature. intros ->. reflexivity. Qed.

Lemma load_save tz st :
  TimezoneEE.storable (Timezone.dst tz) = true ->
  TimezoneEE.storable (Timezone.std tz) = true ->
  load (save tz st) = Some tz.
Proof.
  intros Hd Hs. unfold load. rewrite validSignature_save.
  unfold save. cbv zeta. cbn [eeprom set_eeprom].
  change (EEBASE + 2) with TZBASE.
  rewrite readRules_writeRules by assumption. reflexivity.
Qed.

(** After any turn that returns, the remembered time is the present one. *)
Lemma loop_settles env st st' :
  snd (loop env st) = Returns st' ->
  tLast st' = fst (Timezone.toLocal myTZ (sysTime st')).
Proof.
  destruct (poll_statics env st) as (st1 & E & _).
  rewrite (loop_eq env st st1 E). cbv zeta.
  destruct (Z.eqb_spec (fst (Timezone.toLocal myTZ (sysTime st1))) (tLast st1)) as [C|C];
    cbn [negb snd].
  - intros H. injection H as <-. symmetry. exact C.
  - match goal with |- context [refresh env ?u ?t ?Y] =>
      pose proof (refresh_keeps env u t Y) as (K & _);
      destruct (refresh_cases env u t Y) as
        [(_ & R)|[(_ & _ & sc & Ec & R)|(_ & _ & _ & sc & Ec & R)]]
    end; rewrite R in K |- *; intros H; [| |discriminate];
    apply Returns_inj in H; rewrite <- H; clear H;
    rewrite final_Returns in K; apply config_fields in K;
    destruct K as (_ & _ & K & _).
    + rewrite K. reflexivity.
    + rewrite K.
      match goal with |- tLast (shown_state ?t ?X) = _ =>
        pose proof (shown_state_keeps t X) as (_ & _ & S & _); rewrite S end.
      reflexivity.
Qed.

End Reports.

(** X7: in a cycle with logging on, the record appended to the file and
    the line printed on the console after it are the same text, made of
    the buffers as the cycle leaves them; the console has before it the
    notice of a failed humidity reading, if any, and the two progress
    lines. *)
Theorem console_matches_card (env : Env) (st st' : State) :
  doLog st <> 0 -> cycle env st = Returns st' ->
  exists notice,
    (notice = EmptyString \/
     notice = ("Failed to read from DHT sensor!" ++ Arduino.endl)%string) /\
    sd_file st' = (sd_file st ++ log_record st')%string /\
    serial_out st' =
      (serial_out st ++ notice ++ ("SD Logging now ..." ++ Arduino.endl)
       ++ ("Logging done" ++ Arduino.endl) ++ log_record st')%string.
Proof.
  intros D E.
  destruct (cycle_cases env st) as [(D' & _)|[(_ & _ & E')|(_ & _ & E')]];
    [contradiction| |congruence].
  rewrite E' in E. injection E as <-.
  rewrite consoleUpdate_out. rewrite sampled_eq. unfold dht_notice.
  destruct (Arduino.isnan (humid_value env (sensor st))).
  - eexists. split; [right; reflexivity|]. split; [reflexivity|].
    st_cbn. rewrite !append_assoc. reflexivity.
  - exists EmptyString. split; [left; reflexivity|]. split; [reflexivity|].
    st_cbn. rewrite !append_assoc. reflexivity.
Qed.

(** A cycle at power-on with the card in. *)
Lemma console_matches_card_witness :
  exists notice,
    (notice = EmptyString \/
     notice = ("Failed to read from DHT sensor!" ++ Arduino.endl)%string) /\
    sd_file (final (cycle fair_weather (power_on 0))) = ("T" ++ "Z,23.50,45.2" ++ Arduino.endl)%string /\
    serial_out (final (cycle fair_weather (power_on 0))) =
      (notice ++ ("SD Logging now ..." ++ Arduino.endl)
       ++ ("Logging done" ++ Arduino.endl) ++ "T" ++ "Z,23.50,45.2" ++ Arduino.endl)%string.
Proof.
  refine (console_matches_card fair_weather (power_on 0)
            (final (cycle fair_weather (power_on 0))) _ _).
  - discriminate.
  - vm_compute. reflexivity.
Defined.

(** X8: the report that [setClock] prints after it has set the clock is
    made of the four buffers as they were before the call: it shows the
    time of the last turn (in local time when the display is local, and
    nothing at startup), not the time that was just set, and the buffers
    are not updated by the call. *)
Theorem clock_set_report (st : State) :
  (12 <= String.length (serial_in st))%nat ->
  rejected (year_field (serial_in st)) = false ->
  exists st',
    setClock st = Returns st' /\
    serial_out st' =
      (serial_out st
       ++ ("Must set date and time" ++ Arduino.endl ++ Arduino.endl)
       ++ ("Set LOCAL time (yy,m,d,h,m,s" ++ Arduino.endl)
       ++ (Arduino.endl ++ "RTC set to: ZULU ")
       ++ log_record st ++ Arduino.endl)%string /\
    bufDate st' = bufDate st /\ bufTime st' = bufTime st /\
    bufTemp st' = bufTemp st /\ bufHumid st' = bufHumid st /\
    serial_in st' = EmptyString.
Proof.
  intros L R. rewrite (setClock_accepts st L R). eexists. split; [reflexivity|].
  split; [|repeat split].
  unfold commit, prompt. cbv zeta.
  match goal with |- serial_out (set_serial_in _ (Serial_print _ (consoleUpdate ?X))) = _ =>
    change (serial_out (consoleUpdate X) ++ Arduino.endl = 
            serial_out st
       ++ ("Must set date and time" ++ Arduino.endl ++ Arduino.endl)
       ++ ("Set LOCAL time (yy,m,d,h,m,s" ++ Arduino.endl)
       ++ (Arduino.endl ++ "RTC set to: ZULU ")
       ++ log_record st ++ Arduino.endl)%string;
    rewrite (consoleUpdate_out X);
    change (log_record X) with (log_record st) end.
  st_cbn. rewrite !append_assoc. reflexivity.
Qed.

(** The operator sets 2024-03-15 09:30:00 on a device just powered on:
    the report has no date and no time in it. *)
Lemma clock_set_report_witness :
  exists st',
    setClock (typed "24,3,15,9,30,0") = Returns st' /\
    serial_out st' =
      (("Must set date and time" ++ Arduino.endl ++ Arduino.endl)
       ++ ("Set LOCAL time (yy,m,d,h,m,s" ++ Arduino.endl)
       ++ (Arduino.endl ++ "RTC set to: ZULU ")
       ++ ("T" ++ "Z,," ++ Arduino.endl) ++ Arduino.endl)%string /\
    bufDate st' = EmptyString /\ bufTime st' = EmptyString /\
    bufTemp st' = EmptyString /\ bufHumid st' = EmptyString /\
    serial_in st' = EmptyString.
Proof.
  refine (clock_set_report (typed "24,3,15,9,30,0") _ _).
  - vm_compute. lia.
  - vm_compute. reflexivity.
Defined.

(** X9: a second turn in the same second, with nothing typed, reads the
    jumper and prints the [time_t utc] line and does nothing else: no
    string is made, nothing is sent to the display or to the card. *)
Theorem same_second_idle (env env' : Env) (st st' : State) :
  snd (loop env st) = Returns st' -> serial_in st' = EmptyString ->
  loop env' st' =
    (false,
     Returns (Serial_print ("time_t utc = " ++ Arduino.utoa (now st') ++ Arduino.endl)
                (set_zone (adjustMode env') st'))).
Proof.
  intros H Hin. pose proof (loop_settles env st st' H) as T.
  rewrite (loop_eq env' st' _ (poll_quiet env' st' Hin)). cbv zeta.
  cbn [sysTime tLast set_zone]. rewrite <- T, Z.eqb_refl. reflexivity.
Qed.

(** Two turns at power-on with no time between them. *)
Lemma same_second_idle_witness :
  let st' := final (snd (loop fair_weather (power_on 1710509400))) in
  loop no_card st' =
    (false,
     Returns (Serial_print ("time_t utc = " ++ "1710509400" ++ Arduino.endl)
                (set_zone SHOWLOC st'))).
Proof.
  refine (same_second_idle fair_weather no_card (power_on 1710509400)
            (final (snd (loop fair_weather (power_on 1710509400)))) _ _).
  - vm_compute. reflexivity.
  - vm_compute. reflexivity.
Defined.

(** X10: a clock set that is accepted leaves a valid configuration for
    the next start: the signature is found, the rules that are read back
    are the compiled-in ones, and no input is left over. *)
Theorem clock_set_persists (st : State) :
  (12 <= String.length (serial_in st))%nat ->
  rejected (year_field (serial_in st)) = false ->
  exists st',
    setClock st = Returns st' /\
    validSignature st' = true /\ load st' = Some myTZ /\
    serial_in st' = EmptyString.
Proof.
  intros L R. rewrite (setClock_accepts st L R). eexists. split; [reflexivity|].
  unfold commit. cbv zeta.
  match goal with |- validSignature ?A = true /\ load ?A = _ /\ _ =>
    match A with context [save myTZ ?B] =>
      rewrite (validSignature_frame A (save myTZ B)) by reflexivity;
      rewrite (load_frame A (save myTZ B)) by reflexivity;
      rewrite validSignature_save, load_save by reflexivity
    end
  end.
  repeat split.
Qed.

(** 2024-03-15 09:30:00 typed on a blank device. *)
Lemma clock_set_persists_witness :
  exists st',
    setClock (typed "24,3,15,9,30,0") = Returns st' /\
    validSignature st' = true /\ load st' = Some myTZ /\
    serial_in st' = EmptyString.
Proof.
  refine (clock_set_persists (typed "24,3,15,9,30,0") _ _).
  - vm_compute. lia.
  - vm_compute. reflexivity.
Defined.




Section Startup.

Lemma steps_blocked turns : forall st, steps turns (Blocked st) = Blocked st.
Proof. induction turns as [|turn rest IH]; intros st; [reflexivity|]. apply IH. Qed.

(** [setClock] returns or waits, and leaves the statics, the switches and
    the log alone. *)
Lemma setClock_ends st :
  exists st',
    (setClock st = Returns st' \/ setClock st = Waits st') /\
    first st' = first st /\ tLast st' = tLast st /\ doLog st' = doLog st /\
    sd_file st' = sd_file st /\ zone st' = zone st /\ sensor st' = sensor st.
Proof.
  pose proof (setClock_statics st) as (A & B & C & D & _).
  pose proof (setClock_zone st) as Z.
  pose proof (setClock_keeps_sensor st) as S.
  destruct (Nat.eq_dec (String.length (serial_in st)) 0) as [E|E].
  - rewrite (setClock_waits st E) in *. eexists. split; [right; reflexivity|].
    repeat split.
  - destruct (setClock_returns st E) as (st' & R). rewrite R in *.
    exists st'. split; [left; reflexivity|]. repeat split; assumption.
Qed.

Lemma setup_config_ends st :
  exists st',
    (setup_config st = Returns st' \/ setup_config st = Waits st') /\
    first st' = first st /\ tLast st' = tLast st /\ doLog st' = doLog st /\
    sd_file st' = sd_file st /\ zone st' = zone st /\ sensor st' = sensor st.
Proof.
  unfold setup_config. destruct (validSignature st).
  - eexists. split; [left; reflexivity|]. repeat split.
  - cbv zeta.
    match goal with |- context [setClock ?X] =>
      destruct (setClock_ends X) as (st' & O & F) end.
    exists st'. split; [exact O|exact F].
Qed.

Lemma setup_clock_ends boot st :
  exists st',
    (setup_clock boot st = Returns st' \/ setup_clock boot st = Waits st') /\
    first st' = first st /\ tLast st' = tLast st /\ doLog st' = doLog st /\
    sd_file st' = sd_file st /\ zone st' = zone st /\ sensor st' = sensor st.
Proof.
  unfold setup_clock. cbv zeta. destruct (rtc_get boot st =? 0).
  - match goal with |- context [setClock ?X] =>
      destruct (setClock_ends X) as (st' & [O|O] & F) end; rewrite O.
    + eexists. split; [left; reflexivity|]. exact F.
    + eexists. split; [right; reflexivity|]. exact F.
  - eexists. split; [left; reflexivity|]. repeat split.
Qed.

Lemma setup_sensors_keeps env st :
  config (setup_sensors env st) = config st /\
  first (setup_sensors env st) = first st /\
  tLast (setup_sensors env st) = tLast st /\
  sd_file (setup_sensors env st) = sd_file st /\
  bufTemp (setup_sensors env st) = temp_string (temp_value env (sensor st)) /\
  bufHumid (setup_sensors env st) = humid_string (humid_value env (sensor st)).
Proof.
  unfold setup_sensors. cbv zeta. st_cbn.
  destruct (negb (Z.lor (Z.land (sensor st) USEDHTHUM) (Z.land (sensor st) USEDHTTEMP) =? 0));
    st_cbn; unfold mkHumidStr, humid_string; cbv zeta; st_cbn;
    destruct (Arduino.isnan (humid_value env (sensor st))); repeat split.
Qed.

Lemma setup_card_keeps boot st :
  doLog (setup_card boot st) = (if sd_begins boot then doLog st else 0) /\
  eeprom (setup_card boot st) = eeprom st /\ rtc (setup_card boot st) = rtc st /\
  sysTime (setup_card boot st) = sysTime st /\
  serial_in (setup_card boot st) = serial_in st /\
  zone (setup_card boot st) = zone st /\ sensor (setup_card boot st) = sensor st /\
  first (setup_card boot st) = first st /\ tLast (setup_card boot st) = tLast st /\
  sd_file (setup_card boot st) = sd_file st /\
  bufTemp (setup_card boot st) = bufTemp st /\
  bufHumid (setup_card boot st) = bufHumid st /\
  exists ops, lcd (setup_card boot st) = ops ++ [LcdClear].
Proof.
  unfold setup_card. destruct (sd_begins boot); cbv zeta; cbn [negb];
    repeat (split; [reflexivity|]); eexists; reflexivity.
Qed.

(** How [setup] ends: it returns or stays in the wait for input, never in
    [halt]. *)
Lemma setup_ends boot env st :
  exists st',
    (setup boot env st = Waits st' \/
     setup boot env st = Returns st' /\
     doLog st' = (if sd_begins boot then doLog st else 0) /\
     zone st' = adjustMode env /\
     exists ops, lcd st' = ops ++ [LcdClear]) /\
    first st' = first st /\ tLast st' = tLast st /\ sd_file st' = sd_file st.
Proof.
  unfold setup.
  destruct (setup_config_ends (setup_hello env st)) as (s1 & [O1|O1] & A1 & B1 & C1 & D1 & E1 & _);
    rewrite O1.
  - destruct (setup_clock_ends boot s1) as (s2 & [O2|O2] & A2 & B2 & C2 & D2 & E2 & _);
      rewrite O2.
    + pose proof (setup_sensors_keeps env s2) as (K & K1 & K2 & K3 & _).
      apply config_fields in K. destruct K as (_ & _ & _ & _ & Kz & Kd & _).
      pose proof (setup_card_keeps boot (setup_sensors env s2))
        as (P1 & _ & _ & _ & _ & Pz & _ & Pf & Pt & Ps & _ & _ & Pl).
      eexists. split; [right; split; [reflexivity|]|].
      * rewrite P1, Pz, Kd, Kz, C2, E2, C1, E1. repeat split. exact Pl.
      * rewrite Pf, Pt, Ps, K1, K2, K3, A2, B2, D2, A1, B1, D1. repeat split.
    + exists s2. split; [left; reflexivity|].
      rewrite A2, B2, D2, A1, B1, D1. repeat split.
  - exists s1. split; [left; reflexivity|]. rewrite A1, B1, D1. repeat split.
Qed.

End Startup.
(** X12: on a device without the signature in its EEPROM and with nothing
    typed yet, [setup] shows the splash screen and the EEPROM Invalid
    notice and then stays in the wait for input of [setClock]: the sensors
    and the card are not started and nothing runs until a line arrives. *)
Theorem setup_waits_for_operator (boot : Boot) (env : Env) (st : State)
    (turns : list (Z * Env)) :
  validSignature st = false -> serial_in st = EmptyString ->
  exists st',
    setup boot env st = Waits st' /\
    steps turns (boot_machine boot env st) = Blocked st' /\
    eeprom st' = eeprom st /\ rtc st' = rtc st /\ doLog st' = doLog st /\
    bufTemp st' = bufTemp st /\ bufHumid st' = bufHumid st /\
    lcd st' =
      lcd st ++ [LcdClear; LcdSetCursor 0 0; LcdPrint "System";
                 LcdSetCursor 0 1; LcdPrint "Startup";
                 LcdClear; LcdSetCursor 0 0; LcdPrint "EEPROM Invalid";
                 LcdSetCursor 0 1; LcdPrint "Set Time"].
Proof.
  intros Hv Hin. unfold boot_machine, setup, setup_config.
  rewrite (validSignature_frame (setup_hello env st) st) by reflexivity.
  rewrite Hv. cbv zeta.
  rewrite setClock_waits
    by (change (String.length (serial_in st) = 0%nat); rewrite Hin; reflexivity).
  eexists. split; [reflexivity|]. split; [apply steps_blocked|].
  repeat (split; [reflexivity|]).
  unfold prompt, setup_hello, showIntro. st_cbn. rewrite <- app_assoc. reflexivity.
Qed.

(** A blank device is switched on and left alone for two seconds. *)
Lemma setup_waits_for_operator_witness :
  exists st',
    setup (mkBoot true true) fair_weather (power_on 0) = Waits st' /\
    steps [(1, fair_weather); (1, fair_weather)]
          (boot_machine (mkBoot true true) fair_weather (power_on 0)) = Blocked st' /\
    eeprom st' = ∅ /\ rtc st' = 0 /\ doLog st' = 1 /\
    bufTemp st' = EmptyString /\ bufHumid st' = EmptyString /\
    lcd st' =
      [LcdClear; LcdSetCursor 0 0; LcdPrint "System";
       LcdSetCursor 0 1; LcdPrint "Startup";
       LcdClear; LcdSetCursor 0 0; LcdPrint "EEPROM Invalid";
       LcdSetCursor 0 1; LcdPrint "Set Time"].
Proof.
  exact (setup_waits_for_operator (mkBoot true true) fair_weather (power_on 0)
           [(1, fair_weather); (1, fair_weather)] eq_refl eq_refl).
Defined.

(** X13: a device with the signature in its EEPROM and a clock that
    answers starts without the operator: [setup] returns without entering
    [setClock], even with input pending, writes neither the EEPROM nor the
    hardware clock, takes a first reading of both sensors, and turns
    logging off exactly when the card does not start. *)
Theorem setup_configured (boot : Boot) (env : Env) (st : State) :
  validSignature st = true -> rtc_answers boot = true -> rtc st <> 0 ->
  exists st',
    setup boot env st = Returns st' /\
    eeprom st' = eeprom st /\ rtc st' = rtc st /\ sysTime st' = rtc st /\
    serial_in st' = serial_in st /\
    zone st' = adjustMode env /\
    doLog st' = (if sd_begins boot then doLog st else 0) /\
    bufTemp st' = temp_string (temp_value env (sensor st)) /\
    bufHumid st' = humid_string (humid_value env (sensor st)).
Proof.
  intros Hv Ha Hr. unfold setup, setup_config.
  rewrite (validSignature_frame (setup_hello env st) st) by reflexivity.
  rewrite Hv. cbv zeta. unfold setup_clock, rtc_get. rewrite Ha. cbv zeta.
  st_cbn. unfold setup_hello, showIntro. st_cbn.
  destruct (Z.eqb_spec (rtc st) 0) as [C|_]; [contradiction|].
  eexists. split; [reflexivity|].
  match goal with |- context [setup_card boot (setup_sensors env ?X)] =>
    pose proof (setup_sensors_keeps env X) as (K & _ & _ & _ & T & H);
    apply config_fields in K; destruct K as (K1 & K2 & K3 & K4 & K5 & K6 & _);
    pose proof (setup_card_keeps boot (setup_sensors env X))
      as (P1 & P2 & P3 & P4 & P5 & P6 & _ & _ & _ & _ & P7 & P8 & _);
    rewrite P1, P2, P3, P4, P5, P6, P7, P8, K1, K2, K3, K4, K5, K6, T, H
  end.
  repeat split.
Qed.

(** The clock was set before and the card is out. *)
Lemma setup_configured_witness :
  let st := save myTZ (power_on 1710509400) in
  exists st',
    setup (mkBoot true false) fair_weather st = Returns st' /\
    eeprom st' = eeprom st /\ rtc st' = 1710509400 /\ sysTime st' = 1710509400 /\
    serial_in st' = EmptyString /\
    zone st' = SHOWLOC /\
    doLog st' = 0 /\
    bufTemp st' = "23.50"%string /\
    bufHumid st' = "45.2"%string.
Proof.
  refine (setup_configured (mkBoot true false) fair_weather
            (save myTZ (power_on 1710509400)) _ _ _).
  - vm_compute. reflexivity.
  - reflexivity.
  - vm_compute. discriminate.
Defined.

(** X14: when the card does not start, logging is off for good: [setup]
    never ends in [halt], and whatever turns follow, whatever is typed and
    whether or not the file would open later, the device never enters
    [halt] and the log is never written. *)
Theorem no_card_at_startup (boot : Boot) (env : Env) (st : State)
    (turns : list (Z * Env)) :
  sd_begins boot = false ->
  (forall st' led, steps turns (boot_machine boot env st) <> Halted st' led) /\
  sd_file (memory (steps turns (boot_machine boot env st))) = sd_file st.
Proof.
  intros Hb. unfold boot_machine.
  destruct (setup_ends boot env st) as (s1 & [O|(O & D & _)] & _ & _ & F); rewrite O.
  - rewrite steps_blocked. split; [discriminate|exact F].
  - rewrite Hb in D.
    destruct (steps_nolog turns s1 D) as (s2 & E & _ & F2). rewrite E.
    split; [discriminate|]. cbn [memory]. rewrite F2. exact F.
Qed.

(** A configured device starts without its card and runs into the first
    cycle, for which the file would not open. *)
Lemma no_card_at_startup_witness :
  let m := steps [(0, no_card); (1, no_card)]
                 (boot_machine (mkBoot true false) no_card
                               (save myTZ (power_on 1710509400))) in
  (forall st' led, m <> Halted st' led) /\ sd_file (memory m) = EmptyString.
Proof.
  exact (no_card_at_startup (mkBoot true false) no_card
           (save myTZ (power_on 1710509400)) [(0, no_card); (1, no_card)] eq_refl).
Defined.

(** X15: the operator has one try at startup: when the line typed is too
    short or its year is rejected, [setup] goes on as if the clock had been
    set; with a clock that answers it returns, and the device runs with no
    signature in the EEPROM and the clock as it was. *)
Theorem setup_one_try (boot : Boot) (env : Env) (st : State) :
  validSignature st = false ->
  (0 < String.length (serial_in st) < 12)%nat \/
  (12 <= String.length (serial_in st))%nat /\
  rejected (year_field (serial_in st)) = true ->
  rtc_answers boot = true -> rtc st <> 0 ->
  exists st',
    setup boot env st = Returns st' /\
    validSignature st' = false /\ eeprom st' = eeprom st /\ rtc st' = rtc st.
Proof.
  intros Hv Hl Ha Hr. unfold setup, setup_config.
  rewrite (validSignature_frame (setup_hello env st) st) by reflexivity.
  rewrite Hv. cbv zeta.
  match goal with |- context [setClock ?X] =>
    assert (G : exists s1, setClock X = Returns s1 /\ eeprom s1 = eeprom st /\
                           rtc s1 = rtc st /\ sysTime s1 = sysTime st);
    [change (serial_in st) with (serial_in X) in Hl|]
  end.
  { destruct Hl as [Hl|(Hl & Hy)].
    - rewrite (setClock_short _ Hl). eexists. split; [reflexivity|]. repeat split.
    - rewrite (setClock_rejects _ Hl Hy). eexists. split; [reflexivity|]. repeat split. }
  destruct G as (s1 & -> & G1 & G2 & G3).
  unfold setup_clock, rtc_get. rewrite Ha, G2. cbv zeta.
  destruct (Z.eqb_spec (rtc st) 0) as [C|_]; [contradiction|].
  eexists. split; [reflexivity|].
  match goal with |- context [setup_card boot (setup_sensors env ?X)] =>
    pose proof (setup_sensors_keeps env X) as (K & _);
    apply config_fields in K; destruct K as (K1 & K2 & _);
    pose proof (setup_card_keeps boot (setup_sensors env X)) as (_ & P2 & P3 & _);
    rewrite (validSignature_frame (setup_card boot (setup_sensors env X)) st)
      by (rewrite P2, K1; exact G1);
    rewrite P2, P3, K1, K2
  end.
  split; [exact Hv|]. split; [exact G1|exact G2].
Qed.

(** A year of three digits typed at the first start. *)
Lemma setup_one_try_witness :
  let st := set_rtc 1710509400 (typed "123,3,15,9,30,0") in
  exists st',
    setup (mkBoot true true) fair_weather st = Returns st' /\
    validSignature st' = false /\ eeprom st' = ∅ /\ rtc st' = 1710509400.
Proof.
  refine (setup_one_try (mkBoot true true) fair_weather
            (set_rtc 1710509400 (typed "123,3,15,9,30,0")) _ _ _ _).
  - vm_compute. reflexivity.
  - right. split; [vm_compute; lia|vm_compute; reflexivity].
  - reflexivity.
  - vm_compute. discriminate.
Defined.
Section Widths.

Import Arduino.

Lemma fmt_d_length v :
  0 <= v < 100 -> String.length (fmt_d v) = if v <? 10 then 1%nat else 2%nat.
Proof.
  intros H. unfold fmt_d. destruct (Z.ltb_spec v 0); [lia|].
  destruct (Z.ltb_spec v 10).
  - rewrite utoa_1 by lia. reflexivity.
  - rewrite utoa_2 by lia. reflexivity.
Qed.

Lemma fmt_0d_2 v :
  0 <= v < 100 ->
  fmt_0d 2 v = if v <? 10 then ("0" ++ fmt_d v)%string else fmt_d v.
Proof.
  intros H. unfold fmt_0d, fmt_d. destruct (Z.ltb_spec v 0); [lia|].
  destruct (Z.ltb_spec v 10).
  - rewrite utoa_1 by lia. reflexivity.
  - rewrite utoa_2 by lia. reflexivity.
Qed.



End Widths.



(** X17: for a reading from 0 to below 100 the humidity string has 3 or 4
    characters and the temperature string 3 to 5, so that both fit their
    buffers of 8 bytes; a temperature of 10 degrees or more whose fraction
    is 0.1 or more has 5 characters, which with the degree sign and the C
    make 7 cells written from column 10, where [displayTemp] has blanked
    6. *)
Theorem reading_widths (x : spec_float) :
  readable x = true -> scaled x < 100 * 2 ^ 149 ->
  let r := scaled x - scaled x / 2 ^ 149 * 2 ^ 149 in
  (3 <= String.length (humid_string x) <= 4)%nat /\
  (3 <= String.length (temp_string x) <= 5)%nat /\
  (10 * 2 ^ 149 <= scaled x -> 2 ^ 149 <= 10 * r ->
   String.length (temp_string x) = 5%nat).
Proof.
  intros Hr Hx r.
  assert (P : 0 < 2 ^ 149) by (apply Z.pow_pos_nonneg; lia).
  destruct (fraction_digits 10 10485760 (-20) x) as (N & Ei & Bi & _ & Cf & Bf);
    [lia|lia|reflexivity|split; reflexivity|exact Hr|].
  destruct (fraction_digits 100 13107200 (-17) x) as (_ & _ & _ & _ & Cg & Bg);
    [lia|lia|reflexivity|split; reflexivity|exact Hr|].
  fold r in Cf, Cg.
  assert (Hi : 0 <= scaled x / 2 ^ 149 < 100).
  { split; [lia|]. apply Z.div_lt_upper_bound; lia. }
  rewrite (humid_string_eq x N), (temp_string_eq x N), float_of_int_10, float_of_int_100.
  set (f := Arduino.int_of_float (Arduino.fmul (S754_finite false 10485760 (-20)) _)) in *.
  set (g := Arduino.int_of_float (Arduino.fmul (S754_finite false 13107200 (-17)) _)) in *.
  rewrite Ei, !length_append. change (String.length ".") with 1%nat.
  rewrite (fmt_d_length _ Hi), (fmt_d_length f), (fmt_d_length g) by lia.
  destruct (Z.ltb_spec f 10) as [_|Hf]; [|lia].
  split; [|split].
  - destruct (scaled x / 2 ^ 149 <? 10); lia.
  - destruct (scaled x / 2 ^ 149 <? 10), (g <? 10); lia.
  - intros H10 Hf.
    destruct (Z.ltb_spec (scaled x / 2 ^ 149) 10) as [A|_].
    { exfalso. assert (10 <= scaled x / 2 ^ 149) by (apply Z.div_le_lower_bound; lia). lia. }
    destruct (Z.ltb_spec g 10) as [B|_]; [|reflexivity].
    exfalso.
    assert (10 <= 100 * r / 2 ^ 149) by (apply Z.div_le_lower_bound; lia). lia.
Qed.

(** 23.5 degrees. *)
Lemma reading_widths_witness :
  let x := S754_finite false 12320768 (-19) in
  (3 <= String.length (humid_string x) <= 4)%nat /\
  (3 <= String.length (temp_string x) <= 5)%nat /\
  (10 * 2 ^ 149 <= scaled x ->
   2 ^ 149 <= 10 * (scaled x - scaled x / 2 ^ 149 * 2 ^ 149) ->
   String.length (temp_string x) = 5%nat).
Proof.
  refine (reading_widths (S754_finite false 12320768 (-19)) _ _).
  - vm_compute. reflexivity.
  - vm_compute. reflexivity.
Defined.
Section EarlierSketch.

Import Arduino.

Lemma printI00_eq v d out :
  0 <= v < 100 -> Earlier.char_positive d = true ->
  Earlier.printI00 v d out = (out ++ fmt_0d 2 v ++ String d EmptyString)%string.
Proof.
  intros H Hd. unfold Earlier.printI00. cbv zeta. rewrite Hd, (fmt_0d_2 v H).
  destruct (v <? 10); rewrite !append_assoc; reflexivity.
Qed.

End EarlierSketch.

(** X18: [printI00] of the earlier sketch prints a value from 0 to 99 as
    exactly two digits, with a leading zero below 10, then the delimiter:
    the same text as the [%02d] of the later sketch. *)
Theorem printI00_two_digits (v : Z) (d : ascii) (out : string) :
  0 <= v < 100 -> Earlier.char_positive d = true ->
  Earlier.printI00 v d out = (out ++ Arduino.fmt_0d 2 v ++ String d EmptyString)%string /\
  String.length (Earlier.printI00 v d out) = (String.length out + 3)%nat.
Proof.
  intros H Hd. rewrite (printI00_eq v d out H Hd). split; [reflexivity|].
  rewrite !length_append, (fmt_0d_2_length v H). reflexivity.
Qed.

(** Seven, with a colon. *)
Lemma printI00_two_digits_witness :
  Earlier.printI00 7 ":" "" = "07:"%string /\
  String.length (Earlier.printI00 7 ":" "") = 3%nat.
Proof.
  exact (printI00_two_digits 7 ":" "" ltac:(lia) eq_refl).
Defined.

(** X19: the earlier sketch and the later one write the time of day the
    same way: [printTime] sends to the console the text that [mkTimeStr]
    puts in [bufTime], followed by a blank. *)
Theorem printTime_agrees (t : Z) (out : string) (st : State) :
  Earlier.printTime t out = (out ++ bufTime (mkTimeStr t st) ++ " ")%string.
Proof.
  pose proof (time_fields t) as (Hh & Hm & Hs).
  unfold Earlier.printTime. cbv zeta.
  rewrite !printI00_eq by (reflexivity || lia).
  cbn [bufTime mkTimeStr set_bufTime]. unfold time_string.
  rewrite !append_assoc. reflexivity.
Qed.

(** X20: saving the configuration writes the 26 bytes from address 100 to
    125 and no other: the two signature bytes and twelve bytes for each
    rule; every other cell of the EEPROM reads as before. *)
Theorem save_writes_26_bytes (tz : Timezone.RulePair) (st : State) (a : Z) :
  a < 100 \/ 126 <= a ->
  Arduino.EEPROM_read (eeprom (save tz st)) a = Arduino.EEPROM_read (eeprom st) a.
Proof.
  intros H. unfold save, writeSignature, TimezoneEE.writeRules. cbv zeta.
  cbn [eeprom set_eeprom].
  rewrite read_put_outside
    by (rewrite rule_bytes_length; unfold TZBASE, EEBASE; lia).
  rewrite read_put_outside
    by (rewrite rule_bytes_length; unfold TZBASE, EEBASE; lia).
  rewrite !read_write. unfold EEBASE.
  destruct (decide (100 + 1 = a)); [lia|].
  destruct (decide (100 = a)); [lia|]. reflexivity.
Qed.

(** The cell behind the rules is still erased after a save. *)
Lemma save_writes_26_bytes_witness :
  Arduino.EEPROM_read (eeprom (save myTZ (power_on 0))) 126 = 255.
Proof.
  exact (save_writes_26_bytes myTZ (power_on 0) 126 ltac:(lia)).
Defined.

Section Exact.

Import Arduino.


Lemma round24_0 : round24 0 = 0.
Proof. reflexivity. Qed.








End Exact.


